(** * kapi: a shallow embedding of the typed client, reconciler, hook,
      cluster, log-adapter and resource-envelope code

    The Go sources are effectful: every operation writes logs and metrics
    through the process-wide observability configuration, talks to the
    cluster store through a controller-runtime client, and reads or writes
    the [connected] flag of its cluster.  The embedding threads an explicit
    [world] (the cluster's state and the ordered trace of every observable
    effect) through a small state-and-panic monad.  Everything outside the
    repository (the store, the manager, the JSON encoder's treatment of a
    payload type, the slice-growth policy of the runtime) is a parameter.

    The [context.Context] argument that every Go function threads through is
    not modelled: no decision in the modelled code reads it. *)

From stdpp Require Import base tactics option list strings gmap.
From Stdlib Require Import ZArith Lia.

Local Open Scope string_scope.
Local Open Scope list_scope.

(** ** Errors and dynamically typed attribute values *)

(** Go [error] values.  [StatusError] is the API-machinery error carrying a
    status reason; every other error is a [PlainError] with its message. *)
Inductive error : Type :=
| StatusError (reason : string) (msg : string)
| PlainError (msg : string).

Definition error_string (e : error) : string :=
  match e with
  | StatusError _ msg => msg
  | PlainError msg => msg
  end.

(** [apierrors.IsNotFound] *)
Definition IsNotFound (e : error) : bool :=
  match e with
  | StatusError reason _ => String.eqb reason "NotFound"
  | PlainError _ => false
  end.

(** [fmt.Errorf(prefix + "%v", err)]: a fresh error whose text ends with the
    text of [err]; the [%v] verb does not keep [err] as a cause. *)
Definition Errorf (prefix : string) (err : error) : error :=
  PlainError (prefix +:+ error_string err).

(** Values passed in a variadic [...any] attribute list. *)
Inductive any : Type :=
| AStr (s : string)
| AInt (n : Z)
| AErr (e : error).

(** Result of running Go code that may panic. *)
Inductive outcome (A : Type) : Type :=
| Done (a : A)
| Panic (msg : string).
Arguments Done {A} a.
Arguments Panic {A} msg.

Definition is_panic {A} (o : outcome A) : bool :=
  match o with Panic _ => true | Done _ => false end.

(** ** Event types of the reconciler (reconciler.go) *)

Inductive ResourceEventType : Type :=
| ResourceEventTypeCreated
| ResourceEventTypeUpdated
| ResourceEventTypeDeleted.

Inductive ReconcileEventType : Type :=
| ReconcileEventTypeCreatedOrUpdated
| ReconcileEventTypeDeleted.

Definition ResourceEventType_String (r : ResourceEventType) : string :=
  match r with
  | ResourceEventTypeCreated => "created"
  | ResourceEventTypeUpdated => "updated"
  | ResourceEventTypeDeleted => "deleted"
  end.

Definition ReconcileEventType_String (r : ReconcileEventType) : string :=
  match r with
  | ReconcileEventTypeCreatedOrUpdated => "created_or_updated"
  | ReconcileEventTypeDeleted => "deleted"
  end.

Definition ReconcileEventType_int (r : ReconcileEventType) : Z :=
  match r with
  | ReconcileEventTypeCreatedOrUpdated => 0
  | ReconcileEventTypeDeleted => 1
  end%Z.

(** ** What a Go type parameter provides at run time *)

(** [T client.Object] is a pointer type: [zeroOf] is the struct that
    [reflect.New(...)] allocates, [typeName] is what [%T] prints,
    [show] what [%v] prints and [showPlus] what [%+v] prints. *)
Class GoType (T : Type) : Type := {
  zeroOf : T;
  typeName : string;
  show : T -> string;
  showPlus : T -> string;
}.

(** ** The world: cluster state and observable effects *)

(** Which low-level client a store request goes through. *)
Inductive clientKind : Type := CachedClient | DirectClient.

Section World.
Context {T TList : Type}.

(** Requests that reach the underlying store. *)
Inductive request : Type :=
| ReqCreate (obj : T)
| ReqUpdate (obj : T)
| ReqSubResourceUpdate (subresource : string) (obj : T)
| ReqDelete (obj : T)
| ReqGet (namespace name : string) (obj : T)
| ReqList (list : TList).

Inductive event : Type :=
| EvLog (level : Z) (msg : string) (attributes : list any)
| EvTimerStart (metric : string)
| EvTimerStop (metric : string) (attributes : list string)
| EvNewCorrelationCtx
| EvClientNew
| EvStore (via : clientKind) (req : request) (err : option error)
| EvManagerStart
| EvControllerComplete (resource_type : string)
| EvWebhookComplete (resource_type : string)
| EvReconcilerFunc (evt : ReconcileEventType) (resource : T)
| EvDefaulterFunc (resource : T)
| EvValidateCreateFunc (resource : T)
| EvValidateUpdateFunc (oldResource newResource : T)
| EvValidateDeleteFunc (resource : T).

(** The behaviour of everything outside the repository.  Every answer may
    depend on the trace so far, so a stateful store is covered. *)
Record Env : Type := {
  (** One request on a low-level client.  The client decodes the server's
      answer into the pointer it was given: [inr obj] is that object after
      a call that returned nil, [inl err] a call that returned [err] and
      left the object as it was. *)
  store_item : list event -> clientKind -> request -> error + T;
  store_list : list event -> clientKind -> TList -> error + TList;
  (** [client.New]: may fail *)
  client_New : list event -> option error;
  (** [manager.Start]: blocks, then returns an error or nil *)
  manager_Start : list event -> option error;
  (** [ctrl.NewControllerManagedBy(...).Complete] *)
  controller_Complete : list event -> option error;
}.
End World.
Arguments request : clear implicits.
Arguments event : clear implicits.
Arguments Env : clear implicits.

(** ** Registration data (reconciler.go, hook.go) *)

Section Registration.
Context {Obj T : Type}.

(** [ReconcilerFilterFunc]: the filter sees the untyped [client.Object]. *)
Definition ReconcilerFilterFunc : Type := ResourceEventType -> Obj -> bool.

(** [ReconcilerFunc[T]]: returns nil or an error.  A callback is held as
    what it returns for a classification and a resource.  What it does
    besides (requests through a client of its own, a panic) and a nil
    callback are not part of the model: the properties speak of the code
    of this repository around the call, for a callback that returns. *)
Definition ReconcilerFunc : Type := ReconcileEventType -> T -> option error.

(** The framework's watch events ([event.CreateEvent] and so on). *)
Inductive watchEvent : Type :=
| CreateEvent (Object : Obj)
| UpdateEvent (ObjectOld ObjectNew : Obj)
| DeleteEvent (Object : Obj).

(** [Client[TItem, TList]]: the closure [getClient] captures the cluster
    and the [cache] choice; the reflected types are the type parameters. *)
Record Client : Type := { cache : bool }.

(** What [AddReconciler] hands to the framework: the filter its
    predicate closures capture (never nil at that point), and the
    [reconciler[T]] struct with the callback and its own client. *)
Record controller : Type := {
  reconcilerFilterFunc : ReconcilerFilterFunc;
  reconcilerFunc : ReconcilerFunc;
  client : Client;
}.

(** [Hook[T]]: four optional callbacks, [None] for nil.  The defaulter
    mutates the resource it is given, so it returns the resource as it
    leaves it.  As for a reconciler, a callback is held as what it
    returns: requests of its own and a panic are not part of the model. *)
Record Hook : Type := {
  DefaulterFunc : option (T -> T * option error);
  ValidateCreateFunc : option (T -> list string * option error);
  ValidateUpdateFunc : option (T -> T -> list string * option error);
  ValidateDeleteFunc : option (T -> list string * option error);
}.
End Registration.
Arguments ReconcilerFilterFunc : clear implicits.
Arguments ReconcilerFunc : clear implicits.
Arguments watchEvent : clear implicits.
Arguments controller : clear implicits.
Arguments Hook : clear implicits.

(** ** World and monad *)

Section Monad.
Context {Obj T TList : Type}.

(** [Cluster] (kapi.go) owns the manager and the [connected] flag; the
    controllers the manager accepted, the hooks handed to its webhook
    builder and the trace of effects complete the world. *)
Record world : Type := {
  connected : bool;
  controllers : list (controller Obj T);
  webhooks : list (Hook T);
  trace : list (event T TList);
}.

Definition M (A : Type) : Type := world -> outcome A * world.

(** An effect that cannot panic (a log line, a timer stop). *)
Definition effect : Type := world -> world.

Definition ret {A} (a : A) : M A := fun w => (Done a, w).

Definition bind {A B} (m : M A) (k : A -> M B) : M B :=
  fun w =>
    match m w with
    | (Done a, w') => k a w'
    | (Panic msg, w') => (Panic msg, w')
    end.

Definition panic {A} (msg : string) : M A := fun w => (Panic msg, w).

Definition lift (f : effect) : M unit := fun w => (Done tt, f w).

Definition emit (e : event T TList) : effect :=
  fun w => {| connected := connected w; controllers := controllers w;
              webhooks := webhooks w; trace := trace w ++ [e] |}.

Definition set_connected (b : bool) : effect :=
  fun w => {| connected := b; controllers := controllers w;
              webhooks := webhooks w; trace := trace w |}.

Definition add_controller (c : controller Obj T) : effect :=
  fun w => {| connected := connected w; controllers := controllers w ++ [c];
              webhooks := webhooks w; trace := trace w |}.

Definition add_webhook (h : Hook T) : effect :=
  fun w => {| connected := connected w; controllers := controllers w;
              webhooks := webhooks w ++ [h]; trace := trace w |}.

(** Go's [defer f()]: [f] runs when the body returns and also when it
    panics; the panic then continues. *)
Definition defer {A} (f : effect) (body : M A) : M A :=
  fun w => let '(r, w') := body w in (r, f w').

(** *** The observability contract after [Init] (kapi.go)

    [Init] wraps the configured log function so that every call carries
    the pair "lib", "kapi"; the configured functions themselves are
    modelled by the events they leave in the trace. *)
Definition logf (level : Z) (msg : string) (attributes : list any) : effect :=
  emit (EvLog level msg (attributes ++ [AStr "lib"; AStr "kapi"])).

Definition LogFunc (level : Z) (msg : string) (attributes : list any) : M unit :=
  lift (logf level msg attributes).

(** [MetricTimerFunc(ctx, metric)] starts a timer and returns the closure
    that stops and records it. *)
Definition MetricTimerFunc (metric : string) : M (list string -> effect) :=
  fun w => (Done (fun attributes => emit (EvTimerStop metric attributes)),
            emit (EvTimerStart metric) w).

Definition NewCorrelationCtx : M unit := lift (emit EvNewCorrelationCtx).
End Monad.
Arguments world : clear implicits.
Arguments M : clear implicits.
Arguments effect : clear implicits.

Declare Scope kapi_scope.
Delimit Scope kapi_scope with kapi.
Notation "'let!' x ':=' m 'in' k" := (bind m (fun x => k))
  (at level 10, x name, m at level 100, k at level 200, only parsing) : kapi_scope.
Notation "'run' m 'in' k" := (bind m (fun _ => k))
  (at level 10, m at level 100, k at level 200, only parsing) : kapi_scope.
Local Open Scope kapi_scope.

(** ** client.go *)

Module KClient.
Section Client.
Context {Obj T TList : Type} `{GoType T} `{GoType TList}.
Variable env : Env T TList.

#[local] Abbreviation M := (M Obj T TList).
#[local] Abbreviation effect := (effect Obj T TList).

(** [ClientFor(ctx, cluster, cache)] *)
Definition ClientFor (cache : bool) : M Client :=
  run LogFunc 3 "creating kapi.client"
    [AStr "resource_type"; AStr (typeName (T:=T));
     AStr "resource_list_type"; AStr (typeName (T:=TList))] in
  ret {| cache := cache |}.

(** The closure stored in [Client.getClient]. *)
Definition getClient (c : Client) : M (error + clientKind) :=
  fun w =>
    if negb (connected w) then
      (Panic "kapi.client used before kapi.cluster.connect called", w)
    else if negb (cache c) then
      let w' := emit EvClientNew w in
      match client_New env (trace w') with
      | Some err => (Done (inl err), w')
      | None => (Done (inr DirectClient), w')
      end
    else (Done (inr CachedClient), w).

(** One call on the low-level client with the object [obj] it points at:
    the store answers, and the request is recorded with the error it
    returned. *)
Definition store_call (clt : clientKind) (req : request T TList) (obj : T)
    : M (T * option error) :=
  fun w =>
    match store_item env (trace w) clt req with
    | inl err => (Done (obj, Some err), emit (EvStore clt req (Some err)) w)
    | inr obj' => (Done (obj', None), emit (EvStore clt req None) w)
    end.

Definition store_call_list (clt : clientKind) (l : TList) : M (TList * option error) :=
  fun w =>
    match store_list env (trace w) clt l with
    | inl err => (Done (l, Some err), emit (EvStore clt (ReqList l) (Some err)) w)
    | inr l' => (Done (l', None), emit (EvStore clt (ReqList l) None) w)
    end.

(** [Client.observe]: starts the timer and logs the summary at once;
    the returned closure logs the payload, then stops the timer. *)
Definition observe {P} `{GoType P} (act : string) : M (P -> effect) :=
  let! stopTimer := MetricTimerFunc "kapi_client" in
  run LogFunc 1 "kapi.client invoked"
    [AStr "type"; AStr "kapi_client_summary"; AStr "resource_action"; AStr act;
     AStr "resource_type"; AStr (typeName (T:=T));
     AStr "resource_list_type"; AStr (typeName (T:=TList))] in
  ret (fun (obj : P) w =>
         stopTimer ["resource_type"; typeName (T:=T); "resource_action"; act]
           (logf 3 "kapi.client invoked"
              [AStr "type"; AStr "kapi_client_trace"; AStr "resource_action"; AStr act;
               AStr "resource_type"; AStr (typeName (T:=T));
               AStr "resource_list_type"; AStr (typeName (T:=TList));
               AStr "resource"; AStr ("+" +:+ show obj)] w)).

(** [defer c.observe(ctx, act, obj)()]: [observe] runs now, its closure
    when the body is left.  [obj] is a pointer: the closure prints the
    object as the body left it, which is [obj0] when the body panicked
    before any store call. *)
Definition observed {P A} `{GoType P} (act : string) (obj0 : P)
    (body : M (P * A)) : M (P * A) :=
  let! stop := observe act in
  (fun w =>
     match body w with
     | (Done (obj, a), w') => (Done (obj, a), stop obj w')
     | (Panic msg, w') => (Panic msg, stop obj0 w')
     end).

(** [Client.Create].  The second component is the returned [error]; the
    first is the resource as the call leaves it. *)
Definition Create (c : Client) (resource : T) : M (T * option error) :=
  observed "create" resource (
    let! r := getClient c in
    match r with
    | inl err => ret (resource, Some err)
    | inr clt => store_call clt (ReqCreate resource) resource
    end).

(** The [for _, subresource := range subresources] loop of [Update]. *)
Fixpoint update_subresources (clt : clientKind) (resource : T)
    (subresources : list string) : M (T * option error) :=
  match subresources with
  | [] => ret (resource, None)
  | subresource :: rest =>
      let! r := store_call clt (ReqSubResourceUpdate subresource resource) resource in
      match r with
      | (resource', Some err) =>
          ret (resource',
               Some (Errorf ("unable to update subresource " +:+ subresource +:+ ". ") err))
      | (resource', None) => update_subresources clt resource' rest
      end
  end.

(** [Client.Update] *)
Definition Update (c : Client) (resource : T) (subresources : list string)
    : M (T * option error) :=
  observed "update" resource (
    let! r := getClient c in
    match r with
    | inl err => ret (resource, Some err)
    | inr clt =>
        if Nat.eqb (length subresources) 0
        then store_call clt (ReqUpdate resource) resource
        else update_subresources clt resource subresources
    end).

(** [Client.Delete] *)
Definition Delete (c : Client) (resource : T) : M (T * option error) :=
  observed "delete" resource (
    let! r := getClient c in
    match r with
    | inl err => ret (resource, Some err)
    | inr clt => store_call clt (ReqDelete resource) resource
    end).

(** [Client.Get]: a fresh zero-valued item is allocated first. *)
Definition Get (c : Client) (namespace name : string) : M (T * option error) :=
  let resource := zeroOf (T:=T) in
  observed "get" resource (
    let! r := getClient c in
    match r with
    | inl err => ret (resource, Some err)
    | inr clt => store_call clt (ReqGet namespace name resource) resource
    end).

(** [Client.List] *)
Definition List (c : Client) : M (TList * option error) :=
  let resourceList := zeroOf (T:=TList) in
  observed "list" resourceList (
    let! r := getClient c in
    match r with
    | inl err => ret (resourceList, Some err)
    | inr clt => store_call_list clt resourceList
    end).
End Client.
End KClient.

(** ** reconciler.go *)

Module KReconciler.
Section Reconciler.
Context {Obj T TList : Type} `{GoType T} `{GoType TList}.
(** [o.GetName()] and [o.GetNamespace()] of a [client.Object] *)
Variables (GetName GetNamespace : Obj -> string).
Variable env : Env T TList.

#[local] Abbreviation M := (M Obj T TList).

(** The closure [reconcilerFilterFuncWithLogging] of [AddReconciler],
    over the filter it captured. *)
Definition reconcilerFilterFuncWithLogging (reconcilerFilterFunc : ReconcilerFilterFunc Obj)
    (e : ResourceEventType) (o : Obj) : M bool :=
  if negb (reconcilerFilterFunc e o) then
    run LogFunc 3 "kapi.reconciler.filterfunc dropped event"
      [AStr "resource_name"; AStr (GetName o);
       AStr "resource_namespace"; AStr (GetNamespace o);
       AStr "resource_type"; AStr (typeName (T:=T));
       AStr "event_type"; AStr (ResourceEventType_String e)] in
    ret false
  else
    run LogFunc 3 "kapi.reconciler.filterfunc allowed event"
      [AStr "resource_name"; AStr (GetName o);
       AStr "resource_namespace"; AStr (GetNamespace o);
       AStr "resource_type"; AStr (typeName (T:=T));
       AStr "event_type"; AStr (ResourceEventType_String e)] in
    ret true.

(** The three fields of the [predicate.Funcs] literal. *)
Definition CreateFunc (ctl : controller Obj T) (Object : Obj) : M bool :=
  reconcilerFilterFuncWithLogging (reconcilerFilterFunc ctl) ResourceEventTypeCreated Object.

Definition UpdateFunc (ctl : controller Obj T) (ObjectOld ObjectNew : Obj) : M bool :=
  reconcilerFilterFuncWithLogging (reconcilerFilterFunc ctl) ResourceEventTypeUpdated ObjectOld.

Definition DeleteFunc (ctl : controller Obj T) (Object : Obj) : M bool :=
  reconcilerFilterFuncWithLogging (reconcilerFilterFunc ctl) ResourceEventTypeDeleted Object.

(** [predicate.Funcs] dispatches on the kind of the watch event. *)
Definition predicate (ctl : controller Obj T) (e : watchEvent Obj) : M bool :=
  match e with
  | CreateEvent o => CreateFunc ctl o
  | UpdateEvent o n => UpdateFunc ctl o n
  | DeleteEvent o => DeleteFunc ctl o
  end.

(** The controller that [AddReconciler] builds from its arguments: a nil
    filter is replaced by the function that is always true, and the
    reconciler's client is [ClientFor(ctx, cluster, true)]. *)
Definition controller_of (filter : option (ReconcilerFilterFunc Obj))
    (f : ReconcilerFunc T) (clt : Client) : controller Obj T :=
  {| reconcilerFilterFunc := match filter with
                             | None => fun _ _ => true
                             | Some g => g
                             end;
     reconcilerFunc := f;
     client := clt |}.

(** [AddReconciler] *)
Definition AddReconciler (filter : option (ReconcilerFilterFunc Obj))
    (f : ReconcilerFunc T) : M (option error) :=
  fun w =>
    if connected w then
      (Panic "kapi.add-reconciler must be called before kapi.cluster.connect", w)
    else
      (let! stopTimer := MetricTimerFunc "kapi_add_reconciler" in
       defer (stopTimer ["resource_type"; typeName (T:=T)]) (
         run LogFunc 3 "creating kapi.reconciler"
           [AStr "resource_type"; AStr (typeName (T:=T))] in
         let! clt := KClient.ClientFor (T:=T) (TList:=TList) true in
         run lift (emit (EvControllerComplete (typeName (T:=T)))) in
         fun w' =>
           match controller_Complete env (trace w') with
           | Some err =>
               (Done (Some (Errorf "unable to configure kapi.reconciler. " err)), w')
           | None =>
               (run lift (add_controller (controller_of filter f clt)) in
                run LogFunc 3 "configured kapi.reconciler"
                  [AStr "resource_type"; AStr (typeName (T:=T))] in
                ret None) w'
           end)) w.

(** [NamespacedName.String] *)
Definition NamespacedName_String (namespace name : string) : string :=
  namespace +:+ "/" +:+ name.

(** [reconciler[T].Reconcile].  The [ctrl.Result] it returns is always the
    empty one, so only the error is kept. *)
Definition Reconcile (r : controller Obj T) (namespace name : string) : M (option error) :=
  run NewCorrelationCtx in
  let! stopTimer := MetricTimerFunc "kapi_reconcile" in
  defer (stopTimer ["resource_type"; typeName (T:=T)]) (
    let! got := KClient.Get env (client r) namespace name in
    let resource := fst got in
    let invoke (evt : ReconcileEventType) : M (option error) :=
      run LogFunc 1 "kapi.reconciler invoked"
        [AStr "type"; AStr "kapi_reconciler_summary";
         AStr "resource_name"; AStr (NamespacedName_String namespace name);
         AStr "resource_type"; AStr (typeName (T:=T));
         AStr "event_type"; AStr (ReconcileEventType_String evt)] in
      run LogFunc 3 "kapi.reconciler invoked"
        [AStr "type"; AStr "kapi_reconciler_trace";
         AStr "resource_name"; AStr (NamespacedName_String namespace name);
         AStr "resource_type"; AStr (typeName (T:=T));
         AStr "resource"; AStr (showPlus resource);
         AStr "event_type"; AStr (ReconcileEventType_String evt)] in
      run lift (emit (EvReconcilerFunc evt resource)) in
      match reconcilerFunc r evt resource with
      | Some err =>
          run LogFunc 0 "kapi.reconciler unable to invoke reconciler-func"
            [AStr "error"; AErr err;
             AStr "resource_name"; AStr (NamespacedName_String namespace name);
             AStr "resource_type"; AStr (typeName (T:=T));
             AStr "event_type"; AInt (ReconcileEventType_int evt)] in
          ret (Some (Errorf "unable to execute configured reconcilerfunc. " err))
      | None => ret None
      end in
    match snd got with
    | Some err =>
        if negb (IsNotFound err) then
          run LogFunc 0 "kapi.reconciler invoked for invalid resource"
            [AStr "error"; AErr err;
             AStr "resource_name"; AStr (NamespacedName_String namespace name);
             AStr "resource_type"; AStr (typeName (T:=T))] in
          ret (Some err)
        else invoke ReconcileEventTypeDeleted
    | None => invoke ReconcileEventTypeCreatedOrUpdated
    end).

(** The world in which [Reconcile] calls [Client.Get]: the correlation
    context is made and the timer runs. *)
Definition reconcile_entry (w : world Obj T TList) : world Obj T TList :=
  emit (EvTimerStart "kapi_reconcile") (emit EvNewCorrelationCtx w).

(** The error-level line [Reconcile] writes for a fetch error that is
    not a not-found one. *)
Definition invalid_resource_log (err : error) (namespace name : string) : event T TList :=
  EvLog 0 "kapi.reconciler invoked for invalid resource"
    [AStr "error"; AErr err;
     AStr "resource_name"; AStr (NamespacedName_String namespace name);
     AStr "resource_type"; AStr (typeName (T:=T));
     AStr "lib"; AStr "kapi"].

(** The callback invocations one run of [Reconcile] makes, by the outcome
    of its fetch: one for a fetched resource, one (Deleted) for a
    not-found error, none for any other error or a panic. *)
Definition invocations (got : outcome (T * option error)) : list (ReconcileEventType * T) :=
  match got with
  | Done (resource, None) => [(ReconcileEventTypeCreatedOrUpdated, resource)]
  | Done (resource, Some err) =>
      if IsNotFound err then [(ReconcileEventTypeDeleted, resource)] else []
  | Panic _ => []
  end.

(** The framework's side of one watch event, as the registration asks for
    it: [WithEventFilter] forwards the event to the work queue only when
    the predicate returns true, and a queued request reaches [Reconcile]
    with the namespace and name of the event's object (the new one for an
    update).  [None]: the event was not forwarded. *)
Definition event_object (e : watchEvent Obj) : Obj :=
  match e with
  | CreateEvent o => o
  | UpdateEvent _ n => n
  | DeleteEvent o => o
  end.

Definition deliver (ctl : controller Obj T) (e : watchEvent Obj) : M (option (option error)) :=
  let! forwarded := predicate ctl e in
  if forwarded then
    let! r := Reconcile ctl (GetNamespace (event_object e)) (GetName (event_object e)) in
    ret (Some r)
  else ret None.
End Reconciler.
End KReconciler.

(** ** What [Reconcile] writes and returns around its callback *)

Section ReconcilerLines.
Context {T TList : Type} `{GoType T}.

(** The summary line (level 1) and the trace line (level 3) that
    [Reconcile] writes before it invokes the callback. *)
Definition reconciler_summary_log (namespace name : string) (evt : ReconcileEventType)
    : event T TList :=
  EvLog 1 "kapi.reconciler invoked"
    [AStr "type"; AStr "kapi_reconciler_summary";
     AStr "resource_name"; AStr (KReconciler.NamespacedName_String namespace name);
     AStr "resource_type"; AStr (typeName (T:=T));
     AStr "event_type"; AStr (ReconcileEventType_String evt);
     AStr "lib"; AStr "kapi"].

Definition reconciler_trace_log (namespace name : string) (evt : ReconcileEventType)
    (resource : T) : event T TList :=
  EvLog 3 "kapi.reconciler invoked"
    [AStr "type"; AStr "kapi_reconciler_trace";
     AStr "resource_name"; AStr (KReconciler.NamespacedName_String namespace name);
     AStr "resource_type"; AStr (typeName (T:=T));
     AStr "resource"; AStr (showPlus resource);
     AStr "event_type"; AStr (ReconcileEventType_String evt);
     AStr "lib"; AStr "kapi"].

(** What [Reconcile] returns for the result of the callback: nil for
    nil, and for an error the formatted error of its last [return]. *)
Definition callback_error (result : option error) : option error :=
  match result with
  | Some err => Some (Errorf "unable to execute configured reconcilerfunc. " err)
  | None => None
  end.
End ReconcilerLines.

(** ** hook.go *)

Module KHook.
Section Hook.
Context {Obj T TList : Type} `{GoType T}.
(** The type assertion [obj.(T)] on an untyped [runtime.Object], the
    conversion of a [T] back to the interface, and what [%T] and [%v]
    print for an untyped object. *)
Variable assertT : Obj -> option T.
Variable toObject : T -> Obj.
Variables (typeOf showObj : Obj -> string).

#[local] Abbreviation M := (M Obj T TList).
#[local] Abbreviation effect := (effect Obj T TList).

(** [%T] of the receiver [h *Hook[T]] *)
Definition hookTypeName : string := "*kapi.Hook[" +:+ typeName (T:=T) +:+ "]".

(** [Hook.observe]: timer start, summary and trace logs at once; the
    returned closure only stops the timer. *)
Definition observe (act : string) (obj : Obj) : M effect :=
  let! stopTimer := MetricTimerFunc "kapi_hook" in
  run LogFunc 1 "kapi.hook invoked"
    [AStr "type"; AStr "kapi_hook_summary"; AStr "resource_action"; AStr act;
     AStr "resource_type"; AStr (typeName (T:=T))] in
  run LogFunc 3 "kapi.hook invoked"
    [AStr "type"; AStr "kapi_hook_trace"; AStr "resource_action"; AStr act;
     AStr "resource_type"; AStr (typeName (T:=T));
     AStr "resource"; AStr ("+" +:+ showObj obj)] in
  ret (stopTimer ["resource_type"; typeName (T:=T); "resource_action"; act]).

(** [AddHook]: the error of the webhook builder's [Complete] is dropped. *)
Definition AddHook (hook : Hook T) : M (option error) :=
  fun w =>
    if connected w then
      (Panic "kapi.add-hook must be called before kapi.cluster.connect", w)
    else
      (let! stopTimer := MetricTimerFunc "kapi_add_hook" in
       defer (stopTimer ["resource_type"; typeName (T:=T)]) (
         run LogFunc 3 "creating kapi.hook"
           [AStr "resource_type"; AStr (typeName (T:=T))] in
         run lift (emit (EvWebhookComplete (typeName (T:=T)))) in
         run lift (add_webhook hook) in
         ret None)) w.

(** [Hook.Default]: the object as the call leaves it, and the error. *)
Definition Default (h : Hook T) (obj : Obj) : M (Obj * option error) :=
  match DefaulterFunc h with
  | None => ret (obj, None)
  | Some f =>
      let! stop := observe "default" obj in
      defer stop (
        match assertT obj with
        | None =>
            ret (obj, Some (PlainError
                   ("defaulter for custom resource of " +:+ hookTypeName +:+
                    " was passed type of " +:+ typeOf obj)))
        | Some resource =>
            run lift (emit (EvDefaulterFunc resource)) in
            ret (toObject (fst (f resource)), snd (f resource))
        end)
  end.

(** [Hook.ValidateCreate]: warnings and error. *)
Definition ValidateCreate (h : Hook T) (obj : Obj) : M (list string * option error) :=
  match ValidateCreateFunc h with
  | None => ret ([], None)
  | Some f =>
      let! stop := observe "create" obj in
      defer stop (
        match assertT obj with
        | None =>
            ret ([], Some (PlainError
                   ("creation validator for custom resource of " +:+ hookTypeName +:+
                    " was passed type of " +:+ typeOf obj)))
        | Some resource =>
            run lift (emit (EvValidateCreateFunc resource)) in
            ret (f resource)
        end)
  end.

(** [Hook.ValidateUpdate]: both objects are asserted, the new one first. *)
Definition ValidateUpdate (h : Hook T) (oldObj newObj : Obj) : M (list string * option error) :=
  match ValidateUpdateFunc h with
  | None => ret ([], None)
  | Some f =>
      let! stop := observe "update" newObj in
      defer stop (
        match assertT newObj, assertT oldObj with
        | Some newResource, Some oldResource =>
            run lift (emit (EvValidateUpdateFunc oldResource newResource)) in
            ret (f oldResource newResource)
        | _, _ =>
            ret ([], Some (PlainError
                   ("update validator for custom resource of " +:+ hookTypeName +:+
                    " was passed types of " +:+ typeOf newObj +:+
                    " and " +:+ typeOf oldObj)))
        end)
  end.

(** [Hook.ValidateDelete] *)
Definition ValidateDelete (h : Hook T) (obj : Obj) : M (list string * option error) :=
  match ValidateDeleteFunc h with
  | None => ret ([], None)
  | Some f =>
      let! stop := observe "delete" obj in
      defer stop (
        match assertT obj with
        | None =>
            ret ([], Some (PlainError
                   ("deletion validator for custom resource of " +:+ hookTypeName +:+
                    " was passed type of " +:+ typeOf obj)))
        | Some resource =>
            run lift (emit (EvValidateDeleteFunc resource)) in
            ret (f resource)
        end)
  end.
End Hook.
End KHook.

(** ** kapi.go: the cluster *)

Module KCluster.
Section Cluster.
Context {Obj T TList : Type}.
Variable env : Env T TList.

#[local] Abbreviation M := (M Obj T TList).
#[local] Abbreviation world := (world Obj T TList).
#[local] Abbreviation effect := (effect Obj T TList).

(** The struct [NewCluster] returns, [&Cluster{manager: mgr}]: the
    [connected] field has its zero value and nothing is registered yet.
    [tr] is whatever the process has logged so far. *)
Definition NewCluster_result (tr : list (event T TList)) : world :=
  {| connected := false; controllers := []; webhooks := []; trace := tr |}.

(** [Cluster.Connect] up to its blocking call: the deferred timer is
    set up, the flag is tested and set, the log line is written.  The
    result is the deferred closure still to run. *)
Definition Connect_enter : M (list string -> effect) :=
  let! stopTimer := MetricTimerFunc "kapi_connect" in
  fun w =>
    if connected w then
      (Panic "kapi.cluster.connect called more than once", stopTimer [] w)
    else
      (Done stopTimer,
       logf 3 "connecting k8s.cluster" [] (set_connected true w)).

(** [cluster.manager.Start(ctx)] begins: the manager runs and the call
    blocks. *)
Definition manager_Start_begin : M unit := lift (emit EvManagerStart).

(** [Connect] after [Start] has returned [r]. *)
Definition Connect_leave (stopTimer : list string -> effect) (r : option error)
    : M (option error) :=
  defer (stopTimer []) (
    match r with
    | Some err =>
        ret (Some (Errorf "unable to start controller-runtime.manager for kapi.cluster. " err))
    | None => ret None
    end).

(** [Cluster.Connect] as one sequential call. *)
Definition Connect : M (option error) :=
  let! stopTimer := Connect_enter in
  run manager_Start_begin in
  fun w => Connect_leave stopTimer (manager_Start env (trace w)) w.
End Cluster.
End KCluster.

(** ** client.go: the resource envelope and its deep copy *)

Module KResource.
  (** A JSON document.  [json.Marshal] produces text and [json.Unmarshal]
      parses it again; the text is not modelled, only the document tree
      both agree on. *)
  #[local] Unset Elimination Schemes.
Inductive json : Type :=
| JNull
| JBool (b : bool)
| JNumber (n : Z)
| JString (s : string)
| JArray (items : list json)
| JObject (fields : list (string * json)).
#[local] Set Elimination Schemes.

(** The value of key [k] of an object. *)
Fixpoint assoc (k : string) (fields : list (string * json)) : option json :=
  match fields with
  | [] => None
  | (k', v) :: rest => if String.eqb k k' then Some v else assoc k rest
  end.

Definition jlookup (k : string) (doc : json) : option json :=
  match doc with
  | JObject fields => assoc k fields
  | _ => None
  end.

(** How [encoding/json] treats one Go type: its zero value, [Marshal]
    ([None] is an error), [Unmarshal] into an existing value ([None] is
    an error, the value is then left as it was) and whether a value is
    empty in the sense of the [omitempty] tag option. *)
Class GoJSON (A : Type) : Type := {
  json_zero : A;
  Marshal : A -> option json;
  Unmarshal : json -> A -> option A;
  isEmptyValue : A -> bool;
}.

(** [FieldUndefined] is [*struct{}]: nil, or a pointer to the empty
    struct. *)
Definition FieldUndefined : Type := option unit.

#[export] Instance FieldUndefined_json : GoJSON FieldUndefined := {|
    json_zero := None;
    Marshal v := match v with
                 | None => Some JNull
                 | Some tt => Some (JObject [])
                 end;
    Unmarshal j _ := match j with
                     | JNull => Some None
                     | JObject _ => Some (Some tt)
                     | _ => None
                     end;
    isEmptyValue v := match v with None => true | Some _ => false end;
  |}.

(** A Go string is a sequence of bytes, any bytes.  [encoding/json] reads
    it as UTF-8 the way [utf8.DecodeRuneInString] does: a well-formed
    sequence of one to four bytes is kept, and a byte that starts none is
    one error of width one, written as U+FFFD. *)
Definition byte_in (lo hi : N) (c : Ascii.ascii) : bool :=
  (lo <=? Ascii.N_of_ascii c)%N && (Ascii.N_of_ascii c <=? hi)%N.

Definition continuation_byte (c : Ascii.ascii) : bool := byte_in 128 191 c.

(** The first two bytes of a well-formed sequence of three bytes:
    overlong forms and the surrogates are excluded. *)
Definition three_byte_start (c c2 : Ascii.ascii) : bool :=
  (byte_in 224 224 c && byte_in 160 191 c2) ||
  (byte_in 225 236 c && byte_in 128 191 c2) ||
  (byte_in 237 237 c && byte_in 128 159 c2) ||
  (byte_in 238 239 c && byte_in 128 191 c2).

(** The first two bytes of a well-formed sequence of four bytes: overlong
    forms and code points above U+10FFFF are excluded. *)
Definition four_byte_start (c c2 : Ascii.ascii) : bool :=
  (byte_in 240 240 c && byte_in 144 191 c2) ||
  (byte_in 241 243 c && byte_in 128 191 c2) ||
  (byte_in 244 244 c && byte_in 128 143 c2).

(** U+FFFD, the replacement character, in UTF-8. *)
Definition replacement_character : string :=
  String (Ascii.ascii_of_N 239) (String (Ascii.ascii_of_N 191)
    (String (Ascii.ascii_of_N 189) EmptyString)).

(** The string that the encoder writes for [s], and that the decoder
    gives for the text of [s]: every byte that does not start a
    well-formed sequence is replaced by U+FFFD. *)
Fixpoint utf8_coerce (s : string) : string :=
  match s with
  | EmptyString => EmptyString
  | String c rest =>
      if byte_in 0 127 c then String c (utf8_coerce rest)
      else
        match rest with
        | String c2 rest2 =>
            if byte_in 194 223 c && continuation_byte c2 then
              String c (String c2 (utf8_coerce rest2))
            else
              match rest2 with
              | String c3 rest3 =>
                  if three_byte_start c c2 && continuation_byte c3 then
                    String c (String c2 (String c3 (utf8_coerce rest3)))
                  else
                    match rest3 with
                    | String c4 rest4 =>
                        if four_byte_start c c2 && continuation_byte c3 &&
                           continuation_byte c4
                        then String c (String c2 (String c3 (String c4 (utf8_coerce rest4))))
                        else replacement_character +:+ utf8_coerce rest
                    | EmptyString => replacement_character +:+ utf8_coerce rest
                    end
              | EmptyString => replacement_character +:+ utf8_coerce rest
              end
        | EmptyString => replacement_character +:+ utf8_coerce rest
        end
  end.

(** A string is well-formed UTF-8 ([utf8.ValidString]) exactly when the
    coercion leaves it as it is: a replaced byte makes the string longer. *)
Definition valid_utf8 (s : string) : bool := String.eqb (utf8_coerce s) s.

#[export] Instance string_json : GoJSON string := {|
    json_zero := "";
    Marshal s := Some (JString (utf8_coerce s));
    Unmarshal j old := match j with
                       | JString s => Some (utf8_coerce s)
                       | JNull => Some old
                       | _ => None
                       end;
    isEmptyValue s := String.eqb s "";
  |}.

Section Envelope.
    (** [ObjectMeta] is declared by the platform's API machinery; it is a
        parameter here, with its treatment by the encoder. *)
Context {ObjectMetaT TSpec TStatus TScale : Type}.
Context `{GoJSON ObjectMetaT} `{GoJSON TSpec} `{GoJSON TStatus} `{GoJSON TScale}.

    (** [CustomResource[TSpec, TStatus, TScale]].  The embedded [TypeMeta]
        is inlined: its two string fields [Kind] and [APIVersion] become
        fields of the envelope, each tagged [omitempty]. *)
Record CustomResource : Type := {
    Kind : string;
    APIVersion : string;
    ObjectMeta : ObjectMetaT;
    Spec : TSpec;
    Status : TStatus;
    Scale : TScale;
  }.

Definition CustomResource_zero : CustomResource :=
    {| Kind := ""; APIVersion := ""; ObjectMeta := json_zero;
       Spec := json_zero; Status := json_zero; Scale := json_zero |}.

    (** One field tagged [json:"name,omitempty"]: skipped when empty,
        otherwise encoded; an encoding error fails the whole struct. *)
Definition encode_field {A} `{GoJSON A} (name : string) (v : A)
      : option (list (string * json)) :=
    if isEmptyValue v then Some []
    else match Marshal v with
         | Some j => Some [(name, j)]
         | None => None
         end.

    (** [json.Marshal] of an envelope: the fields in declaration order. *)
Definition Marshal_CustomResource (e : CustomResource) : option json :=
    match encode_field "kind" (Kind e), encode_field "apiVersion" (APIVersion e),
          encode_field "metadata" (ObjectMeta e), encode_field "spec" (Spec e),
          encode_field "status" (Status e), encode_field "scale" (Scale e) with
    | Some f1, Some f2, Some f3, Some f4, Some f5, Some f6 =>
        Some (JObject (f1 ++ f2 ++ f3 ++ f4 ++ f5 ++ f6))
    | _, _, _, _, _, _ => None
    end.

    (** Decoding one key into the envelope; a key that names no field is
        skipped, and a value that does not fit leaves the field alone. *)
Definition decode_field (out : CustomResource) (kv : string * json) : CustomResource :=
    let '(k, v) := kv in
    if String.eqb k "kind" then
      {| Kind := default (Kind out) (Unmarshal v (Kind out)); APIVersion := APIVersion out;
         ObjectMeta := ObjectMeta out; Spec := Spec out; Status := Status out;
         Scale := Scale out |}
    else if String.eqb k "apiVersion" then
      {| Kind := Kind out; APIVersion := default (APIVersion out) (Unmarshal v (APIVersion out));
         ObjectMeta := ObjectMeta out; Spec := Spec out; Status := Status out;
         Scale := Scale out |}
    else if String.eqb k "metadata" then
      {| Kind := Kind out; APIVersion := APIVersion out;
         ObjectMeta := default (ObjectMeta out) (Unmarshal v (ObjectMeta out));
         Spec := Spec out; Status := Status out; Scale := Scale out |}
    else if String.eqb k "spec" then
      {| Kind := Kind out; APIVersion := APIVersion out; ObjectMeta := ObjectMeta out;
         Spec := default (Spec out) (Unmarshal v (Spec out));
         Status := Status out; Scale := Scale out |}
    else if String.eqb k "status" then
      {| Kind := Kind out; APIVersion := APIVersion out; ObjectMeta := ObjectMeta out;
         Spec := Spec out; Status := default (Status out) (Unmarshal v (Status out));
         Scale := Scale out |}
    else if String.eqb k "scale" then
      {| Kind := Kind out; APIVersion := APIVersion out; ObjectMeta := ObjectMeta out;
         Spec := Spec out; Status := Status out;
         Scale := default (Scale out) (Unmarshal v (Scale out)) |}
    else out.

    (** [json.Unmarshal(b, out)] for an envelope; the error is not kept
        since [DeepCopyObject] drops it. *)
Definition Unmarshal_CustomResource (doc : json) (out : CustomResource) : CustomResource :=
    match doc with
    | JObject fields => fold_left decode_field fields out
    | _ => out
    end.

    (** [CustomResource.DeepCopyObject]; the receiver is a pointer, [None]
        is nil.  When [json.Marshal] fails its error is dropped and
        [json.Unmarshal] gets no bytes: [out] stays the zero value. *)
Definition DeepCopyObject (e : option CustomResource) : option CustomResource :=
    match e with
    | None => None
    | Some e =>
        let out := CustomResource_zero in
        match Marshal_CustomResource e with
        | Some b => Some (Unmarshal_CustomResource b out)
        | None => Some out
        end
    end.

    (** A value survives its own encoding: when [omitempty] skips it, it is
        the zero value; otherwise it encodes, and decoding the result into a
        zero value gives it back. *)
Definition survives {A} `{GoJSON A} (v : A) : Prop :=
    if isEmptyValue v then v = json_zero
    else exists j, Marshal v = Some j /\ Unmarshal j json_zero = Some v.
End Envelope.
Arguments CustomResource : clear implicits.

(** What the encoded document holds under the key of a field of the
    marker type: nothing for nil, the empty object for a pointer to the
    empty struct. *)
Definition marker_json (v : FieldUndefined) : option json :=
  match v with
  | None => None
  | Some _ => Some (JObject [])
  end.
End KResource.

(** ** internal/logconv/logconv.go *)

Module logconv.
(** A Go slice of [any]: a window of [len] elements on a backing array
    of [cap] elements.  [array] is [None] for the nil slice. *)
Record slice : Type := { array : option nat; len : nat; cap : nat }.

Definition nil_slice : slice := {| array := None; len := 0; cap := 0 |}.

(** The backing arrays, and every call the underlying log function has
    received (level, message, attributes). *)
Record state : Type := {
  mem : gmap nat (list (option any));
  logged : list (Z * string * list any);
}.

(** The elements a slice shows; an unset array slot is the nil
    interface. *)
Definition elems (m : gmap nat (list (option any))) (s : slice) : list (option any) :=
  match array s with
  | None => []
  | Some p => take (len s) (default [] (m !! p))
  end.

Section Append.
    (** The runtime's growth policy: the capacity it picks for a slice of
        capacity [old] that must hold [needed] elements. *)
Variable growslice : nat -> nat -> nat.

    (** Go's [append(s, xs...)]: in place when the capacity suffices (the
        slots after [len s] of the shared array are overwritten), in a
        fresh array otherwise. *)
Definition append (s : slice) (xs : list any) (m : gmap nat (list (option any)))
      : slice * gmap nat (list (option any)) :=
    let n := len s + length xs in
    if decide (n <= cap s) then
      match array s with
      | Some p =>
          let arr := default [] (m !! p) in
          ({| array := Some p; len := n; cap := cap s |},
           <[p := take (len s) arr ++ (Some <$> xs) ++ drop n arr]> m)
      | None => (s, m)
      end
    else
      let c := Nat.max n (growslice (cap s) n) in
      let p := fresh (dom m) in
      ({| array := Some p; len := n; cap := c |},
       <[p := elems m s ++ (Some <$> xs) ++ replicate (c - n) None]> m).

    (** [LogrWrapper]: [ctx] and [lf] are the same for every wrapper made
        from one [NewLogrWrapper] call; [attrs] is what differs. *)
Record LogrWrapper : Type := { attrs : slice }.

    (** The closure [lf] built by [NewLogrWrapper]: the log function gets
        the attributes of the call followed by "dep", "ctrl-runtime". *)
Definition lf (level : Z) (msg : string) (attributes : list any) (st : state) : state :=
    {| mem := mem st;
       logged := logged st ++ [(level, msg, attributes ++ [AStr "dep"; AStr "ctrl-runtime"])] |}.

Definition NewLogrWrapper : LogrWrapper := {| attrs := nil_slice |}.

Definition Init (l : LogrWrapper) (st : state) : state := st.

Definition Enabled (l : LogrWrapper) (level : Z) : bool := true.

Definition Info (l : LogrWrapper) (level : Z) (msg : string) (attr : list any)
      (st : state) : state :=
    lf 2 msg attr st.

Definition Error (l : LogrWrapper) (err : error) (msg : string) (attr : list any)
      (st : state) : state :=
    lf 0 msg (attr ++ [AStr "error"; AErr err]) st.

Definition V (l : LogrWrapper) (level : Z) : LogrWrapper := l.

Definition WithValues (l : LogrWrapper) (attr : list any) (st : state)
      : LogrWrapper * state :=
    let '(s, m) := append (attrs l) attr (mem st) in
    ({| attrs := s |}, {| mem := m; logged := logged st |}).

Definition WithName (l : LogrWrapper) (name : string) (st : state)
      : LogrWrapper * state :=
    WithValues l [AStr "name"; AStr name] st.

    (** A slice is well formed in a memory: the nil slice is empty; any
        other slice points at an array as long as its capacity and shows
        no more than that. *)
Definition wf_slice (m : gmap nat (list (option any))) (s : slice) : Prop :=
    match array s with
    | None => len s = 0 /\ cap s = 0
    | Some p => exists arr, m !! p = Some arr /\ length arr = cap s /\ len s <= cap s
    end.
End Append.
End logconv.

(** ** Calls on one cluster, in any order

    Every modelled entry point, as one step on the world.  [Connect] is
    also available in its three phases, so that other calls can be placed
    while the manager is running and [Start] has not yet returned. *)

Module KSystem.
Section System.
Context {Obj T TList : Type} `{GoType T} `{GoType TList}.
Variables (GetName GetNamespace : Obj -> string).
Variable assertT : Obj -> option T.
Variable toObject : T -> Obj.
Variables (typeOf showObj : Obj -> string).
Variable env : Env T TList.

#[local] Abbreviation world := (world Obj T TList).

Inductive call : Type :=
| CallConnect
| CallConnectEnter
| CallManagerStartBegin
| CallConnectLeave (r : option error)
| CallAddReconciler (filter : option (ReconcilerFilterFunc Obj)) (f : ReconcilerFunc T)
| CallAddHook (hook : Hook T)
| CallCreate (c : Client) (resource : T)
| CallUpdate (c : Client) (resource : T) (subresources : list string)
| CallDelete (c : Client) (resource : T)
| CallGet (c : Client) (namespace name : string)
| CallList (c : Client)
| CallDeliver (ctl : controller Obj T) (e : watchEvent Obj)
| CallReconcile (ctl : controller Obj T) (namespace name : string)
| CallDefault (h : Hook T) (obj : Obj)
| CallValidateCreate (h : Hook T) (obj : Obj)
| CallValidateUpdate (h : Hook T) (oldObj newObj : Obj)
| CallValidateDelete (h : Hook T) (obj : Obj).

(** The calls that enter [Connect]. *)
Definition is_connect_call (c : call) : bool :=
  match c with
  | CallConnect | CallConnectEnter => true
  | _ => false
  end.

(** Whether the call panicked, and the world it leaves. *)
Definition observe_call {A} (m : M Obj T TList A) (w : world) : bool * world :=
  (is_panic (fst (m w)), snd (m w)).

Definition step (c : call) : world -> bool * world :=
  match c with
  | CallConnect => observe_call (KCluster.Connect env)
  | CallConnectEnter => observe_call KCluster.Connect_enter
  | CallManagerStartBegin => observe_call KCluster.manager_Start_begin
  | CallConnectLeave r =>
      observe_call
        (KCluster.Connect_leave (fun attributes => emit (EvTimerStop "kapi_connect" attributes)) r)
  | CallAddReconciler filter f => observe_call (KReconciler.AddReconciler env filter f)
  | CallAddHook hook => observe_call (KHook.AddHook hook)
  | CallCreate c resource => observe_call (KClient.Create env c resource)
  | CallUpdate c resource subresources =>
      observe_call (KClient.Update env c resource subresources)
  | CallDelete c resource => observe_call (KClient.Delete env c resource)
  | CallGet c namespace name => observe_call (KClient.Get env c namespace name)
  | CallList c => observe_call (KClient.List env c)
  | CallDeliver ctl e => observe_call (KReconciler.deliver GetName GetNamespace env ctl e)
  | CallReconcile ctl namespace name =>
      observe_call (KReconciler.Reconcile env ctl namespace name)
  | CallDefault h obj => observe_call (KHook.Default assertT toObject typeOf showObj h obj)
  | CallValidateCreate h obj => observe_call (KHook.ValidateCreate assertT typeOf showObj h obj)
  | CallValidateUpdate h oldObj newObj =>
      observe_call (KHook.ValidateUpdate assertT typeOf showObj h oldObj newObj)
  | CallValidateDelete h obj => observe_call (KHook.ValidateDelete assertT typeOf showObj h obj)
  end.

(** A sequence of calls; a panic is recovered by the caller and the next
    call runs on the world the panicking one left. *)
Fixpoint run_calls (cs : list call) (w : world) : world :=
  match cs with
  | [] => w
  | c :: rest => run_calls rest (snd (step c w))
  end.
End System.
End KSystem.

(** ** Reading a trace *)

Section Traces.
Context {T TList : Type}.

(** The reconcile callbacks a trace holds, in order. *)
Fixpoint callbacks (tr : list (event T TList)) : list (ReconcileEventType * T) :=
  match tr with
  | [] => []
  | EvReconcilerFunc evt resource :: rest => (evt, resource) :: callbacks rest
  | _ :: rest => callbacks rest
  end.

(** The requests that reached the store, in order, each with the error
    the store returned for it. *)
Fixpoint store_calls (tr : list (event T TList)) : list (request T TList * option error) :=
  match tr with
  | [] => []
  | EvStore _ req err :: rest => (req, err) :: store_calls rest
  | _ :: rest => store_calls rest
  end.

(** The subresource name of a subresource-scoped update request. *)
Definition request_subresource (req : request T TList) : option string :=
  match req with
  | ReqSubResourceUpdate subresource _ => Some subresource
  | _ => None
  end.

(** The hook callbacks a trace holds. *)
Definition is_hook_callback (e : event T TList) : bool :=
  match e with
  | EvDefaulterFunc _ | EvValidateCreateFunc _
  | EvValidateUpdateFunc _ _ | EvValidateDeleteFunc _ => true
  | _ => false
  end.

(** The hook callbacks a trace holds, in order. *)
Fixpoint hook_callbacks (tr : list (event T TList)) : list (event T TList) :=
  match tr with
  | [] => []
  | e :: rest => if is_hook_callback e then e :: hook_callbacks rest else hook_callbacks rest
  end.

(** Every event. *)
Definition any_event (e : event T TList) : bool := true.

(** Events of the low-level client: building one, or a request. *)
Definition is_client_event (e : event T TList) : bool :=
  match e with
  | EvClientNew | EvStore _ _ _ => true
  | _ => false
  end.

(** Events of the client and of the observability functions. *)
Definition is_client_or_observation (e : event T TList) : bool :=
  match e with
  | EvLog _ _ _ | EvTimerStart _ | EvTimerStop _ _ | EvClientNew | EvStore _ _ _ => true
  | _ => false
  end.

Definition is_store_event (e : event T TList) : bool :=
  match e with
  | EvStore _ _ _ => true
  | _ => false
  end.

(** Whether a log line of level [level] comes after a stop of the timer
    [metric] somewhere in the trace. *)
Fixpoint has_log (level : Z) (tr : list (event T TList)) : bool :=
  match tr with
  | [] => false
  | EvLog l _ _ :: rest => Z.eqb l level || has_log level rest
  | _ :: rest => has_log level rest
  end.

Fixpoint log_after_stop (metric : string) (level : Z) (tr : list (event T TList)) : bool :=
  match tr with
  | [] => false
  | EvTimerStop m _ :: rest =>
      (String.eqb m metric && has_log level rest) || log_after_stop metric level rest
  | _ :: rest => log_after_stop metric level rest
  end.
End Traces.

(** ** The client's five operations under one name *)

Module KClientOps.
Section Ops.
Context {Obj T TList : Type} `{GoType T} `{GoType TList}.
Variable env : Env T TList.

Inductive clientOp : Type :=
| OpCreate (resource : T)
| OpUpdate (resource : T) (subresources : list string)
| OpDelete (resource : T)
| OpGet (namespace name : string)
| OpList.

(** The action name each operation passes to [observe]. *)
Definition action (op : clientOp) : string :=
  match op with
  | OpCreate _ => "create"
  | OpUpdate _ _ => "update"
  | OpDelete _ => "delete"
  | OpGet _ _ => "get"
  | OpList => "list"
  end.

(** What [%v] prints for the object the operation was given. *)
Definition payload_before (op : clientOp) : string :=
  match op with
  | OpCreate r | OpUpdate r _ | OpDelete r => show r
  | OpGet _ _ => show (zeroOf (T:=T))
  | OpList => show (zeroOf (T:=TList))
  end.

(** The operation, with the object it leaves printed as [%v] does and the
    error it returns. *)
Definition run_op (c : Client) (op : clientOp) : M Obj T TList (string * option error) :=
  fun w =>
    match op with
    | OpCreate r =>
        match KClient.Create env c r w with
        | (Done (obj, err), w') => (Done (show obj, err), w')
        | (Panic msg, w') => (Panic msg, w')
        end
    | OpUpdate r subs =>
        match KClient.Update env c r subs w with
        | (Done (obj, err), w') => (Done (show obj, err), w')
        | (Panic msg, w') => (Panic msg, w')
        end
    | OpDelete r =>
        match KClient.Delete env c r w with
        | (Done (obj, err), w') => (Done (show obj, err), w')
        | (Panic msg, w') => (Panic msg, w')
        end
    | OpGet namespace name =>
        match KClient.Get env c namespace name w with
        | (Done (obj, err), w') => (Done (show obj, err), w')
        | (Panic msg, w') => (Panic msg, w')
        end
    | OpList =>
        match KClient.List env c w with
        | (Done (obj, err), w') => (Done (show obj, err), w')
        | (Panic msg, w') => (Panic msg, w')
        end
    end.

(** The three lines [Client.observe] writes for action [act]. *)
Definition summary_log (act : string) : event T TList :=
  EvLog 1 "kapi.client invoked"
    [AStr "type"; AStr "kapi_client_summary"; AStr "resource_action"; AStr act;
     AStr "resource_type"; AStr (typeName (T:=T));
     AStr "resource_list_type"; AStr (typeName (T:=TList));
     AStr "lib"; AStr "kapi"].

Definition trace_log (act : string) (payload : string) : event T TList :=
  EvLog 3 "kapi.client invoked"
    [AStr "type"; AStr "kapi_client_trace"; AStr "resource_action"; AStr act;
     AStr "resource_type"; AStr (typeName (T:=T));
     AStr "resource_list_type"; AStr (typeName (T:=TList));
     AStr "resource"; AStr ("+" +:+ payload);
     AStr "lib"; AStr "kapi"].

Definition timer_stop (act : string) : event T TList :=
  EvTimerStop "kapi_client" ["resource_type"; typeName (T:=T); "resource_action"; act].

(** The world once [observe] has returned its closure: the timer runs
    and the summary is logged. *)
Definition observing (act : string) (w : world Obj T TList) : world Obj T TList :=
  emit (summary_log act) (emit (EvTimerStart "kapi_client") w).

(** The world once the closure of [observe] has run on [payload]. *)
Definition observed_end (act payload : string) (w : world Obj T TList) : world Obj T TList :=
  emit (timer_stop act) (emit (trace_log act payload) w).
End Ops.
Arguments observing : simpl never.
Arguments observed_end : simpl never.
End KClientOps.

(** ** A concrete instantiation

    The custom resource of cmd/example/cr.go, [ConfigAudit], with the
    fields the operations read; an untyped object is a [ConfigAudit] or a
    value of some other type. *)

Module Example.
Record ConfigAudit : Type := {
  Name : string;
  Namespace : string;
  Message : string;
}.

Inductive Object : Type :=
| OfConfigAudit (r : ConfigAudit)
| OfOtherType (type_name : string) (name namespace : string).

#[export] Instance ConfigAudit_type : GoType ConfigAudit := {|
    zeroOf := {| Name := ""; Namespace := ""; Message := "" |};
    typeName := "*main.ConfigAudit";
    show r := "&{" +:+ Namespace r +:+ "/" +:+ Name r +:+ " " +:+ Message r +:+ "}";
    showPlus r := "&{Namespace:" +:+ Namespace r +:+ " Name:" +:+ Name r +:+
                  " Message:" +:+ Message r +:+ "}";
  |}.

#[export] Instance ConfigAuditList_type : GoType (list ConfigAudit) := {|
    zeroOf := [];
    typeName := "*main.ConfigAuditList";
    show l := "&{" +:+ String.concat " " (show <$> l) +:+ "}";
    showPlus l := "&{Items:" +:+ String.concat " " (showPlus <$> l) +:+ "}";
  |}.

Definition GetName (o : Object) : string :=
  match o with
  | OfConfigAudit r => Name r
  | OfOtherType _ n _ => n
  end.

Definition GetNamespace (o : Object) : string :=
  match o with
  | OfConfigAudit r => Namespace r
  | OfOtherType _ _ ns => ns
  end.

Definition assertT (o : Object) : option ConfigAudit :=
  match o with
  | OfConfigAudit r => Some r
  | OfOtherType _ _ _ => None
  end.

Definition typeOf (o : Object) : string :=
  match o with
  | OfConfigAudit _ => "*main.ConfigAudit"
  | OfOtherType t _ _ => t
  end.

Definition showObj (o : Object) : string :=
  match o with
  | OfConfigAudit r => show r
  | OfOtherType t n ns => "&{" +:+ ns +:+ "/" +:+ n +:+ "}"
  end.

Definition audit1 : ConfigAudit :=
  {| Name := "target"; Namespace := "kapi-example"; Message := "x" |}.

(** A store in which every request succeeds; a Get answers [audit1]. *)
Definition store_ok : Env ConfigAudit (list ConfigAudit) := {|
    store_item _ _ req :=
      match req with
      | ReqCreate obj | ReqUpdate obj | ReqSubResourceUpdate _ obj | ReqDelete obj => inr obj
      | ReqGet _ _ _ => inr audit1
      | ReqList _ => inr audit1
      end;
    store_list _ _ _ := inr [audit1];
    client_New _ := None;
    manager_Start _ := None;
    controller_Complete _ := None;
  |}.

(** A store that knows no object: a Get is answered by not-found. *)
Definition store_empty : Env ConfigAudit (list ConfigAudit) := {|
    store_item _ _ req :=
      match req with
      | ReqGet _ name _ =>
          inl (StatusError "NotFound" ("configaudits " +:+ name +:+ " not found"))
      | ReqCreate obj | ReqUpdate obj | ReqSubResourceUpdate _ obj | ReqDelete obj => inr obj
      | ReqList _ => inr audit1
      end;
    store_list _ _ _ := inr [];
    client_New _ := None;
    manager_Start _ := None;
    controller_Complete _ := None;
  |}.

(** A store whose cache cannot answer: every read fails with an error
    that is not a not-found one. *)
Definition store_unavailable : Env ConfigAudit (list ConfigAudit) := {|
    store_item _ _ _ := inl (PlainError "the cache is not started, can not read objects");
    store_list _ _ _ := inl (PlainError "the cache is not started, can not read objects");
    client_New _ := None;
    manager_Start _ := None;
    controller_Complete _ := None;
  |}.

(** An environment in which no direct client can be built. *)
Definition no_direct_client : Env ConfigAudit (list ConfigAudit) := {|
    store_item _ _ req :=
      match req with
      | ReqCreate obj | ReqUpdate obj | ReqSubResourceUpdate _ obj | ReqDelete obj => inr obj
      | ReqGet _ _ _ => inr audit1
      | ReqList _ => inr audit1
      end;
    store_list _ _ _ := inr [audit1];
    client_New _ := Some (PlainError "failed to determine the rest mapping: connection refused");
    manager_Start _ := None;
    controller_Complete _ := None;
  |}.

(** A store in which updates of the scale subresource are rejected. *)
Definition store_scale_rejected : Env ConfigAudit (list ConfigAudit) := {|
    store_item _ _ req :=
      match req with
      | ReqSubResourceUpdate sub obj =>
          if String.eqb sub "scale" then inl (PlainError "conflict") else inr obj
      | ReqCreate obj | ReqUpdate obj | ReqDelete obj => inr obj
      | ReqGet _ _ _ => inr audit1
      | ReqList _ => inr audit1
      end;
    store_list _ _ _ := inr [audit1];
    client_New _ := None;
    manager_Start _ := None;
    controller_Complete _ := None;
  |}.

Definition toObject (r : ConfigAudit) : Object := OfConfigAudit r.


(** The hook of the spec's scenario C: only the create validator is set;
    it rejects a resource whose message is empty. *)
Definition reject_empty : Hook ConfigAudit := {|
  DefaulterFunc := None;
  ValidateCreateFunc :=
    Some (fun r => if String.eqb (Message r) ""
                   then ([], Some (PlainError "message must not be empty"))
                   else ([], None));
  ValidateUpdateFunc := None;
  ValidateDeleteFunc := None;
|}.


(** The filter of the spec's scenario D: creation events of the object
    named "target" only. *)
Definition only_target_created : ReconcilerFilterFunc Object :=
  fun e o =>
    match e with
    | ResourceEventTypeCreated => String.eqb (GetName o) "target"
    | _ => false
    end.

(** A callback that accepts every event. *)
Definition reconciled : ReconcilerFunc ConfigAudit := fun _ _ => None.

(** The metadata fields the examples use, with the tags the platform
    declares for them ([name] and [namespace], both [omitempty]); their
    strings are written and read as every string is. *)
Record Meta : Type := { meta_name : string; meta_namespace : string }.

#[export] Instance Meta_json : KResource.GoJSON Meta := {|
  KResource.json_zero := {| meta_name := ""; meta_namespace := "" |};
  KResource.Marshal m :=
    Some (KResource.JObject
            ((if String.eqb (meta_name m) "" then []
              else [("name", KResource.JString (KResource.utf8_coerce (meta_name m)))]) ++
             (if String.eqb (meta_namespace m) "" then []
              else [("namespace",
                     KResource.JString (KResource.utf8_coerce (meta_namespace m)))])));
  KResource.Unmarshal j old :=
    match j with
    | KResource.JObject fs =>
        Some {| meta_name := match KResource.assoc "name" fs with
                             | Some (KResource.JString n) => KResource.utf8_coerce n
                             | _ => meta_name old
                             end;
                meta_namespace := match KResource.assoc "namespace" fs with
                                  | Some (KResource.JString n) => KResource.utf8_coerce n
                                  | _ => meta_namespace old
                                  end |}
    | KResource.JNull => Some old
    | _ => None
    end;
  KResource.isEmptyValue _ := false;
|}.

(** [ConfigAuditSpec] of cmd/example/cr.go: one exported, tagged field. *)
Record ConfigAuditSpec : Type := { spec_message : string }.

#[export] Instance ConfigAuditSpec_json : KResource.GoJSON ConfigAuditSpec := {|
  KResource.json_zero := {| spec_message := "" |};
  KResource.Marshal v :=
    Some (KResource.JObject
            [("message", KResource.JString (KResource.utf8_coerce (spec_message v)))]);
  KResource.Unmarshal j old :=
    match j with
    | KResource.JObject fs =>
        Some {| spec_message := match KResource.assoc "message" fs with
                                | Some (KResource.JString s) => KResource.utf8_coerce s
                                | _ => spec_message old
                                end |}
    | KResource.JNull => Some old
    | _ => None
    end;
  KResource.isEmptyValue _ := false;
|}.

(** A spec struct with a second field that is not exported: the encoder
    writes exported fields only, and the decoder sets those only. *)
Record NotedSpec : Type := { noted_message : string; note : string }.

#[export] Instance NotedSpec_json : KResource.GoJSON NotedSpec := {|
  KResource.json_zero := {| noted_message := ""; note := "" |};
  KResource.Marshal v :=
    Some (KResource.JObject
            [("message", KResource.JString (KResource.utf8_coerce (noted_message v)))]);
  KResource.Unmarshal j old :=
    match j with
    | KResource.JObject fs =>
        Some {| noted_message := match KResource.assoc "message" fs with
                                 | Some (KResource.JString s) => KResource.utf8_coerce s
                                 | _ => noted_message old
                                 end;
                note := note old |}
    | KResource.JNull => Some old
    | _ => None
    end;
  KResource.isEmptyValue _ := false;
|}.

Definition audit_envelope
    : KResource.CustomResource Meta ConfigAuditSpec KResource.FieldUndefined KResource.FieldUndefined :=
  {| KResource.Kind := "ConfigAudit";
     KResource.APIVersion := "kapi-example.comradequinn.github.io/v1";
     KResource.ObjectMeta := {| meta_name := "target"; meta_namespace := "kapi-example" |};
     KResource.Spec := {| spec_message := "x" |};
     KResource.Status := None;
     KResource.Scale := None |}.

Definition noted_envelope
    : KResource.CustomResource Meta NotedSpec KResource.FieldUndefined KResource.FieldUndefined :=
  {| KResource.Kind := "ConfigAudit";
     KResource.APIVersion := "kapi-example.comradequinn.github.io/v1";
     KResource.ObjectMeta := {| meta_name := "target"; meta_namespace := "kapi-example" |};
     KResource.Spec := {| noted_message := "x"; note := "reviewed" |};
     KResource.Status := None;
     KResource.Scale := None |}.

(** An envelope with three marker fields, one of them not nil. *)
Definition undefined_envelope
    : KResource.CustomResource Meta KResource.FieldUndefined KResource.FieldUndefined
        KResource.FieldUndefined :=
  {| KResource.Kind := "";
     KResource.APIVersion := "";
     KResource.ObjectMeta := {| meta_name := "target"; meta_namespace := "" |};
     KResource.Spec := None;
     KResource.Status := Some tt;
     KResource.Scale := None |}.

(** A growth policy for slices: twice what is needed. *)
Definition growslice (old needed : nat) : nat := 2 * needed.

Definition World : Type := world Object ConfigAudit (list ConfigAudit).

(** A cluster as [NewCluster] returns it, and the same cluster once
    [Connect] has set its flag. *)
Definition fresh_cluster : World := KCluster.NewCluster_result [].

Definition connected_cluster : World := set_connected true fresh_cluster.
End Example.

(** ** Worlds that differ by appended events only *)

Section Extends.
Context {Obj T TList : Type}.

(** [w'] is [w] with the events [evs] appended to its trace; the flag and
    the registrations are the same. *)
Definition extends (w w' : world Obj T TList) (evs : list (event T TList)) : Prop :=
  connected w' = connected w /\ controllers w' = controllers w /\
  webhooks w' = webhooks w /\ trace w' = trace w ++ evs.

(** What the specification says of the subresource loop of [Client.Update]:
    [calls] are the requests that were issued for the names [subs], each
    with the store's answer, and [result] is the error returned.  The
    requests [oks] succeeded, one per name in order; either they are all
    of [calls] and cover every name, or one more request follows, for the
    next name, which failed, and [result] wraps its error. *)
Definition stops_at_first_failure (subs : list string)
      (calls : list (request T TList * option error)) (result : option error) : Prop :=
    exists oks : list (request T TList * option error),
      Forall (fun c => snd c = None) oks /\
      (fun c => request_subresource (fst c)) <$> oks = Some <$> take (length oks) subs /\
      ((calls = oks /\ length oks = length subs /\ result = None) \/
       (exists s obj err,
          calls = oks ++ [(ReqSubResourceUpdate s obj, Some err)] /\
          subs !! length oks = Some s /\
          result = Some (Errorf ("unable to update subresource " +:+ s +:+ ". ") err))).
(** [emits P m]: running [m] only appends events, all of which satisfy
    [P]; the flag and the registrations stay as they are, whether [m]
    returns or panics. *)
Definition emits {A} (P : event T TList -> bool) (m : M Obj T TList A) : Prop :=
  forall w, exists evs, extends w (snd (m w)) evs /\ forallb P evs = true.
End Extends.

(** ** Further readings of a trace *)

Section MoreTraces.
Context {Obj T TList : Type}.

(** The timers of a trace, run against the timers that are open when it
    starts: a start opens a timer, a stop must close the timer opened
    last.  [None]: some stop closes a timer that is not the innermost open
    one. *)
Fixpoint run_timers (open : list string) (tr : list (event T TList)) : option (list string) :=
  match tr with
  | [] => Some open
  | EvTimerStart metric :: rest => run_timers (metric :: open) rest
  | EvTimerStop metric _ :: rest =>
      match open with
      | metric' :: open' =>
          if String.eqb metric metric' then run_timers open' rest else None
      | [] => None
      end
  | _ :: rest => run_timers open rest
  end.

(** Every timer the events start is stopped by them, innermost first, and
    they stop no other timer. *)
Definition timers_nested (evs : list (event T TList)) : Prop :=
  forall open, run_timers open evs = Some open.

(** A log line carries the pair "lib", "kapi" as its last attributes. *)
Definition tagged (e : event T TList) : Prop :=
  match e with
  | EvLog _ _ attributes => exists given, attributes = given ++ [AStr "lib"; AStr "kapi"]
  | _ => True
  end.

(** How often a low-level client was built. *)
Fixpoint client_news (tr : list (event T TList)) : nat :=
  match tr with
  | [] => 0
  | EvClientNew :: rest => S (client_news rest)
  | _ :: rest => client_news rest
  end.

(** The low-level clients the store requests of a trace went through. *)
Fixpoint store_vias (tr : list (event T TList)) : list clientKind :=
  match tr with
  | [] => []
  | EvStore via _ _ :: rest => via :: store_vias rest
  | _ :: rest => store_vias rest
  end.

(** [appends Q m]: running [m] only appends events to the trace, and the
    appended events satisfy [Q], whether [m] returns or panics. *)
Definition appends {A} (Q : list (event T TList) -> Prop) (m : M Obj T TList A) : Prop :=
  forall w, exists evs, trace (snd (m w)) = trace w ++ evs /\ Q evs.

(** Properties of event lists that pass through the way the code is
    built: sequencing, a log line written through [LogFunc], and a timer
    started before and stopped after. *)
Record trace_closed (Q : list (event T TList) -> Prop) : Prop := {
  closed_nil : Q [];
  closed_app : forall evs1 evs2, Q evs1 -> Q evs2 -> Q (evs1 ++ evs2);
  closed_log : forall level msg attributes,
      Q [EvLog level msg (attributes ++ [AStr "lib"; AStr "kapi"])];
  closed_timed : forall metric attributes evs,
      Q evs -> Q (EvTimerStart metric :: evs ++ [EvTimerStop metric attributes]);
}.
End MoreTraces.

(** Events by the part of the code that leaves them. *)
Section EventKinds.
Context {T TList : Type}.

Definition is_reconcile_event (e : event T TList) : bool :=
  match e with
  | EvNewCorrelationCtx | EvReconcilerFunc _ _ => true
  | _ => false
  end.

Definition is_setup_event (e : event T TList) : bool :=
  match e with
  | EvManagerStart | EvControllerComplete _ | EvWebhookComplete _ => true
  | _ => false
  end.
End EventKinds.

(** The calls that are one half of [Connect]: the part before
    [manager.Start], which leaves its timer running, and the part after it. *)
Definition is_connect_phase {Obj T : Type} (c : KSystem.call (Obj:=Obj) (T:=T)) : bool :=
  match c with
  | KSystem.CallConnectEnter | KSystem.CallConnectLeave _ => true
  | _ => false
  end.

(** The calls that set a cluster up: the registrations and [Connect],
    whole or in its parts.  None of them runs a callback. *)
Definition is_setup_call {Obj T : Type} (c : KSystem.call (Obj:=Obj) (T:=T)) : bool :=
  match c with
  | KSystem.CallConnect | KSystem.CallConnectEnter | KSystem.CallManagerStartBegin
  | KSystem.CallConnectLeave _
  | KSystem.CallAddReconciler _ _ | KSystem.CallAddHook _ => true
  | _ => false
  end.

(** ** Further readings of the client's operations *)

Section ClientRequests.
Context {T TList : Type} `{GoType T} `{GoType TList}.

(** The request of an operation that issues a single one: every operation
    but an [Update] with subresource names.  [Get] and [List] pass the
    zero value they allocated. *)
Definition single_request (op : KClientOps.clientOp (T:=T)) : option (request T TList) :=
  match op with
  | KClientOps.OpCreate r => Some (ReqCreate r)
  | KClientOps.OpUpdate r [] => Some (ReqUpdate r)
  | KClientOps.OpUpdate r (_ :: _) => None
  | KClientOps.OpDelete r => Some (ReqDelete r)
  | KClientOps.OpGet namespace name => Some (ReqGet namespace name zeroOf)
  | KClientOps.OpList => Some (ReqList zeroOf)
  end.

(** The low-level client that the closure of [ClientFor] hands out. *)
Definition via_of (c : Client) : clientKind :=
  if cache c then CachedClient else DirectClient.

(** What an operation's requests look like on the low-level client [clt],
    with the error [err] the operation returns: the single request with
    that very error, or, for an [Update] with subresource names, requests
    through [clt] only and an error that is never a not-found one. *)
Definition op_requests (op : KClientOps.clientOp (T:=T)) (clt : clientKind)
    (evs : list (event T TList)) (err : option error) : Prop :=
  match single_request op with
  | Some req => evs = [EvStore clt req err]
  | None =>
      Forall (fun e => exists req er, e = EvStore clt req er) evs /\
      forall e, err = Some e -> IsNotFound e = false
  end.
End ClientRequests.

(** ** Further readings of the hooks *)

Section HookTraces.
Context {Obj T TList : Type} `{GoType T}.
Variable showObj : Obj -> string.

(** What an observed hook method leaves in the trace for the action [act]
    on the object [obj]: the timer start, the summary line and the trace
    line with the object as it was passed in, then the events [inner] of
    the method's body, then the timer stop. *)
Definition hook_observed (act : string) (obj : Obj) (inner : list (event T TList))
    : list (event T TList) :=
  [EvTimerStart "kapi_hook";
   EvLog 1 "kapi.hook invoked"
     [AStr "type"; AStr "kapi_hook_summary"; AStr "resource_action"; AStr act;
      AStr "resource_type"; AStr (typeName (T:=T)); AStr "lib"; AStr "kapi"];
   EvLog 3 "kapi.hook invoked"
     [AStr "type"; AStr "kapi_hook_trace"; AStr "resource_action"; AStr act;
      AStr "resource_type"; AStr (typeName (T:=T));
      AStr "resource"; AStr ("+" +:+ showObj obj); AStr "lib"; AStr "kapi"]] ++
  inner ++
  [EvTimerStop "kapi_hook" ["resource_type"; typeName (T:=T); "resource_action"; act]].
End HookTraces.

(** ** Chains of derived log adapters *)

Section LogChains.
Variable growslice : nat -> nat -> nat.

(** Successive [WithValues] calls, each on the instance that the call
    before it returned. *)
Fixpoint WithValues_chain (l : logconv.LogrWrapper) (attrs : list (list any))
    (st : logconv.state) : logconv.LogrWrapper * logconv.state :=
  match attrs with
  | [] => (l, st)
  | attr :: rest =>
      WithValues_chain (fst (logconv.WithValues growslice l attr st)) rest
        (snd (logconv.WithValues growslice l attr st))
  end.
End LogChains.

(** ** Values that the encoder refuses *)

(** A value that [omitempty] does not skip and [json.Marshal] returns an
    error for. *)
Definition unencodable {A} `{KResource.GoJSON A} (v : A) : Prop :=
  KResource.isEmptyValue v = false /\ KResource.Marshal v = None.


(** A scale payload with one [float64] field tagged [omitempty], holding
    a whole number or the not-a-number value: [encoding/json] skips the
    field when it is zero and returns an error for not-a-number. *)
Inductive Gauge : Type :=
| Finite (n : Z)
| NaN.

#[export] Instance Gauge_json : KResource.GoJSON Gauge := {|
  KResource.json_zero := Finite 0;
  KResource.Marshal v :=
    match v with
    | Finite n => Some (KResource.JNumber n)
    | NaN => None
    end;
  KResource.Unmarshal j old :=
    match j with
    | KResource.JNumber n => Some (Finite n)
    | KResource.JNull => Some old
    | _ => None
    end;
  KResource.isEmptyValue v :=
    match v with
    | Finite n => Z.eqb n 0
    | NaN => false
    end;
|}.

(** ** kapi.go: NewCluster

    [NewCluster] runs before there is a cluster, so it has a world of its
    own: the trace of what it logs, times and asks of the framework.  The
    scheme, the REST configuration and the manager belong to the
    framework; what they answer is a parameter.  [KindType] is the type of
    the values of a [Kinds] map and [Scheme] the framework's scheme. *)

Module KNewCluster.
Section NewCluster.
Context {KindType Scheme : Type}.

Record LeaderElectionConfig : Type := {
  Enabled : bool;
  LockResource : string;
  Namespace : string;
}.

(** [Kinds] is a Go map; it is held as the entries in the order in which
    the [range] over it visits them. *)
Record CRDs : Type := {
  APIGroup : string;
  APIVersion : string;
  Kinds : list (string * KindType);
}.

Record ClusterConfig : Type := {
  TLS : string;
  DisableCaching : bool;
  LeaderElection : LeaderElectionConfig;
  Namespaces : list string;
  cfg_CRDs : list CRDs;
}.

(** The fields of [manager.Options] that [NewCluster] sets.  Every value
    of the [DefaultNamespaces] map is the empty [cache.Config], so the map
    is held as its set of keys. *)
Record Options : Type := {
  opt_Scheme : Scheme;
  Metrics_BindAddress : string;
  Cache_DefaultNamespaces : gset string;
  WebhookServer_CertDir : string;
  opt_LeaderElection : bool;
  LeaderElectionID : string;
  LeaderElectionNamespace : string;
}.

(** [Cluster]: a manager, known by the options it was made with, and the
    [connected] flag. *)
Record Cluster : Type := {
  manager : Options;
  connected : bool;
}.

(** Attribute values of the log calls of [NewCluster]. *)
Inductive attribute : Type :=
| VStr (s : string)
| VStrs (l : list string).

Inductive event : Type :=
| EvTimerStart (metric : string)
| EvTimerStop (metric : string) (attributes : list string)
| EvLog (level : Z) (msg : string) (attributes : list attribute)
| EvNewManager (options : Options).

(** The framework.  A [string] on the left is the message of a panic. *)
Record Env : Type := {
  (** [runtime.NewScheme()] followed by the two [AddToScheme] calls under
      [utilruntime.Must] *)
  builtin_scheme : string + Scheme;
  (** [metav1.AddToGroupVersion(scheme, gv)] *)
  AddToGroupVersion : Scheme -> string -> string -> string + Scheme;
  (** [reflect.TypeOf(kindType).Elem().Name()] *)
  kind_type_name : KindType -> string + string;
  (** [scheme.AddKnownTypeWithName(gvk, kindType)] *)
  AddKnownTypeWithName : Scheme -> string -> string -> string -> KindType -> string + Scheme;
  (** [ctrl.GetConfigOrDie()]: false when it ends the process *)
  GetConfigOrDie : bool;
  (** [ctrl.NewManager(config, options)]: nil or an error *)
  NewManager : Options -> option error;
}.

Variable env : Env.

(** A call returns, panics, or ends the process. *)
Inductive result (A : Type) : Type :=
| Returned (a : A)
| Panicked (msg : string)
| Exited.
Arguments Returned {A} a.
Arguments Panicked {A} msg.
Arguments Exited {A}.

Definition N (A : Type) : Type := list event -> result A * list event.

Definition ret {A} (a : A) : N A := fun tr => (Returned a, tr).

Definition bind {A B} (m : N A) (k : A -> N B) : N B :=
  fun tr =>
    match m tr with
    | (Returned a, tr') => k a tr'
    | (Panicked msg, tr') => (Panicked msg, tr')
    | (Exited, tr') => (Exited, tr')
    end.

Definition panic {A} (msg : string) : N A := fun tr => (Panicked msg, tr).

Definition emit (e : event) : N unit := fun tr => (Returned tt, tr ++ [e]).

(** A framework call that returns or panics. *)
Definition call {A} (r : string + A) : N A :=
  match r with
  | inl msg => panic msg
  | inr a => ret a
  end.

(** Go's [defer]: the deferred call runs when the body returns or panics,
    not when the process ends. *)
Definition defer {A} (e : event) (body : N A) : N A :=
  fun tr =>
    match body tr with
    | (Exited, tr') => (Exited, tr')
    | (r, tr') => (r, tr' ++ [e])
    end.

(** [obs.LogFunc] after [Init]: the pair "lib", "kapi" is appended. *)
Definition LogFunc (level : Z) (msg : string) (attributes : list attribute) : N unit :=
  emit (EvLog level msg (attributes ++ [VStr "lib"; VStr "kapi"])).

(** [schema.GroupVersionKind.String] *)
Definition gvk_String (group version kind : string) : string :=
  group +:+ "/" +:+ version +:+ ", Kind=" +:+ kind.

(** The [for kindName, kindType := range maps.All(crd.Kinds)] loop. *)
Fixpoint register_kinds (group version : string) (kinds : list (string * KindType))
    (scheme : Scheme) : N Scheme :=
  match kinds with
  | [] => ret scheme
  | (kindName, kindType) :: rest =>
      bind (call (kind_type_name env kindType)) (fun name =>
      bind (LogFunc 3 "registering kind type mapping in scheme"
              [VStr "gvk"; VStr (gvk_String group version kindName);
               VStr "kind_type"; VStr name]) (fun _ =>
      bind (call (AddKnownTypeWithName env scheme group version kindName kindType))
        (fun scheme' =>
      register_kinds group version rest scheme')))
  end.

(** The [for crd := range slices.Values(cfg.CRDs)] loop: each scheme
    builder is run at once by [AddToScheme], and the function it was made
    from returns nil. *)
Fixpoint register_crds (crds : list CRDs) (scheme : Scheme) : N Scheme :=
  match crds with
  | [] => ret scheme
  | crd :: rest =>
      bind (call (AddToGroupVersion env scheme (APIGroup crd) (APIVersion crd)))
        (fun scheme1 =>
      bind (register_kinds (APIGroup crd) (APIVersion crd) (Kinds crd) scheme1)
        (fun scheme2 =>
      register_crds rest scheme2))
  end.

(** The leader-election checks: [cfg] is a copy, and the namespace of
    the election is written into it. *)
Definition check_leader_election (cfg : ClusterConfig) : N ClusterConfig :=
  if Enabled (LeaderElection cfg) then
    if String.eqb (LockResource (LeaderElection cfg)) "" then
      panic "a leader-election-resource must be set, unless leader elections are disabled"
    else if String.eqb (Namespace (LeaderElection cfg)) "" then
      match Namespaces cfg with
      | [] => panic "a namespace must be set, unless leader elections are disabled"
      | first :: _ =>
          ret {| TLS := TLS cfg; DisableCaching := DisableCaching cfg;
                 LeaderElection :=
                   {| Enabled := Enabled (LeaderElection cfg);
                      LockResource := LockResource (LeaderElection cfg);
                      Namespace := first |};
                 Namespaces := Namespaces cfg; cfg_CRDs := cfg_CRDs cfg |}
      end
    else ret cfg
  else ret cfg.

(** [NewCluster]: an error, or the cluster. *)
Definition NewCluster (cfg : ClusterConfig) : N (error + Cluster) :=
  bind (emit (EvTimerStart "kapi_new_cluster")) (fun _ =>
  defer (EvTimerStop "kapi_new_cluster" []) (
    bind (check_leader_election cfg) (fun cfg =>
    bind (call (builtin_scheme env)) (fun scheme =>
    bind (register_crds (cfg_CRDs cfg) scheme) (fun scheme =>
    let namespaces : gset string := list_to_set (Namespaces cfg) in
    if negb (GetConfigOrDie env) then (fun tr => (Exited, tr))
    else
      let options :=
        {| opt_Scheme := scheme;
           Metrics_BindAddress := "0";
           Cache_DefaultNamespaces := namespaces;
           WebhookServer_CertDir := TLS cfg;
           opt_LeaderElection := Enabled (LeaderElection cfg);
           LeaderElectionID := LockResource (LeaderElection cfg);
           LeaderElectionNamespace := Namespace (LeaderElection cfg) |} in
      bind (emit (EvNewManager options)) (fun _ =>
      match NewManager env options with
      | Some err =>
          ret (inl (Errorf "unable to create controller manager for kapi.cluster. " err))
      | None =>
          bind (LogFunc 3 "created kapi.cluster"
                  [VStr "namespaces"; VStrs (Namespaces cfg)]) (fun _ =>
          ret (inr {| manager := options; connected := false |}))
      end)))))).

(** The managers a trace shows to have been asked for. *)
Fixpoint managers (tr : list event) : list Options :=
  match tr with
  | [] => []
  | EvNewManager options :: rest => options :: managers rest
  | _ :: rest => managers rest
  end.

(** The namespace the leader election of [cfg] runs in. *)
Definition election_namespace (cfg : ClusterConfig) : string :=
  if Enabled (LeaderElection cfg) && String.eqb (Namespace (LeaderElection cfg)) ""
  then match Namespaces cfg with
       | first :: _ => first
       | [] => ""
       end
  else Namespace (LeaderElection cfg).

(** A leader election that is enabled but lacks its lock resource, or
    has no namespace to run in. *)
Definition election_incomplete (cfg : ClusterConfig) : bool :=
  Enabled (LeaderElection cfg) &&
  (String.eqb (LockResource (LeaderElection cfg)) "" ||
   (String.eqb (Namespace (LeaderElection cfg)) "" &&
    match Namespaces cfg with [] => true | _ :: _ => false end)).
End NewCluster.
Arguments Returned {A} a.
Arguments Panicked {A} msg.
Arguments Exited {A}.
Arguments CRDs : clear implicits.
Arguments ClusterConfig : clear implicits.
Arguments Options : clear implicits.
Arguments Cluster : clear implicits.
Arguments event : clear implicits.
Arguments Env : clear implicits.
End KNewCluster.

(** ** client.go: the list of resources and its deep copy *)

Module KResourceList.
Import KResource.

Section List.
(** [ListMeta] is declared by the platform's API machinery and [T] is the
    item type, a pointer type; both are parameters with their treatment
    by the encoder. *)
Context {ListMetaT T : Type} `{KResource.GoJSON ListMetaT} `{KResource.GoJSON T}.

(** [CustomResourceList[T]].  [Items] is a slice: [None] is the nil
    slice, [Some []] an empty one. *)
Record CustomResourceList : Type := {
  Kind : string;
  APIVersion : string;
  ListMeta : ListMetaT;
  Items : option (list T);
}.

Definition CustomResourceList_zero : CustomResourceList :=
  {| Kind := ""; APIVersion := ""; ListMeta := KResource.json_zero; Items := None |}.

(** The elements of a slice, encoded in order; an element that does not
    encode fails the whole. *)
Fixpoint Marshal_elements (items : list T) : option (list KResource.json) :=
  match items with
  | [] => Some []
  | item :: rest =>
      match KResource.Marshal item, Marshal_elements rest with
      | Some j, Some js => Some (j :: js)
      | _, _ => None
      end
  end.

(** The field tagged [json:"items"], without [omitempty]: it is always
    written, the nil slice as [null], any other slice as an array. *)
Definition encode_items (items : option (list T)) : option (list (string * KResource.json)) :=
  match items with
  | None => Some [("items", KResource.JNull)]
  | Some l =>
      match Marshal_elements l with
      | Some js => Some [("items", KResource.JArray js)]
      | None => None
      end
  end.

Definition Marshal_CustomResourceList (e : CustomResourceList) : option KResource.json :=
  match KResource.encode_field "kind" (Kind e), KResource.encode_field "apiVersion" (APIVersion e),
        KResource.encode_field "metadata" (ListMeta e), encode_items (Items e) with
  | Some f1, Some f2, Some f3, Some f4 => Some (KResource.JObject (f1 ++ f2 ++ f3 ++ f4))
  | _, _, _, _ => None
  end.

(** Decoding into the slice of a list that has no items yet, as the
    fresh [out] of [DeepCopyObject] has: [null] gives the nil slice; an
    array gives a slice of as many elements, each decoded into a zero
    element and left zero when its value does not fit. *)
Definition decode_items (v : KResource.json) (old : option (list T)) : option (list T) :=
  match v with
  | KResource.JNull => None
  | KResource.JArray js =>
      Some ((fun j => default KResource.json_zero
                        (KResource.Unmarshal j KResource.json_zero)) <$> js)
  | _ => old
  end.

Definition decode_field (out : CustomResourceList) (kv : string * KResource.json)
    : CustomResourceList :=
  let '(k, v) := kv in
  if String.eqb k "kind" then
    {| Kind := default (Kind out) (KResource.Unmarshal v (Kind out));
       APIVersion := APIVersion out; ListMeta := ListMeta out; Items := Items out |}
  else if String.eqb k "apiVersion" then
    {| Kind := Kind out;
       APIVersion := default (APIVersion out) (KResource.Unmarshal v (APIVersion out));
       ListMeta := ListMeta out; Items := Items out |}
  else if String.eqb k "metadata" then
    {| Kind := Kind out; APIVersion := APIVersion out;
       ListMeta := default (ListMeta out) (KResource.Unmarshal v (ListMeta out));
       Items := Items out |}
  else if String.eqb k "items" then
    {| Kind := Kind out; APIVersion := APIVersion out; ListMeta := ListMeta out;
       Items := decode_items v (Items out) |}
  else out.

Definition Unmarshal_CustomResourceList (doc : KResource.json) (out : CustomResourceList)
    : CustomResourceList :=
  match doc with
  | KResource.JObject fields => fold_left decode_field fields out
  | _ => out
  end.

(** [CustomResourceList.DeepCopyObject]; [None] is the nil receiver. *)
Definition DeepCopyObject (e : option CustomResourceList) : option CustomResourceList :=
  match e with
  | None => None
  | Some e =>
      let out := CustomResourceList_zero in
      match Marshal_CustomResourceList e with
      | Some b => Some (Unmarshal_CustomResourceList b out)
      | None => Some out
      end
  end.

(** An item comes back from its own encoding. *)
Definition roundtrips (item : T) : Prop :=
  exists j, KResource.Marshal item = Some j /\
            KResource.Unmarshal j KResource.json_zero = Some item.
End List.
Arguments CustomResourceList : clear implicits.
End KResourceList.

(** A pointer to an envelope as the item of a list: nil is [null]; any
    other value is decoded into the envelope pointed at, a new one when
    the pointer was nil. *)
#[export] Instance CustomResource_pointer_json {ObjectMetaT TSpec TStatus TScale : Type}
    `{KResource.GoJSON ObjectMetaT} `{KResource.GoJSON TSpec} `{KResource.GoJSON TStatus}
    `{KResource.GoJSON TScale}
    : KResource.GoJSON (option (KResource.CustomResource ObjectMetaT TSpec TStatus TScale)) := {|
  KResource.json_zero := None;
  KResource.Marshal p :=
    match p with
    | None => Some KResource.JNull
    | Some e => KResource.Marshal_CustomResource e
    end;
  KResource.Unmarshal j old :=
    match j with
    | KResource.JNull => Some None
    | _ => Some (Some (KResource.Unmarshal_CustomResource j
                         (default KResource.CustomResource_zero old)))
    end;
  KResource.isEmptyValue p := match p with None => true | Some _ => false end;
|}.

(** The list metadata the examples use: the resource version, tagged
    [omitempty]. *)
Record ListMetaOf : Type := { resourceVersion : string }.

#[export] Instance ListMetaOf_json : KResource.GoJSON ListMetaOf := {|
  KResource.json_zero := {| resourceVersion := "" |};
  KResource.Marshal m :=
    Some (KResource.JObject
            (if String.eqb (resourceVersion m) "" then []
             else [("resourceVersion",
                    KResource.JString (KResource.utf8_coerce (resourceVersion m)))]));
  KResource.Unmarshal j old :=
    match j with
    | KResource.JObject fs =>
        Some {| resourceVersion := match KResource.assoc "resourceVersion" fs with
                                   | Some (KResource.JString v) => KResource.utf8_coerce v
                                   | _ => resourceVersion old
                                   end |}
    | KResource.JNull => Some old
    | _ => None
    end;
  KResource.isEmptyValue _ := false;
|}.

(** ** Further concrete values *)

Module ExampleMore.
Import Example.

(** An envelope whose scale cannot be encoded. *)
Definition gauge_envelope
    : KResource.CustomResource Meta ConfigAuditSpec KResource.FieldUndefined Gauge :=
  {| KResource.Kind := "ConfigAudit";
     KResource.APIVersion := "kapi-example.comradequinn.github.io/v1";
     KResource.ObjectMeta := {| meta_name := "target"; meta_namespace := "kapi-example" |};
     KResource.Spec := {| spec_message := "x" |};
     KResource.Status := None;
     KResource.Scale := NaN |}.

(** A list of two items, one of them the nil pointer. *)
Definition audit_list
    : KResourceList.CustomResourceList ListMetaOf
        (option (KResource.CustomResource Meta ConfigAuditSpec KResource.FieldUndefined
                   KResource.FieldUndefined)) :=
  {| KResourceList.Kind := "ConfigAuditList";
     KResourceList.APIVersion := "kapi-example.comradequinn.github.io/v1";
     KResourceList.ListMeta := {| resourceVersion := "41" |};
     KResourceList.Items := Some [Some audit_envelope; None] |}.

(** A framework in which every call succeeds; a scheme is the list of
    what was registered, a kind type is known by its name. *)
Definition framework_ok : KNewCluster.Env string (list string) := {|
  KNewCluster.builtin_scheme := inr [];
  KNewCluster.AddToGroupVersion scheme group version := inr (scheme ++ [group +:+ "/" +:+ version]);
  KNewCluster.kind_type_name kindType := inr kindType;
  KNewCluster.AddKnownTypeWithName scheme group version kind kindType :=
    inr (scheme ++ [KNewCluster.gvk_String group version kind]);
  KNewCluster.GetConfigOrDie := true;
  KNewCluster.NewManager _ := None;
|}.

(** The configuration of the repository's tests: leader election with a
    lock resource and no namespace of its own, one listed namespace. *)
Definition test_config : KNewCluster.ClusterConfig string := {|
  KNewCluster.TLS := "";
  KNewCluster.DisableCaching := false;
  KNewCluster.LeaderElection :=
    {| KNewCluster.Enabled := true;
       KNewCluster.LockResource := "kapi-test-leader-election-lock";
       KNewCluster.Namespace := "" |};
  KNewCluster.Namespaces := ["kapi-test"];
  KNewCluster.cfg_CRDs :=
    [{| KNewCluster.APIGroup := "kapi-test.comradequinn.github.io";
        KNewCluster.APIVersion := "v1";
        KNewCluster.Kinds := [("TestResource", "CustomResource");
                              ("TestResourceList", "CustomResourceList")] |}];
|}.

(** The same configuration without the lock resource. *)
Definition unlocked_config : KNewCluster.ClusterConfig string := {|
  KNewCluster.TLS := "";
  KNewCluster.DisableCaching := false;
  KNewCluster.LeaderElection :=
    {| KNewCluster.Enabled := true;
       KNewCluster.LockResource := "";
       KNewCluster.Namespace := "" |};
  KNewCluster.Namespaces := ["kapi-test"];
  KNewCluster.cfg_CRDs := [];
|}.
End ExampleMore.

(** * Properties *)

(** ** Traces *)

Section TraceFacts.
Context {T TList : Type}.
Implicit Types tr : list (event T TList).

Lemma callbacks_app tr1 tr2 : callbacks (tr1 ++ tr2) = callbacks tr1 ++ callbacks tr2.
Proof.
    induction tr1 as [|e tr1 IH]; [reflexivity|].
    destruct e; simpl; rewrite IH; reflexivity.
Qed.

Lemma store_calls_app tr1 tr2 : store_calls (tr1 ++ tr2) = store_calls tr1 ++ store_calls tr2.
Proof.
    induction tr1 as [|e tr1 IH]; [reflexivity|].
    destruct e; simpl; rewrite IH; reflexivity.
Qed.

End TraceFacts.

(** ** Extension of worlds and what a computation may emit *)

Section MonadFacts.
Context {Obj T TList : Type}.
#[local] Abbreviation world := (world Obj T TList).
#[local] Abbreviation M := (M Obj T TList).

Lemma extends_refl (w : world) : extends w w [].
Proof. unfold extends. rewrite app_nil_r. auto. Qed.

Lemma extends_emit (w : world) e : extends w (emit e w) [e].
Proof. unfold extends. simpl. auto. Qed.

Lemma extends_trans (w1 w2 w3 : world) evs1 evs2 :
  extends w1 w2 evs1 -> extends w2 w3 evs2 -> extends w1 w3 (evs1 ++ evs2).
Proof.
    unfold extends. intros (-> & -> & -> & E1) (-> & -> & -> & ->).
    rewrite E1, app_assoc. auto.
Qed.

Lemma extends_emit2 (w : world) e1 e2 : extends w (emit e2 (emit e1 w)) [e1; e2].
Proof. apply (extends_trans w (emit e1 w) _ [e1] [e2]); apply extends_emit. Qed.

Lemma emits_ret {A} P (a : A) : emits P (ret a : M A).
Proof. intros w. exists []. split; [apply extends_refl|reflexivity]. Qed.

Lemma emits_emit P e : P e = true -> emits P (lift (emit e) : M unit).
Proof.
    intros HP w. exists [e]. split; [apply extends_emit|].
    simpl. rewrite HP. reflexivity.
Qed.

Lemma emits_bind {A B} P (m : M A) (k : A -> M B) :
  emits P m -> (forall a, emits P (k a)) -> emits P (bind m k).
Proof.
    intros Hm Hk w. unfold bind.
    destruct (Hm w) as (evs1 & Hext1 & HP1).
    destruct (m w) as [[a|msg] w1]; simpl in *.
    - destruct (Hk a w1) as (evs2 & Hext2 & HP2).
      exists (evs1 ++ evs2). split; [eapply extends_trans; eauto|].
      rewrite forallb_app, HP1, HP2. reflexivity.
    - exists evs1. auto.
Qed.

Lemma emits_defer {A} P (f : effect Obj T TList) (body : M A) e :
  (forall w, f w = emit e w) -> P e = true -> emits P body -> emits P (defer f body).
Proof.
    intros Hf HP Hb w. unfold defer.
    destruct (Hb w) as (evs & Hext & Hevs).
    destruct (body w) as [r w1]; simpl in *.
    exists (evs ++ [e]). split.
    - rewrite Hf. eapply extends_trans; [exact Hext|apply extends_emit].
    - rewrite forallb_app, Hevs. simpl. rewrite HP. reflexivity.
Qed.

Lemma emits_weaken {A} (P Q : event T TList -> bool) (m : M A) :
  (forall e, P e = true -> Q e = true) -> emits P m -> emits Q m.
Proof.
    intros HPQ Hm w. destruct (Hm w) as (evs & Hext & HP).
    exists evs. split; [exact Hext|].
    apply forallb_forall. intros e He.
    apply HPQ. revert e He. apply forallb_forall. exact HP.
Qed.

Lemma emits_connected {A} P (m : M A) w : emits P m -> connected (snd (m w)) = connected w.
Proof. intros Hm. destruct (Hm w) as (evs & (Hc & _) & _). exact Hc. Qed.

Lemma emits_LogFunc P level msg attributes :
  (forall l m a, P (EvLog l m a) = true) -> emits P (LogFunc level msg attributes : M unit).
Proof. intros HP. apply emits_emit, HP. Qed.

End MonadFacts.

(** ** The client *)

Module KClientFacts.
Section Facts.
Context {Obj T TList : Type} `{GoType T} `{GoType TList}.
Variable env : Env T TList.
Import KClient KClientOps.

#[local] Abbreviation world := (world Obj T TList).
#[local] Abbreviation M := (M Obj T TList).

Lemma observed_unfold {P A} `{GoType P} (act : string) (obj0 : P) (body : M (P * A)) (w : world) :
  observed act obj0 body w =
    match body (observing act w) with
    | (Done (obj, a), w') => (Done (obj, a), observed_end act (show obj) w')
    | (Panic msg, w') => (Panic msg, observed_end act (show obj0) w')
    end.
Proof.
    unfold observed, observe, bind, MetricTimerFunc, LogFunc, lift, ret. simpl.
    reflexivity.
Qed.

(** [getClient] panics exactly when the cluster is not connected; a
    cached client is the manager's, a direct one is built by
    [client.New], which may fail. *)
Lemma getClient_cases (c : Client) (w : world) :
  (connected w = false /\
     getClient env c w = (Panic "kapi.client used before kapi.cluster.connect called", w)) \/
  (connected w = true /\ cache c = true /\ getClient env c w = (Done (inr CachedClient), w)) \/
  (connected w = true /\ cache c = false /\
     ((exists err, getClient env c w = (Done (inl err), emit EvClientNew w)) \/
      getClient env c w = (Done (inr DirectClient), emit EvClientNew w))).
Proof.
    unfold getClient. destruct (connected w); simpl; [|auto].
    right. destruct (cache c); simpl; [auto|].
    right. repeat split.
    destruct (client_New env _); eauto.
Qed.

Lemma store_call_spec clt req obj (w : world) :
  exists obj' err,
    store_call env clt req obj w = (Done (obj', err), emit (EvStore clt req err) w) /\
    (err <> None -> obj' = obj).
Proof.
    unfold store_call. destruct (store_item env _ _ _); eauto.
    eexists _, _. split; [reflexivity|]. intros []. reflexivity.
Qed.

(** The loop of [Update] never panics, issues only store requests, and
    stops at the first failing one. *)
Lemma update_subresources_spec clt (subs : list string) :
  forall (resource : T) (w : world),
  exists obj err (w' : world) evs,
    update_subresources env clt resource subs w = (Done (obj, err), w') /\
    extends w w' evs /\ forallb is_store_event evs = true /\
    stops_at_first_failure subs (store_calls evs) err.
Proof.
    induction subs as [|s rest IH]; intros resource w.
    - exists resource, None, w, []. repeat split; try apply extends_refl.
      exists []. simpl. repeat split; auto.
    - cbn [update_subresources]. unfold bind.
      destruct (store_call_spec clt (ReqSubResourceUpdate s resource) resource w)
        as (obj1 & err1 & -> & _).
      destruct err1 as [e|].
      + eexists _, _, _, [_]. split; [reflexivity|].
        split; [apply extends_emit|]. split; [reflexivity|].
        exists []. simpl. repeat split; auto.
        right. exists s, resource, e. auto.
      + destruct (IH obj1 (emit (EvStore clt (ReqSubResourceUpdate s resource) None) w))
          as (obj & err & w' & evs & -> & Hext & Hst & (oks & Hoks & Hnames & Hend)).
        eexists _, _, _, (_ :: evs). split; [reflexivity|].
        split; [exact (extends_trans _ _ _ [_] evs (extends_emit _ _) Hext)|].
        split; [exact Hst|].
        exists ((ReqSubResourceUpdate s resource, None) :: oks). cbn.
        split; [constructor; auto|].
        split; [f_equal; exact Hnames|].
        destruct Hend as [(-> & Hlen & ->)|(s' & o' & e' & -> & Hlk & ->)].
        * left. auto.
        * right. exists s', o', e'. auto.
Qed.

(** Normalises [store_calls] of a trace built by the client's operations. *)
Ltac calls_norm :=
  cbn [fst snd]; unfold observed_end, observing; simpl;
  repeat rewrite store_calls_app; simpl; rewrite ?app_nil_r.

(** C3, as the code has it.  [Client.Update] first obtains a low-level
    client.  When it gets one: with no subresource name it issues exactly
    one full-object update request and returns that request's error; with
    one or more names it issues subresource-scoped requests one per name in
    order, stops at the first failing one and returns its error wrapped, so
    that no request follows the failing one.  When the client cannot be
    obtained, no request is issued at all: the error of [client.New] is
    returned, or the call panics because the cluster is not connected. *)
Theorem Update_store_requests (c : Client) (resource : T) (subs : list string) (w : world) :
  let res := Update env c resource subs w in
  match fst (getClient env c (observing "update" w)) with
  | Done (inr clt) =>
      exists obj err calls,
        fst res = Done (obj, err) /\
        store_calls (trace (snd res)) = store_calls (trace w) ++ calls /\
        match subs with
        | [] => calls = [(ReqUpdate resource, err)]
        | _ :: _ => stops_at_first_failure subs calls err
        end
  | Done (inl e) =>
      fst res = Done (resource, Some e) /\
      store_calls (trace (snd res)) = store_calls (trace w)
  | Panic msg =>
      fst res = Panic msg /\
      store_calls (trace (snd res)) = store_calls (trace w)
  end.
Proof.
  cbv zeta. unfold Update. rewrite observed_unfold. unfold bind.
  destruct (getClient_cases c (observing "update" w))
    as [(_ & ->)|[(_ & _ & ->)|(_ & _ & [(e & ->)| ->])]]; cbn [fst snd ret].
  - calls_norm. auto.
  - destruct subs as [|s rest]; cbn [length Nat.eqb].
    + destruct (store_call_spec CachedClient (ReqUpdate resource) resource (observing "update" w))
        as (obj & err & -> & _).
      exists obj, err, [(ReqUpdate resource, err)]. calls_norm. auto.
    + destruct (update_subresources_spec CachedClient (s :: rest) resource (observing "update" w))
        as (obj & err & w' & evs & -> & (_ & _ & _ & Htr) & _ & Hspec).
      exists obj, err, (store_calls evs). cbn [fst snd].
      split; [reflexivity|]. split; [|exact Hspec].
      unfold observed_end. simpl. rewrite Htr. calls_norm. reflexivity.
  - calls_norm. auto.
  - destruct subs as [|s rest]; cbn [length Nat.eqb].
    + destruct (store_call_spec DirectClient (ReqUpdate resource) resource
                  (emit EvClientNew (observing "update" w)))
        as (obj & err & -> & _).
      exists obj, err, [(ReqUpdate resource, err)]. calls_norm. auto.
    + destruct (update_subresources_spec DirectClient (s :: rest) resource
                  (emit EvClientNew (observing "update" w)))
        as (obj & err & w' & evs & -> & (_ & _ & _ & Htr) & _ & Hspec).
      exists obj, err, (store_calls evs). cbn [fst snd].
      split; [reflexivity|]. split; [|exact Hspec].
      unfold observed_end. simpl. rewrite Htr. calls_norm. reflexivity.
Qed.

Lemma store_events_client_events (evs : list (event T TList)) :
  forallb is_store_event evs = true -> forallb is_client_event evs = true.
Proof.
  induction evs as [|e evs IH]; [reflexivity|].
  destruct e; simpl; try discriminate; auto.
Qed.

(** A body that obtains the client and then runs [k] on it: it appends
    client events only; it panics only before any of them. *)
Lemma with_client_spec {P} (c : Client) (obj0 : P)
    (k : clientKind -> M (P * option error)) (w : world) :
  (forall clt w1, exists obj err (w' : world) evs,
      k clt w1 = (Done (obj, err), w') /\ trace w' = trace w1 ++ evs /\
      forallb is_client_event evs = true) ->
  exists r (w' : world) evs,
    bind (getClient env c)
      (fun r => match r with
                | inl err => ret (obj0, Some err)
                | inr clt => k clt
                end) w = (r, w') /\
    trace w' = trace w ++ evs /\ forallb is_client_event evs = true.
Proof.
  intros Hk. unfold bind.
  destruct (getClient_cases c w) as [(_ & ->)|[(_ & _ & ->)|(_ & _ & [(e & ->)| ->])]].
  - eexists _, _, []. rewrite app_nil_r. auto.
  - destruct (Hk CachedClient w) as (obj & err & w' & evs & -> & Htr & Hevs).
    eexists _, _, evs. auto.
  - eexists _, _, [EvClientNew]. auto.
  - destruct (Hk DirectClient (emit EvClientNew w)) as (obj & err & w' & evs & -> & Htr & Hevs).
    eexists _, _, (EvClientNew :: evs). split; [reflexivity|].
    rewrite Htr. simpl. rewrite <- app_assoc. auto.
Qed.

Lemma store_call_client_events clt req obj :
  forall w1 : world, exists obj' err (w' : world) evs,
    store_call env clt req obj w1 = (Done (obj', err), w') /\ trace w' = trace w1 ++ evs /\
    forallb is_client_event evs = true.
Proof.
  intros w1. destruct (store_call_spec clt req obj w1) as (obj' & err & -> & _).
  eexists _, _, _, [_]. split; [reflexivity|]. split; reflexivity.
Qed.

Lemma store_call_list_client_events clt (l : TList) :
  forall w1 : world, exists l' err (w' : world) evs,
    store_call_list env clt l w1 = (Done (l', err), w') /\ trace w' = trace w1 ++ evs /\
    forallb is_client_event evs = true.
Proof.
  intros w1. unfold store_call_list. destruct (store_list env _ _ _);
    (eexists _, _, _, [_]; split; [reflexivity|]; split; reflexivity).
Qed.

Lemma update_body_client_events clt resource subs :
  forall w1 : world, exists obj err (w' : world) evs,
    (if Nat.eqb (length subs) 0
     then store_call env clt (ReqUpdate resource) resource
     else update_subresources env clt resource subs) w1 = (Done (obj, err), w') /\
    trace w' = trace w1 ++ evs /\ forallb is_client_event evs = true.
Proof.
  intros w1. destruct (Nat.eqb (length subs) 0).
  - apply store_call_client_events.
  - destruct (update_subresources_spec clt subs resource w1)
      as (obj & err & w' & evs & -> & (_ & _ & _ & Htr) & Hst & _).
    exists obj, err, w', evs. auto using store_events_client_events.
Qed.

(** The trace an observed body leaves: timer start and summary first,
    then the body's events, then the payload line and the timer stop. *)
Lemma observed_trace {P} `{GoType P} (act : string) (obj0 : P)
    (body : M (P * option error)) (w : world) res :
  res = observed act obj0 body w ->
  (exists r (w' : world) evs,
     body (observing act w) = (r, w') /\ trace w' = trace (observing act w) ++ evs /\
     forallb is_client_event evs = true) ->
  exists mid payload,
    trace (snd res) =
      trace w ++ [EvTimerStart "kapi_client"; summary_log act] ++ mid ++
      [trace_log act payload; timer_stop act] /\
    forallb is_client_event mid = true /\
    match fst res with
    | Done (obj, _) => payload = show obj
    | Panic _ => payload = show obj0
    end.
Proof.
  intros -> (r & w' & evs & Hbody & Htr & Hevs).
  rewrite observed_unfold, Hbody.
  destruct r as [[obj a]|msg]; cbn [fst snd];
    (eexists evs, _; split; [|split; [exact Hevs|reflexivity]]);
    unfold observed_end; simpl; rewrite Htr; unfold observing; simpl;
    rewrite <- !app_assoc; reflexivity.
Qed.

(** C8, as the code has it.  Every client operation starts the timer and
    writes the summary-level line (level 1) before anything reaches the
    store; on every completion, whether the operation returns nil, returns
    an error or panics, it then writes the trace-level line (level 3)
    with the payload of the object as the operation leaves it and, right
    after that line, stops the timer with the labels "resource_type" (the
    item type's name) and "resource_action" (the action name).  Between
    the summary and the payload line only client events occur. *)
Theorem client_operation_observed (c : Client) (op : clientOp) (w : world) :
  let res := run_op env c op w in
  exists mid payload,
    trace (snd res) =
      trace w ++ [EvTimerStart "kapi_client"; summary_log (action op)] ++ mid ++
      [trace_log (action op) payload;
       EvTimerStop "kapi_client"
         ["resource_type"; typeName (T:=T); "resource_action"; action op]] /\
    forallb is_client_event mid = true /\
    match fst res with
    | Done (shown, _) => payload = shown
    | Panic _ => payload = payload_before op
    end.
Proof.
  cbv zeta. destruct op as [r|r subs|r|ns name|]; cbn [run_op action payload_before].
  - destruct (observed_trace "create" r _ w (Create env c r w) eq_refl
                (with_client_spec c r _ (observing "create" w)
                   (fun clt => store_call_client_events clt (ReqCreate r) r)))
      as (mid & payload & Htr & Hmid & Hp).
    exists mid, payload. destruct (Create env c r w) as [[[obj err]|msg] w']; subst; auto.
  - destruct (observed_trace "update" r _ w (Update env c r subs w) eq_refl
                (with_client_spec c r _ (observing "update" w)
                   (fun clt => update_body_client_events clt r subs)))
      as (mid & payload & Htr & Hmid & Hp).
    exists mid, payload. destruct (Update env c r subs w) as [[[obj err]|msg] w']; subst; auto.
  - destruct (observed_trace "delete" r _ w (Delete env c r w) eq_refl
                (with_client_spec c r _ (observing "delete" w)
                   (fun clt => store_call_client_events clt (ReqDelete r) r)))
      as (mid & payload & Htr & Hmid & Hp).
    exists mid, payload. destruct (Delete env c r w) as [[[obj err]|msg] w']; subst; auto.
  - destruct (observed_trace "get" (zeroOf (T:=T)) _ w (Get env c ns name w) eq_refl
                (with_client_spec c (zeroOf (T:=T)) _ (observing "get" w)
                   (fun clt => store_call_client_events clt (ReqGet ns name zeroOf) zeroOf)))
      as (mid & payload & Htr & Hmid & Hp).
    exists mid, payload. destruct (Get env c ns name w) as [[[obj err]|msg] w']; subst; auto.
  - destruct (observed_trace "list" (zeroOf (T:=TList)) _ w (List env c w) eq_refl
                (with_client_spec c (zeroOf (T:=TList)) _ (observing "list" w)
                   (fun clt => store_call_list_client_events clt zeroOf)))
      as (mid & payload & Htr & Hmid & Hp).
    exists mid, payload. destruct (List env c w) as [[[obj err]|msg] w']; subst; auto.
Qed.

(** *** What the operations leave untouched *)

Lemma extends_observing act (w : world) :
  extends w (observing act w) [EvTimerStart "kapi_client"; summary_log act].
Proof. apply extends_emit2. Qed.

Lemma extends_observed_end act payload (w : world) :
  extends w (observed_end act payload w) [trace_log act payload; timer_stop act].
Proof. apply extends_emit2. Qed.

Lemma emits_observed {P A} `{GoType P} act (obj0 : P) (body : M (P * A)) :
  emits is_client_or_observation body ->
  emits is_client_or_observation (observed act obj0 body).
Proof.
  intros Hb w. rewrite observed_unfold.
  destruct (Hb (observing act w)) as (evs & Hext & Hevs).
  destruct (body (observing act w)) as [[[obj a]|msg] w']; cbn [fst snd] in *.
  - exists ([EvTimerStart "kapi_client"; summary_log act] ++ evs ++
            [trace_log act (show obj); timer_stop act]).
    split.
    + eapply extends_trans; [apply extends_observing|].
      eapply extends_trans; [exact Hext|apply extends_observed_end].
    + rewrite !forallb_app, Hevs. reflexivity.
  - exists ([EvTimerStart "kapi_client"; summary_log act] ++ evs ++
            [trace_log act (show obj0); timer_stop act]).
    split.
    + eapply extends_trans; [apply extends_observing|].
      eapply extends_trans; [exact Hext|apply extends_observed_end].
    + rewrite !forallb_app, Hevs. reflexivity.
Qed.

Lemma emits_getClient c : emits is_client_or_observation (getClient env c : M _).
Proof.
  intros w.
  destruct (getClient_cases c w) as [(_ & ->)|[(_ & _ & ->)|(_ & _ & [(e & ->)| ->])]];
    cbn [snd].
  - exists []. split; [apply extends_refl|reflexivity].
  - exists []. split; [apply extends_refl|reflexivity].
  - exists [EvClientNew]. split; [apply extends_emit|reflexivity].
  - exists [EvClientNew]. split; [apply extends_emit|reflexivity].
Qed.

Lemma emits_store_call clt req obj :
  emits is_client_or_observation (store_call env clt req obj : M _).
Proof.
  intros w. destruct (store_call_spec clt req obj w) as (obj' & err & -> & _).
  eexists [_]. split; [apply extends_emit|reflexivity].
Qed.

Lemma emits_store_call_list clt l :
  emits is_client_or_observation (store_call_list env clt l : M _).
Proof.
  intros w. unfold store_call_list.
  destruct (store_list env _ _ _); (eexists [_]; split; [apply extends_emit|reflexivity]).
Qed.

Lemma emits_update_subresources clt resource subs :
  emits is_client_or_observation (update_subresources env clt resource subs : M _).
Proof.
  intros w.
  destruct (update_subresources_spec clt subs resource w)
    as (obj & err & w' & evs & -> & Hext & Hst & _).
  exists evs. split; [exact Hext|].
  clear -Hst. induction evs as [|e evs IH]; [reflexivity|].
  destruct e; simpl in *; try discriminate; auto.
Qed.

Lemma emits_with_client {P} c (obj0 : P) (k : clientKind -> M (P * option error)) :
  (forall clt, emits is_client_or_observation (k clt)) ->
  emits is_client_or_observation
    (bind (getClient env c)
       (fun r => match r with
                 | inl err => ret (obj0, Some err)
                 | inr clt => k clt
                 end)).
Proof.
  intros Hk. apply emits_bind; [apply emits_getClient|].
  intros [err|clt]; [apply emits_ret|apply Hk].
Qed.

Lemma emits_Create c r : emits is_client_or_observation (Create env c r : M _).
Proof.
  apply emits_observed, emits_with_client. intros clt. apply emits_store_call.
Qed.

Lemma emits_Update c r subs : emits is_client_or_observation (Update env c r subs : M _).
Proof.
  apply emits_observed, emits_with_client. intros clt.
  destruct (Nat.eqb (length subs) 0);
    [apply emits_store_call|apply emits_update_subresources].
Qed.

Lemma emits_Delete c r : emits is_client_or_observation (Delete env c r : M _).
Proof.
  apply emits_observed, emits_with_client. intros clt. apply emits_store_call.
Qed.

Lemma emits_Get c ns name : emits is_client_or_observation (Get env c ns name : M _).
Proof.
  apply emits_observed, emits_with_client. intros clt. apply emits_store_call.
Qed.

Lemma emits_List c : emits is_client_or_observation (List env c : M _).
Proof.
  apply emits_observed, emits_with_client. intros clt. apply emits_store_call_list.
Qed.
End Facts.
End KClientFacts.

(** ** The reconciler *)

Module KReconcilerFacts.
Section Facts.
Context {Obj T TList : Type} `{GoType T} `{GoType TList}.
Variables (GetName GetNamespace : Obj -> string).
Variable env : Env T TList.
Import KClient KReconciler KClientFacts.

#[local] Abbreviation world := (world Obj T TList).
#[local] Abbreviation M := (M Obj T TList).

Lemma callbacks_client_or_observation (evs : list (event T TList)) :
  forallb is_client_or_observation evs = true -> callbacks evs = [].
Proof.
  induction evs as [|e evs IH]; [reflexivity|].
  destruct e; simpl; try discriminate; auto.
Qed.

(** [Client.Get] returns the zero-valued item whenever it returns an
    error: the item is populated only by a store call that succeeds. *)
Lemma Get_error_zero (c : Client) ns name (w : world) resource err :
  fst (Get env c ns name w) = Done (resource, Some err) -> resource = zeroOf.
Proof.
  unfold Get. rewrite observed_unfold. unfold bind.
  destruct (getClient_cases env c (KClientOps.observing "get" w))
    as [(_ & ->)|[(_ & _ & ->)|(_ & _ & [(e & ->)| ->])]]; cbn [fst snd ret].
  - discriminate.
  - destruct (store_call_spec env CachedClient (ReqGet ns name zeroOf) zeroOf
                (KClientOps.observing "get" w)) as (obj & e & -> & Hz).
    cbn [fst]. intros [= -> ->]. apply Hz. discriminate.
  - intros [= -> _]. reflexivity.
  - destruct (store_call_spec env DirectClient (ReqGet ns name zeroOf) zeroOf
                (emit EvClientNew (KClientOps.observing "get" w))) as (obj & e & -> & Hz).
    cbn [fst]. intros [= -> ->]. apply Hz. discriminate.
Qed.

(** The reconciler's fetch adds no callback to the trace. *)
Lemma Get_callbacks (c : Client) ns name (w : world) :
  callbacks (trace (snd (Get env c ns name w))) = callbacks (trace w).
Proof.
  destruct (emits_Get env c ns name w) as (evs & (_ & _ & _ & ->) & Hevs).
  rewrite callbacks_app, (callbacks_client_or_observation evs Hevs), app_nil_r. reflexivity.
Qed.

Lemma callbacks_reconcile_entry (w : world) :
  callbacks (trace (reconcile_entry w)) = callbacks (trace w).
Proof.
  unfold reconcile_entry. simpl. rewrite !callbacks_app. simpl. rewrite !app_nil_r. reflexivity.
Qed.

(** [Reconcile] by the outcome of its fetch. *)
Ltac reconcile_cases r ns name w resource err msg w2 :=
  unfold Reconcile, bind, NewCorrelationCtx, MetricTimerFunc, defer, lift, LogFunc;
  cbn [fst snd]; fold (reconcile_entry w);
  destruct (Get env (client r) ns name (reconcile_entry w)) as [[[resource [err|]]|msg] w2];
  cbn [fst snd] in *.

Lemma Reconcile_callbacks (r : controller Obj T) (ns name : string) (w : world) :
  callbacks (trace (snd (Reconcile env r ns name w))) =
    callbacks (trace w) ++ invocations (fst (Get env (client r) ns name (reconcile_entry w))).
Proof.
  pose proof (Get_callbacks (client r) ns name (reconcile_entry w)) as Hcb.
  rewrite callbacks_reconcile_entry in Hcb.
  unfold invocations.
  reconcile_cases r ns name w resource err msg w2.
  - destruct (IsNotFound err); cbn [negb].
    + destruct (reconcilerFunc r ReconcileEventTypeDeleted resource); simpl;
        rewrite !callbacks_app, Hcb; simpl; rewrite ?app_nil_r; reflexivity.
    + simpl. rewrite !callbacks_app, Hcb. simpl. rewrite !app_nil_r. reflexivity.
  - destruct (reconcilerFunc r ReconcileEventTypeCreatedOrUpdated resource); simpl;
      rewrite !callbacks_app, Hcb; simpl; rewrite ?app_nil_r; reflexivity.
  - simpl. rewrite callbacks_app, Hcb. simpl. rewrite !app_nil_r. reflexivity.
Qed.

(** A fetch error that is not a not-found one is logged at level 0 and
    returned as it is. *)
Lemma Reconcile_other_error (r : controller Obj T) (ns name : string) (w : world)
    resource err :
  fst (Get env (client r) ns name (reconcile_entry w)) = Done (resource, Some err) ->
  IsNotFound err = false ->
  fst (Reconcile env r ns name w) = Done (Some err) /\
  In (invalid_resource_log err ns name) (trace (snd (Reconcile env r ns name w))).
Proof.
  reconcile_cases r ns name w resource' err' msg w2; intros [= <- <-] Hnf.
  rewrite Hnf. cbn [negb]. simpl. split; [reflexivity|].
  apply in_or_app. left. apply in_or_app. right. left. reflexivity.
Qed.

Lemma Reconcile_panic (r : controller Obj T) (ns name : string) (w : world) msg :
  fst (Get env (client r) ns name (reconcile_entry w)) = Panic msg ->
  fst (Reconcile env r ns name w) = Panic msg.
Proof.
  reconcile_cases r ns name w resource' err' msg' w2; intros [= <-]. reflexivity.
Qed.

(** What [Reconcile] returns, by the outcome of its fetch: the result
    of the callback on the fetched resource and the classification of the
    fetch, or the fetch's own error, or its panic. *)
Lemma Reconcile_returns (r : controller Obj T) (ns name : string) (w : world) :
  fst (Reconcile env r ns name w) =
    match fst (Get env (client r) ns name (reconcile_entry w)) with
    | Done (resource, None) =>
        Done (callback_error (reconcilerFunc r ReconcileEventTypeCreatedOrUpdated resource))
    | Done (resource, Some err) =>
        if IsNotFound err
        then Done (callback_error (reconcilerFunc r ReconcileEventTypeDeleted resource))
        else Done (Some err)
    | Panic msg => Panic msg
    end.
Proof.
  reconcile_cases r ns name w resource err msg w2.
  - destruct (IsNotFound err); cbn [negb]; [|reflexivity].
    destruct (reconcilerFunc r ReconcileEventTypeDeleted resource); reflexivity.
  - destruct (reconcilerFunc r ReconcileEventTypeCreatedOrUpdated resource); reflexivity.
  - reflexivity.
Qed.

(** The two lines [Reconcile] writes before the callback, for the
    resource and the classification the callback gets. *)
Lemma Reconcile_lines (r : controller Obj T) (ns name : string) (w : world)
    resource fetched :
  fst (Get env (client r) ns name (reconcile_entry w)) = Done (resource, fetched) ->
  (forall e, fetched = Some e -> IsNotFound e = true) ->
  let evt := match fetched with
             | Some _ => ReconcileEventTypeDeleted
             | None => ReconcileEventTypeCreatedOrUpdated
             end in
  In (reconciler_summary_log ns name evt) (trace (snd (Reconcile env r ns name w))) /\
  In (reconciler_trace_log ns name evt resource) (trace (snd (Reconcile env r ns name w))).
Proof.
  cbv zeta. unfold reconciler_summary_log, reconciler_trace_log.
  reconcile_cases r ns name w resource' err' msg w2; intros [= <- <-] Hnf.
  - rewrite (Hnf err' eq_refl). cbn [negb].
    destruct (reconcilerFunc r ReconcileEventTypeDeleted resource'); simpl;
      rewrite !in_app_iff; simpl; auto 10.
  - destruct (reconcilerFunc r ReconcileEventTypeCreatedOrUpdated resource'); simpl;
      rewrite !in_app_iff; simpl; auto 10.
Qed.

(** C1.  [Reconcile] fetches the resource with its own client, after the
    correlation context is made and the timer is started.  When that fetch
    fails with a not-found error, the callback is invoked once, with the
    classification Deleted and the zero-valued resource; when it fails
    with any other error, that error is returned as it is, the error-level
    line (level 0) is written and the callback is not invoked; when it
    succeeds, the callback is invoked with the classification
    CreatedOrUpdated and the fetched resource.  That the callback is
    invoked on a classification and a resource means: the summary and the
    trace line for them are written, the callback is entered once, and
    what [Reconcile] returns is the result of the registered callback
    applied to them (nil for nil, the formatted error for an error). *)
Theorem Reconcile_classifies (r : controller Obj T) (ns name : string) (w : world) :
  let got := Get env (client r) ns name (reconcile_entry w) in
  let res := Reconcile env r ns name w in
  let invoked (evt : ReconcileEventType) (resource : T) :=
    callbacks (trace (snd res)) = callbacks (trace w) ++ [(evt, resource)] /\
    fst res = Done (callback_error (reconcilerFunc r evt resource)) /\
    In (reconciler_summary_log ns name evt) (trace (snd res)) /\
    In (reconciler_trace_log ns name evt resource) (trace (snd res)) in
  match fst got with
  | Done (resource, Some err) =>
      if IsNotFound err then
        resource = zeroOf /\ invoked ReconcileEventTypeDeleted zeroOf
      else
        fst res = Done (Some err) /\
        callbacks (trace (snd res)) = callbacks (trace w) /\
        In (invalid_resource_log err ns name) (trace (snd res))
  | Done (resource, None) => invoked ReconcileEventTypeCreatedOrUpdated resource
  | Panic msg =>
      fst res = Panic msg /\ callbacks (trace (snd res)) = callbacks (trace w)
  end.
Proof.
  cbv zeta.
  pose proof (Reconcile_callbacks r ns name w) as Hcb.
  pose proof (Get_error_zero (client r) ns name (reconcile_entry w)) as Hzero.
  pose proof (Reconcile_other_error r ns name w) as Hother.
  pose proof (Reconcile_panic r ns name w) as Hpanic.
  pose proof (Reconcile_returns r ns name w) as Hret.
  pose proof (Reconcile_lines r ns name w) as Hlines.
  destruct (fst (Get env (client r) ns name (reconcile_entry w))) as [[resource [err|]]|msg];
    cbn [invocations] in Hcb.
  - specialize (Hzero resource err eq_refl). subst resource.
    destruct (IsNotFound err) eqn:Hnf.
    + destruct (Hlines zeroOf (Some err) eq_refl) as (Hsum & Htr).
      { intros e [= <-]. exact Hnf. }
      split; [reflexivity|]. auto.
    + destruct (Hother zeroOf err eq_refl Hnf) as (Hres & Hlog).
      rewrite app_nil_r in Hcb. auto.
  - destruct (Hlines resource None eq_refl) as (Hsum & Htr); [discriminate|]. auto.
  - rewrite app_nil_r in Hcb. split; [apply Hpanic; reflexivity|exact Hcb].
Qed.

Lemma predicate_spec (ctl : controller Obj T) (e : watchEvent Obj) (w : world) :
  exists l,
    predicate GetName GetNamespace ctl e w =
      (Done (match e with
             | CreateEvent o => reconcilerFilterFunc ctl ResourceEventTypeCreated o
             | UpdateEvent old _ => reconcilerFilterFunc ctl ResourceEventTypeUpdated old
             | DeleteEvent o => reconcilerFilterFunc ctl ResourceEventTypeDeleted o
             end),
       emit l w) /\
    callbacks [l] = [] /\ store_calls [l] = [].
Proof.
  destruct e as [o|old new|o]; cbn [predicate];
    unfold CreateFunc, UpdateFunc, DeleteFunc, reconcilerFilterFuncWithLogging;
    match goal with
    | |- context [negb ?b] => destruct b
    end; cbn [negb]; eexists; (split; [reflexivity|split; reflexivity]).
Qed.

(** C9.  The predicate registered for update events passes the old
    version of the object to the filter: its decision is the filter's
    answer on (Updated, old object), whatever the new object is.  For
    create and delete events the filter gets the event's only object. *)
Theorem UpdateFunc_filters_on_old (g : ReconcilerFilterFunc Obj) (f : ReconcilerFunc T)
    (clt : Client) (old new : Obj) (w : world) :
  let ctl := controller_of (Some g) f clt in
  fst (predicate GetName GetNamespace ctl (UpdateEvent old new) w) =
    Done (g ResourceEventTypeUpdated old) /\
  (forall new',
     predicate GetName GetNamespace ctl (UpdateEvent old new') w =
     predicate GetName GetNamespace ctl (UpdateEvent old new) w) /\
  (forall o, fst (predicate GetName GetNamespace ctl (CreateEvent o) w) =
             Done (g ResourceEventTypeCreated o)) /\
  (forall o, fst (predicate GetName GetNamespace ctl (DeleteEvent o) w) =
             Done (g ResourceEventTypeDeleted o)).
Proof.
  cbv zeta. split; [|split; [|split]]; try intros o.
  - destruct (predicate_spec (controller_of (Some g) f clt) (UpdateEvent old new) w)
      as (l & -> & _). reflexivity.
  - reflexivity.
  - destruct (predicate_spec (controller_of (Some g) f clt) (CreateEvent o) w)
      as (l & -> & _). reflexivity.
  - destruct (predicate_spec (controller_of (Some g) f clt) (DeleteEvent o) w)
      as (l & -> & _). reflexivity.
Qed.

(** C2, as the code has it.  The decision on an event is the filter's
    answer on the event's classification and object (the old object for an
    update), and true when no filter was supplied.  When it is false the
    event is not forwarded: the callback is not invoked and nothing is
    fetched.  When it is true the event is forwarded to [Reconcile], which
    invokes the callback exactly once when its fetch succeeds or reports
    not-found, and not at all when the fetch fails with another error or
    panics: the callback is never invoked more than once.  What the
    delivery gives back is what [Reconcile] returns: the result of the
    registered callback on the fetched resource and the classification
    of the fetch (nil, or its error formatted), the fetch's own error
    when that is not a not-found one, and the panic of the fetch. *)
Theorem deliver_filtered (filter : option (ReconcilerFilterFunc Obj)) (f : ReconcilerFunc T)
    (e : watchEvent Obj) (w : world) :
  let ctl := controller_of filter f {| cache := true |} in
  let res := deliver GetName GetNamespace env ctl e w in
  let decision :=
    match filter with
    | None => true
    | Some g =>
        match e with
        | CreateEvent o => g ResourceEventTypeCreated o
        | UpdateEvent old _ => g ResourceEventTypeUpdated old
        | DeleteEvent o => g ResourceEventTypeDeleted o
        end
    end in
  let fetch :=
    Get env {| cache := true |} (GetNamespace (event_object e)) (GetName (event_object e))
      (reconcile_entry (snd (predicate GetName GetNamespace ctl e w))) in
  if decision then
    callbacks (trace (snd res)) = callbacks (trace w) ++ invocations (fst fetch) /\
    length (invocations (fst fetch)) <= 1 /\
    fst res =
      match fst fetch with
      | Done (resource, None) =>
          Done (Some (callback_error (f ReconcileEventTypeCreatedOrUpdated resource)))
      | Done (resource, Some err) =>
          if IsNotFound err
          then Done (Some (callback_error (f ReconcileEventTypeDeleted resource)))
          else Done (Some (Some err))
      | Panic msg => Panic msg
      end
  else
    fst res = Done None /\
    callbacks (trace (snd res)) = callbacks (trace w) /\
    store_calls (trace (snd res)) = store_calls (trace w).
Proof.
  cbv zeta. unfold deliver, bind.
  destruct (predicate_spec (controller_of filter f {| cache := true |}) e w)
    as (l & Hp & Hcb & Hst).
  rewrite Hp. cbn [snd].
  assert (Hd : match e with
               | CreateEvent o =>
                   reconcilerFilterFunc (controller_of filter f {| cache := true |})
                     ResourceEventTypeCreated o
               | UpdateEvent old _ =>
                   reconcilerFilterFunc (controller_of filter f {| cache := true |})
                     ResourceEventTypeUpdated old
               | DeleteEvent o =>
                   reconcilerFilterFunc (controller_of filter f {| cache := true |})
                     ResourceEventTypeDeleted o
               end =
               match filter with
               | None => true
               | Some g =>
                   match e with
                   | CreateEvent o => g ResourceEventTypeCreated o
                   | UpdateEvent old _ => g ResourceEventTypeUpdated old
                   | DeleteEvent o => g ResourceEventTypeDeleted o
                   end
               end).
  { destruct filter, e; reflexivity. }
  rewrite Hd. clear Hd Hp.
  destruct (match filter with None => true | Some g => _ end).
  - pose proof (Reconcile_callbacks (controller_of filter f {| cache := true |})
                  (GetNamespace (event_object e)) (GetName (event_object e)) (emit l w)) as HR.
    pose proof (Reconcile_returns (controller_of filter f {| cache := true |})
                  (GetNamespace (event_object e)) (GetName (event_object e)) (emit l w)) as Hret.
    cbn [client controller_of reconcilerFunc] in HR, Hret.
    simpl in HR. rewrite callbacks_app, Hcb, app_nil_r in HR.
    split; [|split].
    + destruct (Reconcile env _ _ _ (emit l w)) as [[r|msg] w']; cbn [fst snd ret] in *;
        exact HR.
    + unfold invocations.
      destruct (fst (Get env _ _ _ _)) as [[resource [err|]]|msg]; simpl; try lia.
      destruct (IsNotFound err); simpl; lia.
    + destruct (Reconcile env _ _ _ (emit l w)) as [[r|msg] w']; cbn [fst snd ret] in *.
      * destruct (fst (Get env _ _ _ _)) as [[resource [err|]]|msg];
          [destruct (IsNotFound err)| |]; congruence.
      * destruct (fst (Get env _ _ _ _)) as [[resource [err|]]|msg'];
          [destruct (IsNotFound err)| |]; congruence.
  - cbn [ret fst snd]. split; [reflexivity|].
    simpl. rewrite callbacks_app, store_calls_app, Hcb, Hst, !app_nil_r. auto.
Qed.
End Facts.
End KReconcilerFacts.

(** ** Hooks *)

Module KHookFacts.
Section Facts.
Context {Obj T TList : Type} `{GoType T}.
Variable assertT : Obj -> option T.
Variable toObject : T -> Obj.
Variables (typeOf showObj : Obj -> string).
Import KHook.

#[local] Abbreviation world := (world Obj T TList).
#[local] Abbreviation M := (M Obj T TList).

Lemma hook_callbacks_app (tr1 tr2 : list (event T TList)) :
  hook_callbacks (tr1 ++ tr2) = hook_callbacks tr1 ++ hook_callbacks tr2.
Proof.
  induction tr1 as [|e tr1 IH]; [reflexivity|].
  simpl. destruct (is_hook_callback e); simpl; rewrite IH; reflexivity.
Qed.


End Facts.
End KHookFacts.

(** ** The cluster: Connect and the registrations *)

Module KClusterFacts.
Section Facts.
Context {Obj T TList : Type} `{GoType T} `{GoType TList}.
Variables (GetName GetNamespace : Obj -> string).
Variable assertT : Obj -> option T.
Variable toObject : T -> Obj.
Variables (typeOf showObj : Obj -> string).
Variable env : Env T TList.
Import KCluster KSystem.

#[local] Abbreviation world := (world Obj T TList).
#[local] Abbreviation M := (M Obj T TList).
#[local] Abbreviation call := (call (Obj:=Obj) (T:=T)).
#[local] Abbreviation step :=
  (step GetName GetNamespace assertT toObject typeOf showObj env).
#[local] Abbreviation run_calls :=
  (run_calls GetName GetNamespace assertT toObject typeOf showObj env).

Lemma emits_any {A} (P : event T TList -> bool) (m : M A) : emits P m -> emits any_event m.
Proof. apply emits_weaken. reflexivity. Qed.

(** [defer obs.MetricTimerFunc(ctx, metric)(attributes...)] around a body. *)
Lemma emits_timed {A} metric attributes (body : M A) :
  emits any_event body ->
  emits any_event
    (bind (MetricTimerFunc metric) (fun stopTimer => defer (stopTimer attributes) body)).
Proof.
  intros Hb w. unfold bind, MetricTimerFunc, defer.
  destruct (Hb (emit (EvTimerStart metric) w)) as (evs & Hext & _).
  destruct (body (emit (EvTimerStart metric) w)) as [r w']. cbn [snd] in *.
  exists ([EvTimerStart metric] ++ evs ++ [EvTimerStop metric attributes]).
  split; [|apply forallb_forall; reflexivity].
  eapply extends_trans; [apply extends_emit|].
  eapply extends_trans; [exact Hext|apply extends_emit].
Qed.

(** [defer h.observe(ctx, act, obj)()] around a body. *)
Lemma emits_hook_observed {A} act obj (body : M A) :
  emits any_event body ->
  emits any_event (bind (KHook.observe showObj act obj) (fun stop => defer stop body)).
Proof.
  intros Hb w. cbv [bind KHook.observe MetricTimerFunc LogFunc lift defer ret].
  match goal with
  | |- context [body ?w1] =>
      destruct (Hb w1) as (evs & Hext & _); destruct (body w1) as [r w']
  end.
  cbn [snd] in *.
  eexists ([_; _; _] ++ evs ++ [_]).
  split; [|apply forallb_forall; reflexivity].
  eapply extends_trans; [|eapply extends_trans; [exact Hext|apply extends_emit]].
  eapply (extends_trans _ _ _ [_] [_; _]); [apply extends_emit|apply extends_emit2].
Qed.

Ltac emits_step :=
  first
    [ apply emits_ret
    | apply emits_emit; reflexivity
    | apply emits_LogFunc; reflexivity
    | apply emits_timed
    | apply emits_hook_observed
    | apply emits_bind; [|intros ?]
    | match goal with
      | |- emits _ (match ?x with _ => _ end) => destruct x
      | |- emits _ (if ?x then _ else _) => destruct x
      end ].

Lemma emits_Reconcile r ns name :
  emits any_event (KReconciler.Reconcile env r ns name : M _).
Proof.
  unfold KReconciler.Reconcile, NewCorrelationCtx.
  apply emits_bind; [apply emits_emit; reflexivity|]. intros _.
  apply emits_timed.
  apply emits_bind; [apply (emits_any _ _ (KClientFacts.emits_Get env _ _ _))|].
  intros got. cbv zeta. repeat emits_step.
Qed.

Lemma emits_predicate ctl e :
  emits any_event (KReconciler.predicate GetName GetNamespace ctl e : M _).
Proof.
  destruct e; cbn [KReconciler.predicate];
    unfold KReconciler.CreateFunc, KReconciler.UpdateFunc, KReconciler.DeleteFunc,
      KReconciler.reconcilerFilterFuncWithLogging;
    repeat emits_step.
Qed.

Lemma emits_deliver ctl e :
  emits any_event (KReconciler.deliver GetName GetNamespace env ctl e : M _).
Proof.
  unfold KReconciler.deliver.
  apply emits_bind; [apply emits_predicate|]. intros [|]; [|apply emits_ret].
  apply emits_bind; [apply emits_Reconcile|]. intros r. apply emits_ret.
Qed.

Lemma emits_Default h obj :
  emits any_event (KHook.Default assertT toObject typeOf showObj h obj : M _).
Proof. unfold KHook.Default. repeat emits_step. Qed.

Lemma emits_ValidateCreate h obj :
  emits any_event (KHook.ValidateCreate assertT typeOf showObj h obj : M _).
Proof. unfold KHook.ValidateCreate. repeat emits_step. Qed.

Lemma emits_ValidateUpdate h oldObj newObj :
  emits any_event (KHook.ValidateUpdate assertT typeOf showObj h oldObj newObj : M _).
Proof. unfold KHook.ValidateUpdate. repeat emits_step. Qed.

Lemma emits_ValidateDelete h obj :
  emits any_event (KHook.ValidateDelete assertT typeOf showObj h obj : M _).
Proof. unfold KHook.ValidateDelete. repeat emits_step. Qed.

(** *** Connect *)

Lemma Connect_enter_first (w : world) :
  connected w = false ->
  Connect_enter w =
    (Done (fun attributes => emit (EvTimerStop "kapi_connect" attributes)),
     logf 3 "connecting k8s.cluster" []
       (set_connected true (emit (EvTimerStart "kapi_connect") w))).
Proof.
  intros Hc. unfold Connect_enter, bind, MetricTimerFunc. cbn [connected emit].
  rewrite Hc. reflexivity.
Qed.

Lemma Connect_enter_again (w : world) :
  connected w = true ->
  Connect_enter w =
    (Panic "kapi.cluster.connect called more than once",
     emit (EvTimerStop "kapi_connect" []) (emit (EvTimerStart "kapi_connect") w)).
Proof.
  intros Hc. unfold Connect_enter, bind, MetricTimerFunc. cbn [connected emit].
  rewrite Hc. reflexivity.
Qed.

Lemma Connect_enter_connected (w : world) : connected (snd (Connect_enter w)) = true.
Proof.
  destruct (connected w) eqn:Hc.
  - rewrite (Connect_enter_again w Hc). exact Hc.
  - rewrite (Connect_enter_first w Hc). reflexivity.
Qed.

Lemma Connect_again (w : world) :
  connected w = true ->
  fst (Connect env w) = Panic "kapi.cluster.connect called more than once" /\
  connected (snd (Connect env w)) = true.
Proof.
  intros Hc. unfold Connect, bind. rewrite (Connect_enter_again w Hc). auto.
Qed.

Lemma Connect_first (w : world) :
  connected w = false ->
  is_panic (fst (Connect env w)) = false /\ connected (snd (Connect env w)) = true.
Proof.
  intros Hc. unfold Connect, bind. rewrite (Connect_enter_first w Hc).
  unfold manager_Start_begin, lift, Connect_leave, defer. cbn [fst snd].
  destruct (manager_Start env _); auto.
Qed.

Lemma Connect_connected (w : world) : connected (snd (Connect env w)) = true.
Proof.
  destruct (connected w) eqn:Hc; [apply Connect_again|apply Connect_first]; exact Hc.
Qed.

Lemma emits_Connect_leave stopTimer r :
  (forall a w, stopTimer a w = emit (EvTimerStop "kapi_connect" a) w) ->
  emits any_event (Connect_leave stopTimer r : M _).
Proof.
  intros Hs. unfold Connect_leave.
  eapply emits_defer; [intros w; apply Hs|reflexivity|].
  destruct r; apply emits_ret.
Qed.

(** *** Registration *)

Lemma AddReconciler_connected filter f (w : world) :
  connected w = true ->
  KReconciler.AddReconciler env filter f w =
    (Panic "kapi.add-reconciler must be called before kapi.cluster.connect", w).
Proof. intros Hc. unfold KReconciler.AddReconciler. rewrite Hc. reflexivity. Qed.

Lemma AddHook_connected hook (w : world) :
  connected w = true ->
  KHook.AddHook hook w =
    (Panic "kapi.add-hook must be called before kapi.cluster.connect", w).
Proof. intros Hc. unfold KHook.AddHook. rewrite Hc. reflexivity. Qed.

(** Before [Connect], [AddReconciler] hands the controller to the
    framework; when the framework accepts it, it is registered with the
    filter, the callback and a cache-backed client. *)
Lemma AddReconciler_unconnected filter f (w : world) :
  connected w = false ->
  exists (w' : world) evs,
    snd (KReconciler.AddReconciler env filter f w) = w' /\
    connected w' = false /\ webhooks w' = webhooks w /\
    trace w' = trace w ++ evs /\ In (EvControllerComplete (typeName (T:=T))) evs /\
    ((fst (KReconciler.AddReconciler env filter f w) = Done None /\
      controllers w' =
        controllers w ++ [KReconciler.controller_of filter f {| cache := true |}]) \/
     (exists err,
        fst (KReconciler.AddReconciler env filter f w) =
          Done (Some (Errorf "unable to configure kapi.reconciler. " err)) /\
        controllers w' = controllers w)).
Proof.
  intros Hc. unfold KReconciler.AddReconciler. rewrite Hc.
  cbv [bind MetricTimerFunc defer LogFunc lift KClient.ClientFor ret]. cbn [fst snd].
  match goal with
  | |- context [controller_Complete env ?tr] => destruct (controller_Complete env tr) as [err|]
  end; cbn [fst snd]; eexists _, _; (split; [reflexivity|]); cbn; rewrite Hc;
    (split; [reflexivity|]); (split; [reflexivity|]);
    (split; [rewrite <- !app_assoc; reflexivity|]).
  - split; [simpl; tauto|]. right. exists err. auto.
  - split; [simpl; tauto|]. left. auto.
Qed.

(** [AddReconciler] does what the framework's [Complete] answers: it is
    asked once, after the timer start and the log lines, and its answer
    decides between a registered controller with nil returned and no
    registration with the formatted error returned. *)
Lemma AddReconciler_follows_Complete filter f (w : world) :
  connected w = false ->
  exists before rest,
    trace (snd (KReconciler.AddReconciler env filter f w)) =
      trace w ++ before ++ EvControllerComplete (typeName (T:=T)) :: rest /\
    Forall (fun e => is_setup_event e = false) before /\
    match controller_Complete env
            (trace w ++ before ++ [EvControllerComplete (typeName (T:=T))]) with
    | None =>
        fst (KReconciler.AddReconciler env filter f w) = Done None /\
        controllers (snd (KReconciler.AddReconciler env filter f w)) =
          controllers w ++ [KReconciler.controller_of filter f {| cache := true |}]
    | Some err =>
        fst (KReconciler.AddReconciler env filter f w) =
          Done (Some (Errorf "unable to configure kapi.reconciler. " err)) /\
        controllers (snd (KReconciler.AddReconciler env filter f w)) = controllers w
    end.
Proof.
  intros Hc.
  exists [EvTimerStart "kapi_add_reconciler";
          EvLog 3 "creating kapi.reconciler"
            ([AStr "resource_type"; AStr (typeName (T:=T))] ++ [AStr "lib"; AStr "kapi"]);
          EvLog 3 "creating kapi.client"
            ([AStr "resource_type"; AStr (typeName (T:=T));
              AStr "resource_list_type"; AStr (typeName (T:=TList))] ++
             [AStr "lib"; AStr "kapi"])].
  unfold KReconciler.AddReconciler. rewrite Hc.
  cbv [bind MetricTimerFunc defer LogFunc lift KClient.ClientFor ret]. cbn [fst snd].
  cbn [trace emit logf]. rewrite <- !app_assoc. cbn [app].
  destruct (controller_Complete env _) as [err|]; cbn [fst snd]; eexists;
    (split; [cbn; rewrite <- ?app_assoc; reflexivity|]);
    (split; [repeat constructor|]); split; reflexivity.
Qed.

Lemma AddHook_unconnected hook (w : world) :
  connected w = false ->
  exists (w' : world) evs,
    KHook.AddHook hook w = (Done None, w') /\
    connected w' = false /\ controllers w' = controllers w /\
    webhooks w' = webhooks w ++ [hook] /\
    trace w' = trace w ++ evs /\ In (EvWebhookComplete (typeName (T:=T))) evs.
Proof.
  intros Hc. unfold KHook.AddHook. rewrite Hc.
  cbv [bind MetricTimerFunc defer LogFunc lift ret]. cbn [fst snd].
  eexists _, _. split; [reflexivity|]. cbn. rewrite Hc.
  repeat (split; [reflexivity|]).
  split; [rewrite <- !app_assoc; reflexivity|]. simpl. tauto.
Qed.

(** *** Any sequence of calls *)

(** A call that enters [Connect] leaves the flag set; every other call
    leaves the flag as it found it. *)
Lemma step_connected (c : call) (w : world) :
  connected (snd (step c w)) = if is_connect_call c then true else connected w.
Proof.
  destruct c; cbn [KSystem.step is_connect_call]; unfold observe_call; cbn [snd].
  - apply Connect_connected.
  - apply Connect_enter_connected.
  - reflexivity.
  - eapply emits_connected, emits_Connect_leave. reflexivity.
  - destruct (connected w) eqn:Hc.
    + rewrite (AddReconciler_connected filter f w Hc). exact Hc.
    + destruct (AddReconciler_unconnected filter f w Hc) as (w' & evs & -> & -> & _).
      reflexivity.
  - destruct (connected w) eqn:Hc.
    + rewrite (AddHook_connected hook w Hc). exact Hc.
    + destruct (AddHook_unconnected hook w Hc) as (w' & evs & E & Hc' & _).
      rewrite E. exact Hc'.
  - eapply emits_connected, KClientFacts.emits_Create.
  - eapply emits_connected, KClientFacts.emits_Update.
  - eapply emits_connected, KClientFacts.emits_Delete.
  - eapply emits_connected, KClientFacts.emits_Get.
  - eapply emits_connected, KClientFacts.emits_List.
  - eapply emits_connected, emits_deliver.
  - eapply emits_connected, emits_Reconcile.
  - eapply emits_connected, emits_Default.
  - eapply emits_connected, emits_ValidateCreate.
  - eapply emits_connected, emits_ValidateUpdate.
  - eapply emits_connected, emits_ValidateDelete.
Qed.

Lemma run_calls_connected (cs : list call) (w : world) :
  connected w = true -> connected (run_calls cs w) = true.
Proof.
  revert w. induction cs as [|c cs IH]; intros w Hc; [exact Hc|].
  cbn [KSystem.run_calls]. apply IH. rewrite step_connected.
  destruct (is_connect_call c); [reflexivity|exact Hc].
Qed.

Lemma run_calls_unconnected (cs : list call) (w : world) :
  forallb (fun c => negb (is_connect_call c)) cs = true ->
  connected (run_calls cs w) = connected w.
Proof.
  revert w. induction cs as [|c cs IH]; intros w Hcs; [reflexivity|].
  cbn [forallb] in Hcs. apply andb_prop in Hcs as (Hd & Hcs).
  cbn [KSystem.run_calls]. rewrite (IH _ Hcs), step_connected.
  destruct (is_connect_call c); [discriminate|reflexivity].
Qed.



(** C6.  Once [Connect] has been called on a cluster ([entered] is that
    call, [cs] whatever was called since), [AddReconciler] and [AddHook]
    panic.  On a cluster as [NewCluster] returned it, on which [Connect]
    has not been called ([before] holds no call that enters [Connect]),
    neither of them panics and both go on to register.  [AddReconciler]
    hands the controller to the framework, once, after its timer start
    and log lines; when the framework's [Complete] answers nil the
    controller is registered (the filter, the callback and a cached
    client) and nil is returned; when it answers an error nothing is
    registered and that error is returned formatted.  [AddHook] registers
    the webhook and returns nil.  Neither touches the registrations of
    the other kind. *)
Theorem registration_only_before_Connect
    (filter : option (ReconcilerFilterFunc Obj)) (f : ReconcilerFunc T) (hook : Hook T)
    (w0 : world) (entered : call) (cs : list call)
    (tr : list (event T TList)) (before : list call) :
  is_connect_call entered = true ->
  forallb (fun c => negb (is_connect_call c)) before = true ->
  let after := run_calls cs (snd (step entered w0)) in
  let w := run_calls before (NewCluster_result tr) in
  (is_panic (fst (KReconciler.AddReconciler env filter f after)) = true /\
   is_panic (fst (KHook.AddHook hook after)) = true) /\
  (is_panic (fst (KReconciler.AddReconciler env filter f w)) = false /\
   In (EvControllerComplete (typeName (T:=T)))
      (trace (snd (KReconciler.AddReconciler env filter f w))) /\
   (fst (KReconciler.AddReconciler env filter f w) = Done None /\
    controllers (snd (KReconciler.AddReconciler env filter f w)) =
      controllers w ++ [KReconciler.controller_of filter f {| cache := true |}] \/
    exists err,
      fst (KReconciler.AddReconciler env filter f w) =
        Done (Some (Errorf "unable to configure kapi.reconciler. " err))) /\
   (exists logged rest,
      trace (snd (KReconciler.AddReconciler env filter f w)) =
        trace w ++ logged ++ EvControllerComplete (typeName (T:=T)) :: rest /\
      Forall (fun e => is_setup_event e = false) logged /\
      match controller_Complete env
              (trace w ++ logged ++ [EvControllerComplete (typeName (T:=T))]) with
      | None =>
          fst (KReconciler.AddReconciler env filter f w) = Done None /\
          controllers (snd (KReconciler.AddReconciler env filter f w)) =
            controllers w ++ [KReconciler.controller_of filter f {| cache := true |}]
      | Some err =>
          fst (KReconciler.AddReconciler env filter f w) =
            Done (Some (Errorf "unable to configure kapi.reconciler. " err)) /\
          controllers (snd (KReconciler.AddReconciler env filter f w)) = controllers w
      end) /\
   webhooks (snd (KReconciler.AddReconciler env filter f w)) = webhooks w) /\
  (fst (KHook.AddHook hook w) = Done None /\
   webhooks (snd (KHook.AddHook hook w)) = webhooks w ++ [hook] /\
   In (EvWebhookComplete (typeName (T:=T))) (trace (snd (KHook.AddHook hook w))) /\
   controllers (snd (KHook.AddHook hook w)) = controllers w).
Proof.
  intros Hentered Hbefore. cbv zeta.
  assert (Hafter : connected (run_calls cs (snd (step entered w0))) = true).
  { apply run_calls_connected. rewrite step_connected, Hentered. reflexivity. }
  assert (Hw : connected (run_calls before (NewCluster_result tr)) = false).
  { rewrite (run_calls_unconnected before _ Hbefore). reflexivity. }
  split; [|split].
  - rewrite (AddReconciler_connected filter f _ Hafter), (AddHook_connected hook _ Hafter).
    split; reflexivity.
  - pose proof (AddReconciler_follows_Complete filter f _ Hw) as Hfollows.
    destruct (AddReconciler_unconnected filter f _ Hw)
      as (w' & evs & Hsnd & _ & Hhooks & Htr & Hin & Hres).
    rewrite Hsnd in *. rewrite Htr.
    split.
    + destruct Hres as [(-> & _)|(err & -> & _)]; reflexivity.
    + split; [apply in_or_app; right; exact Hin|].
      split; [destruct Hres as [(Hr & Hctl)|(err & Hr & _)]; [left; auto|right; eauto]|].
      split; [|exact Hhooks].
      rewrite <- Htr. exact Hfollows.
  - destruct (AddHook_unconnected hook _ Hw) as (w' & evs & -> & _ & Hctl & Hwh & Htr & Hin).
    cbn [fst snd]. rewrite Htr.
    split; [reflexivity|]. split; [exact Hwh|].
    split; [apply in_or_app; right; exact Hin|exact Hctl].
Qed.
End Facts.
End KClusterFacts.

(** ** The log adapter *)

Module logconvFacts.
Section Facts.
Variable growslice : nat -> nat -> nat.
Import logconv.

Implicit Types (m : gmap nat (list (option any))) (s : slice) (xs : list any).

Lemma elems_length m s : wf_slice m s -> length (elems m s) = len s.
Proof.
  unfold wf_slice, elems. destruct (array s) as [p|].
  - intros (arr & -> & Hlen & Hle). simpl. rewrite length_take. lia.
  - intros (-> & _). reflexivity.
Qed.

(** [append] leaves what the slice it extends shows, and the slice it
    returns shows that followed by the appended values. *)
Lemma append_spec s xs m :
  wf_slice m s ->
  elems (snd (append growslice s xs m)) s = elems m s /\
  elems (snd (append growslice s xs m)) (fst (append growslice s xs m)) =
    elems m s ++ (Some <$> xs) /\
  wf_slice (snd (append growslice s xs m)) (fst (append growslice s xs m)).
Proof.
  intros Hwf. pose proof (elems_length m s Hwf) as Hel.
  unfold append. destruct (decide (len s + length xs <= cap s)) as [Hfit|Hgrow].
  - unfold wf_slice, elems in *. destruct (array s) as [p|] eqn:Hp.
    + destruct Hwf as (arr & Harr & Hlen & Hle). rewrite Harr in *.
      cbn [fst snd array len cap default from_option id] in *.
      rewrite !lookup_insert_eq. cbn [default from_option id].
      assert (Htl : length (take (len s) arr) = len s) by (rewrite length_take; lia).
      split; [|split].
      * rewrite take_app_length'; [reflexivity|lia].
      * rewrite app_assoc. rewrite take_app_length'; [reflexivity|].
        rewrite length_app, length_fmap. lia.
      * eexists. split; [reflexivity|].
        rewrite !length_app, length_fmap, length_drop. lia.
    + cbn [fst snd]. unfold wf_slice, elems. rewrite Hp.
      destruct Hwf as (H0 & Hc). rewrite H0, Hc in Hfit.
      destruct xs; [|simpl in Hfit; lia]. auto.
  - cbn [fst snd].
    set (p := fresh (dom m)).
    assert (Hfresh : m !! p = None) by (apply not_elem_of_dom, is_fresh).
    split; [|split].
    + unfold elems, wf_slice in *. destruct (array s) as [q|]; [|reflexivity].
      destruct Hwf as (arr & Harr & _).
      rewrite lookup_insert_ne; [reflexivity|]. intros ->. congruence.
    + unfold elems at 1. cbn [array len]. rewrite lookup_insert_eq.
      cbn [default from_option id].
      rewrite app_assoc. rewrite take_app_length'; [reflexivity|].
      rewrite length_app, length_fmap. lia.
    + unfold wf_slice. cbn [array len cap]. eexists. rewrite lookup_insert_eq.
      split; [reflexivity|].
      rewrite !length_app, length_fmap, length_replicate. lia.
Qed.

(** C10.  [WithValues] stores the parent's pairs followed by the new
    ones on the instance it returns and leaves what the parent holds as
    it was; it logs nothing.  [WithName] is [WithValues] with the pair
    "name", name.  The pairs an instance holds reach no log call: [Info]
    and [Error] on any instance pass the underlying log function exactly
    the attributes of the call (for [Error] followed by "error" and the
    error), and then "dep", "ctrl-runtime". *)
Theorem scoped_attributes_are_dropped (l : LogrWrapper) (attr : list any) (st : state) :
  wf_slice (mem st) (attrs l) ->
  let lw := fst (WithValues growslice l attr st) in
  let st' := snd (WithValues growslice l attr st) in
  (elems (mem st') (attrs l) = elems (mem st) (attrs l) /\
   elems (mem st') (attrs lw) = elems (mem st) (attrs l) ++ (Some <$> attr) /\
   wf_slice (mem st') (attrs lw) /\
   logged st' = logged st) /\
  (forall name, WithName growslice l name st = WithValues growslice l [AStr "name"; AStr name] st) /\
  (forall (i : LogrWrapper) level msg a,
     logged (Info i level msg a st') =
       logged st' ++ [(2%Z, msg, a ++ [AStr "dep"; AStr "ctrl-runtime"])] /\
     mem (Info i level msg a st') = mem st') /\
  (forall (i : LogrWrapper) err msg a,
     logged (Error i err msg a st') =
       logged st' ++ [(0%Z, msg, (a ++ [AStr "error"; AErr err]) ++
                                 [AStr "dep"; AStr "ctrl-runtime"])] /\
     mem (Error i err msg a st') = mem st').
Proof.
  intros Hwf. cbv zeta.
  destruct (append_spec (attrs l) attr (mem st) Hwf) as (Hparent & Hchild & Hwf').
  unfold WithValues.
  destruct (append growslice (attrs l) attr (mem st)) as [s m] eqn:Happ.
  cbn [fst snd attrs mem logged] in *.
  split; [auto|].
  split; [reflexivity|].
  split; intros; split; reflexivity.
Qed.
End Facts.
End logconvFacts.

(** ** The resource envelope *)

Module KResourceFacts.
Import KResource.

(** A string that is well-formed UTF-8 survives its encoding. *)
Lemma string_survives (s : string) : valid_utf8 s = true -> survives s.
Proof.
  unfold valid_utf8. intros Hv. apply String.eqb_eq in Hv.
  unfold survives. cbn [isEmptyValue string_json json_zero Marshal Unmarshal].
  destruct (String.eqb_spec s ""); [assumption|].
  eexists. split; [reflexivity|]. rewrite Hv, Hv. reflexivity.
Qed.

Lemma FieldUndefined_survives (v : FieldUndefined) : survives v.
Proof. destruct v as [[]|]; [|reflexivity]. unfold survives. simpl. eauto. Qed.

Section Envelope.
Context {ObjectMetaT TSpec TStatus TScale : Type}.
Context `{GoJSON ObjectMetaT} `{GoJSON TSpec} `{GoJSON TStatus} `{GoJSON TScale}.

#[local] Abbreviation CR := (CustomResource ObjectMetaT TSpec TStatus TScale).

(** A field that survives its encoding is either skipped, and then zero,
    or written under its name with a value that decodes to it. *)
Lemma encode_field_survives {A} `{GoJSON A} (name : string) (v : A) :
  survives v ->
  (encode_field name v = Some [] /\ v = json_zero) \/
  (exists j, encode_field name v = Some [(name, j)] /\ Unmarshal j json_zero = Some v).
Proof.
  unfold survives, encode_field. destruct (isEmptyValue v).
  - intros ->. left. auto.
  - intros (j & -> & Hu). right. eauto.
Qed.

Lemma decode_kind (v : string) fs k a (m : ObjectMetaT) (sp : TSpec) (st : TStatus) (sc : TScale) :
  survives v -> encode_field "kind" v = Some fs -> k = "" ->
  fold_left decode_field fs
    {| Kind := k; APIVersion := a; ObjectMeta := m; Spec := sp; Status := st; Scale := sc |} =
    {| Kind := v; APIVersion := a; ObjectMeta := m; Spec := sp; Status := st; Scale := sc |}.
Proof.
  intros Hs He ->.
  destruct (encode_field_survives "kind" v Hs) as [(E & ->)|(j & E & Hu)];
    rewrite E in He; injection He as <-; [reflexivity|].
  cbn in *. rewrite Hu. reflexivity.
Qed.

Lemma decode_apiVersion (v : string) fs k a (m : ObjectMetaT) (sp : TSpec) (st : TStatus)
    (sc : TScale) :
  survives v -> encode_field "apiVersion" v = Some fs -> a = "" ->
  fold_left decode_field fs
    {| Kind := k; APIVersion := a; ObjectMeta := m; Spec := sp; Status := st; Scale := sc |} =
    {| Kind := k; APIVersion := v; ObjectMeta := m; Spec := sp; Status := st; Scale := sc |}.
Proof.
  intros Hs He ->.
  destruct (encode_field_survives "apiVersion" v Hs)
    as [(E & ->)|(j & E & Hu)];
    rewrite E in He; injection He as <-; [reflexivity|].
  cbn in *. rewrite Hu. reflexivity.
Qed.

Lemma decode_metadata (v : ObjectMetaT) fs k a m (sp : TSpec) (st : TStatus) (sc : TScale) :
  survives v -> encode_field "metadata" v = Some fs -> m = json_zero ->
  fold_left decode_field fs
    {| Kind := k; APIVersion := a; ObjectMeta := m; Spec := sp; Status := st; Scale := sc |} =
    {| Kind := k; APIVersion := a; ObjectMeta := v; Spec := sp; Status := st; Scale := sc |}.
Proof.
  intros Hs He ->.
  destruct (encode_field_survives "metadata" v Hs) as [(E & ->)|(j & E & Hu)];
    rewrite E in He; injection He as <-; [reflexivity|].
  cbn. rewrite Hu. reflexivity.
Qed.

Lemma decode_spec (v : TSpec) fs k a (m : ObjectMetaT) sp (st : TStatus) (sc : TScale) :
  survives v -> encode_field "spec" v = Some fs -> sp = json_zero ->
  fold_left decode_field fs
    {| Kind := k; APIVersion := a; ObjectMeta := m; Spec := sp; Status := st; Scale := sc |} =
    {| Kind := k; APIVersion := a; ObjectMeta := m; Spec := v; Status := st; Scale := sc |}.
Proof.
  intros Hs He ->.
  destruct (encode_field_survives "spec" v Hs) as [(E & ->)|(j & E & Hu)];
    rewrite E in He; injection He as <-; [reflexivity|].
  cbn. rewrite Hu. reflexivity.
Qed.

Lemma decode_status (v : TStatus) fs k a (m : ObjectMetaT) (sp : TSpec) st (sc : TScale) :
  survives v -> encode_field "status" v = Some fs -> st = json_zero ->
  fold_left decode_field fs
    {| Kind := k; APIVersion := a; ObjectMeta := m; Spec := sp; Status := st; Scale := sc |} =
    {| Kind := k; APIVersion := a; ObjectMeta := m; Spec := sp; Status := v; Scale := sc |}.
Proof.
  intros Hs He ->.
  destruct (encode_field_survives "status" v Hs) as [(E & ->)|(j & E & Hu)];
    rewrite E in He; injection He as <-; [reflexivity|].
  cbn. rewrite Hu. reflexivity.
Qed.

Lemma decode_scale (v : TScale) fs k a (m : ObjectMetaT) (sp : TSpec) (st : TStatus) sc :
  survives v -> encode_field "scale" v = Some fs -> sc = json_zero ->
  fold_left decode_field fs
    {| Kind := k; APIVersion := a; ObjectMeta := m; Spec := sp; Status := st; Scale := sc |} =
    {| Kind := k; APIVersion := a; ObjectMeta := m; Spec := sp; Status := st; Scale := v |}.
Proof.
  intros Hs He ->.
  destruct (encode_field_survives "scale" v Hs) as [(E & ->)|(j & E & Hu)];
    rewrite E in He; injection He as <-; [reflexivity|].
  cbn. rewrite Hu. reflexivity.
Qed.

Lemma encode_field_some {A} `{GoJSON A} (name : string) (v : A) :
  survives v -> exists fs, encode_field name v = Some fs.
Proof.
  intros Hs. destruct (encode_field_survives name v Hs) as [(E & _)|(j & E & _)]; eauto.
Qed.

(** An envelope whose kind, version, metadata and payloads survive their
    encoding is encoded without error and decoded back to itself. *)
Lemma DeepCopyObject_survivors (e : CR) :
  survives (Kind e) -> survives (APIVersion e) ->
  survives (ObjectMeta e) -> survives (Spec e) -> survives (Status e) -> survives (Scale e) ->
  DeepCopyObject (Some e) = Some e.
Proof.
  intros Hk Ha Hm Hsp Hst Hsc. destruct e as [k a m sp st sc].
  cbn [Kind APIVersion ObjectMeta Spec Status Scale] in *.
  unfold DeepCopyObject, Marshal_CustomResource. cbn [Kind APIVersion ObjectMeta Spec Status Scale].
  destruct (encode_field_some "kind" k Hk) as (f1 & E1).
  destruct (encode_field_some "apiVersion" a Ha) as (f2 & E2).
  destruct (encode_field_some "metadata" m Hm) as (f3 & E3).
  destruct (encode_field_some "spec" sp Hsp) as (f4 & E4).
  destruct (encode_field_some "status" st Hst) as (f5 & E5).
  destruct (encode_field_some "scale" sc Hsc) as (f6 & E6).
  rewrite E1, E2, E3, E4, E5, E6.
  unfold Unmarshal_CustomResource, CustomResource_zero.
  rewrite !fold_left_app.
  rewrite (decode_kind k f1 _ _ _ _ _ _ Hk E1 eq_refl).
  rewrite (decode_apiVersion a f2 _ _ _ _ _ _ Ha E2 eq_refl).
  rewrite (decode_metadata m f3 _ _ _ _ _ _ Hm E3 eq_refl).
  rewrite (decode_spec sp f4 _ _ _ _ _ _ Hsp E4 eq_refl).
  rewrite (decode_status st f5 _ _ _ _ _ _ Hst E5 eq_refl).
  rewrite (decode_scale sc f6 _ _ _ _ _ _ Hsc E6 eq_refl).
  reflexivity.
Qed.
End Envelope.

Section Markers.
Context {ObjectMetaT TSpec TStatus TScale : Type}.
Context `{GoJSON ObjectMetaT} `{GoJSON TSpec} `{GoJSON TStatus} `{GoJSON TScale}.

Lemma Marshal_markers
    (u : CustomResource ObjectMetaT FieldUndefined FieldUndefined FieldUndefined) :
  survives (ObjectMeta u) ->
  exists doc,
    Marshal_CustomResource u = Some doc /\
    jlookup "spec" doc = marker_json (Spec u) /\
    jlookup "status" doc = marker_json (Status u) /\
    jlookup "scale" doc = marker_json (Scale u).
Proof.
  intros Hm. destruct u as [k a m sp st sc]. cbn [ObjectMeta Spec Status Scale] in *.
  unfold Marshal_CustomResource. cbn [Kind APIVersion ObjectMeta Spec Status Scale].
  destruct (encode_field_survives "metadata" m Hm) as [(E3 & _)|(j & E3 & _)]; rewrite E3;
    unfold encode_field; cbn [isEmptyValue string_json FieldUndefined_json Marshal];
    destruct (String.eqb k ""), (String.eqb a ""), sp as [[]|], st as [[]|], sc as [[]|];
    eexists; (split; [reflexivity|]); cbn; auto.
Qed.

(** C4, as the code has it.  An envelope whose kind, version, metadata
    and payload values survive their own JSON encoding (a value that
    [omitempty] skips is the zero value, any other value encodes without
    error and decodes back to itself) is deep-copied to an equal value,
    for every instantiation of the payload types.  Every value of the
    undefined marker type survives, so an envelope [u] with three marker
    fields is copied to an equal value as soon as its kind, version and
    metadata survive; in its encoded document a marker field that is nil
    is absent, and one that points to the empty struct is the empty
    object.  A string survives when it is well-formed UTF-8: the encoder
    replaces every other byte. *)
Theorem DeepCopyObject_roundtrip
    (e : CustomResource ObjectMetaT TSpec TStatus TScale)
    (u : CustomResource ObjectMetaT FieldUndefined FieldUndefined FieldUndefined) :
  survives (Kind e) -> survives (APIVersion e) ->
  survives (ObjectMeta e) -> survives (Spec e) -> survives (Status e) -> survives (Scale e) ->
  survives (Kind u) -> survives (APIVersion u) -> survives (ObjectMeta u) ->
  DeepCopyObject (Some e) = Some e /\
  DeepCopyObject (Some u) = Some u /\
  (exists doc,
     Marshal_CustomResource u = Some doc /\
     jlookup "spec" doc = marker_json (Spec u) /\
     jlookup "status" doc = marker_json (Status u) /\
     jlookup "scale" doc = marker_json (Scale u)) /\
  (forall s : string, valid_utf8 s = true -> survives s).
Proof.
  intros Hk Ha Hm Hsp Hst Hsc Hku Hau Hmu.
  split; [apply DeepCopyObject_survivors; assumption|].
  split; [apply DeepCopyObject_survivors; auto using FieldUndefined_survives|].
  split; [apply Marshal_markers; assumption|].
  exact string_survives.
Qed.
End Markers.
End KResourceFacts.

(** ** The properties on the concrete instantiation *)

Module Instances.
Import Example KResource.

(** A reconcile of an object the store does not know: the callback gets
    the Deleted classification and the zero-valued resource. *)
Example Reconcile_of_deleted_object :
  callbacks
    (trace (snd (KReconciler.Reconcile store_empty
                   (KReconciler.controller_of None reconciled {| cache := true |})
                   "kapi-example" "target" connected_cluster))) =
  [(ReconcileEventTypeDeleted, zeroOf)].
Proof. vm_compute. reflexivity. Qed.

(** Against C2: no filter is supplied, so the creation event is
    forwarded, but the fetch of [Reconcile] fails with an error that is
    not a not-found one and the callback is not invoked at all. *)
Lemma deliver_without_callback :
  let res :=
    KReconciler.deliver GetName GetNamespace store_unavailable
      (KReconciler.controller_of None reconciled {| cache := true |})
      (CreateEvent (OfConfigAudit audit1)) connected_cluster in
  fst res = Done (Some (Some (PlainError "the cache is not started, can not read objects"))) /\
  callbacks (trace (snd res)) = [].
Proof. vm_compute. split; reflexivity. Qed.

(** Against C3: an uncached client whose low-level client cannot
    be built returns that error and issues no update request, with no
    subresource name. *)
Lemma Update_without_client :
  let res :=
    KClient.Update (Obj:=Object) no_direct_client {| cache := false |} audit1 []
      connected_cluster in
  fst res =
    Done (audit1,
          Some (PlainError "failed to determine the rest mapping: connection refused")) /\
  store_calls (trace (snd res)) = [].
Proof. vm_compute. split; reflexivity. Qed.

(** On the same cluster a rejected second subresource stops the loop:
    the third name is never requested. *)
Example Update_stops_at_scale :
  let res :=
    KClient.Update (Obj:=Object) store_scale_rejected {| cache := true |} audit1
      ["status"; "scale"; "status"] connected_cluster in
  fst res =
    Done (audit1, Some (PlainError "unable to update subresource scale. conflict")) /\
  store_calls (trace (snd res)) =
    [(ReqSubResourceUpdate "status" audit1, None);
     (ReqSubResourceUpdate "scale" audit1, Some (PlainError "conflict"))].
Proof. vm_compute. split; reflexivity. Qed.

(** Against C8: a Create that succeeds writes its trace-level
    line and then stops the timer; no trace-level line follows the stop. *)
Lemma Create_logs_before_timer_stop :
  let res := KClient.Create (Obj:=Object) store_ok {| cache := true |} audit1 connected_cluster in
  fst res = Done (audit1, None) /\
  (exists before payload,
     trace (snd res) =
       before ++ [KClientOps.trace_log "create" payload; KClientOps.timer_stop "create"]) /\
  log_after_stop "kapi_client" 3 (trace (snd res)) = false.
Proof.
  vm_compute. split; [reflexivity|]. split; [|reflexivity].
  eexists [_; _; _], _. reflexivity.
Qed.

(** Against C4: the copy of an envelope whose spec has a field
    the encoder does not write has lost that field. *)
Lemma DeepCopyObject_loses_unwritten_field :
  KResource.DeepCopyObject (Some noted_envelope) <> Some noted_envelope /\
  (KResource.Spec <$> KResource.DeepCopyObject (Some noted_envelope)) =
    Some {| noted_message := "x"; note := "" |}.
Proof. split; [|vm_compute; reflexivity]. vm_compute. discriminate. Qed.

(** A marker field that is not nil is written as the empty object and is
    not nil in the copy either. *)
Example marker_not_nil :
  (KResource.jlookup "status" <$> KResource.Marshal_CustomResource undefined_envelope) =
    Some (Some (KResource.JObject [])) /\
  (KResource.Status <$> KResource.DeepCopyObject (Some undefined_envelope)) = Some (Some tt).
Proof. vm_compute. split; reflexivity. Qed.

(** The filter of scenario D on a cluster with a cached object: creating
    "target" reaches the callback once, as CreatedOrUpdated; creating an
    object of another name reaches neither the store nor the callback. *)
Example only_target_is_reconciled :
  callbacks
    (trace (snd (KReconciler.deliver GetName GetNamespace store_ok
                   (KReconciler.controller_of (Some only_target_created) reconciled
                      {| cache := true |})
                   (CreateEvent (OfConfigAudit audit1)) connected_cluster))) =
    [(ReconcileEventTypeCreatedOrUpdated, audit1)] /\
  callbacks
    (trace (snd (KReconciler.deliver GetName GetNamespace store_ok
                   (KReconciler.controller_of (Some only_target_created) reconciled
                      {| cache := true |})
                   (CreateEvent
                      (OfConfigAudit {| Name := "other"; Namespace := "kapi-example";
                                        Message := "x" |}))
                   connected_cluster))) = [].
Proof. vm_compute. split; reflexivity. Qed.

(** A filter that lets an update pass when the message is "x" decides on
    the message before the update. *)
Example filter_reads_message_before_update :
  let on_x : ReconcilerFilterFunc Object :=
    fun _ o => match o with
               | OfConfigAudit r => String.eqb (Message r) "x"
               | _ => false
               end in
  fst (KReconciler.predicate (TList:=list ConfigAudit) GetName GetNamespace
         (KReconciler.controller_of (Some on_x) reconciled {| cache := true |})
         (UpdateEvent (OfConfigAudit audit1)
            (OfConfigAudit {| Name := "target"; Namespace := "kapi-example";
                              Message := "y" |}))
         connected_cluster) = Done true.
Proof. vm_compute. reflexivity. Qed.

(** Two instances derived from one parent whose slice has room to spare
    share its backing array: the pairs of the first are overwritten by
    those of the second, while the parent still shows its own. *)
Example siblings_share_the_array :
  let st0 := {| logconv.mem := ∅; logconv.logged := [] |} in
  let parent := logconv.WithValues growslice logconv.NewLogrWrapper [AStr "k"; AStr "v"] st0 in
  let first := logconv.WithValues growslice (fst parent) [AStr "a"; AStr "1"] (snd parent) in
  let second := logconv.WithValues growslice (fst parent) [AStr "b"; AStr "2"] (snd first) in
  logconv.elems (logconv.mem (snd second)) (logconv.attrs (fst parent)) =
    [Some (AStr "k"); Some (AStr "v")] /\
  logconv.elems (logconv.mem (snd first)) (logconv.attrs (fst first)) =
    [Some (AStr "k"); Some (AStr "v"); Some (AStr "a"); Some (AStr "1")] /\
  logconv.elems (logconv.mem (snd second)) (logconv.attrs (fst first)) =
    [Some (AStr "k"); Some (AStr "v"); Some (AStr "b"); Some (AStr "2")].
Proof. vm_compute. repeat split. Qed.


Lemma DeepCopyObject_roundtrip_witness :
  KResource.DeepCopyObject (Some audit_envelope) = Some audit_envelope /\
  KResource.DeepCopyObject (Some undefined_envelope) = Some undefined_envelope.
Proof.
  destruct (KResourceFacts.DeepCopyObject_roundtrip audit_envelope undefined_envelope)
    as (He & Hu & _).
  - apply KResourceFacts.string_survives. reflexivity.
  - apply KResourceFacts.string_survives. reflexivity.
  - unfold KResource.survives. cbn. eexists. split; reflexivity.
  - unfold KResource.survives. cbn. eexists. split; reflexivity.
  - reflexivity.
  - reflexivity.
  - reflexivity.
  - reflexivity.
  - unfold KResource.survives. cbn. eexists. split; reflexivity.
  - split; assumption.
Defined.

(** A kind that holds a byte which is not UTF-8 does not survive: the
    copy holds the replacement character in its place. *)
Example DeepCopyObject_replaces_invalid_bytes :
  let broken :=
    {| KResource.Kind := String (Ascii.ascii_of_N 255) EmptyString;
       KResource.APIVersion := "v1";
       KResource.ObjectMeta := {| meta_name := "target"; meta_namespace := "" |};
       KResource.Spec := (None : KResource.FieldUndefined);
       KResource.Status := (None : KResource.FieldUndefined);
       KResource.Scale := (None : KResource.FieldUndefined) |} in
  KResource.valid_utf8 (KResource.Kind broken) = false /\
  KResource.DeepCopyObject (Some broken) =
    Some {| KResource.Kind := KResource.replacement_character;
            KResource.APIVersion := "v1";
            KResource.ObjectMeta := {| meta_name := "target"; meta_namespace := "" |};
            KResource.Spec := None;
            KResource.Status := None;
            KResource.Scale := None |}.
Proof. vm_compute. split; reflexivity. Qed.


Lemma registration_only_before_Connect_witness :
  let after :=
    KSystem.run_calls GetName GetNamespace assertT toObject typeOf showObj store_ok []
      (snd (KSystem.step GetName GetNamespace assertT toObject typeOf showObj store_ok
              KSystem.CallConnect fresh_cluster)) in
  let w :=
    KSystem.run_calls GetName GetNamespace assertT toObject typeOf showObj store_ok
      [KSystem.CallAddReconciler (Some only_target_created) reconciled]
      (KCluster.NewCluster_result []) in
  (is_panic (fst (KReconciler.AddReconciler store_ok None reconciled after)) = true /\
   is_panic (fst (KHook.AddHook reject_empty after)) = true) /\
  (fst (KReconciler.AddReconciler store_ok None reconciled w) = Done None /\
   controllers (snd (KReconciler.AddReconciler store_ok None reconciled w)) =
     controllers w ++ [KReconciler.controller_of None reconciled {| cache := true |}]) /\
  fst (KHook.AddHook reject_empty w) = Done None.
Proof.
  cbv zeta.
  destruct (KClusterFacts.registration_only_before_Connect GetName GetNamespace assertT
              toObject typeOf showObj store_ok None reconciled
              reject_empty fresh_cluster KSystem.CallConnect [] []
              [KSystem.CallAddReconciler (Some only_target_created) reconciled])
    as (Hafter & (_ & _ & _ & (logged & rest & _ & _ & Hreg) & _) & (Hhook & _));
    [reflexivity|reflexivity|].
  cbn [controller_Complete store_ok] in Hreg.
  split; [exact Hafter|]. split; [exact Hreg|exact Hhook].
Defined.


Lemma scoped_attributes_are_dropped_witness :
  let root := logconv.NewLogrWrapper in
  let st := {| logconv.mem := ∅; logconv.logged := [] |} in
  let derived := logconv.WithValues growslice root [AStr "controller"; AStr "configaudit"] st in
  logconv.elems (logconv.mem (snd derived)) (logconv.attrs (fst derived)) =
    [Some (AStr "controller"); Some (AStr "configaudit")] /\
  logconv.logged (logconv.Info (fst derived) 0 "starting" [AStr "workers"; AInt 1] (snd derived)) =
    [(2%Z, "starting", [AStr "workers"; AInt 1; AStr "dep"; AStr "ctrl-runtime"])].
Proof.
  cbv zeta.
  destruct (logconvFacts.scoped_attributes_are_dropped growslice logconv.NewLogrWrapper
              [AStr "controller"; AStr "configaudit"]
              {| logconv.mem := ∅; logconv.logged := [] |})
    as ((_ & Hchild & _ & Hlog) & _ & Hinfo & _).
  - split; reflexivity.
  - split; [exact Hchild|].
    destruct (Hinfo (fst (logconv.WithValues growslice logconv.NewLogrWrapper
                            [AStr "controller"; AStr "configaudit"]
                            {| logconv.mem := ∅; logconv.logged := [] |}))
                0%Z "starting" [AStr "workers"; AInt 1]) as (Hi & _).
    rewrite Hi, Hlog. reflexivity.
Defined.
End Instances.

(** * Further properties *)

(** ** What every entry point appends to the trace *)

Module KTraceFacts.
Section Closed.
Context {Obj T TList : Type} `{GoType T} `{GoType TList}.
Variable Q : list (event T TList) -> Prop.
Hypothesis HQ : trace_closed Q.

#[local] Abbreviation world := (world Obj T TList).
#[local] Abbreviation M := (M Obj T TList).

Lemma appends_ret {A} (a : A) : appends Q (ret a : M A).
Proof. intros w. exists []. split; [symmetry; apply app_nil_r|apply (closed_nil Q HQ)]. Qed.

Lemma appends_emit e : Q [e] -> appends Q (lift (emit e) : M unit).
Proof. intros He w. exists [e]. split; [reflexivity|exact He]. Qed.

Lemma appends_LogFunc level msg attributes : appends Q (LogFunc level msg attributes : M unit).
Proof. apply appends_emit, (closed_log Q HQ). Qed.

Lemma appends_bind {A B} (m : M A) (k : A -> M B) :
  appends Q m -> (forall a, appends Q (k a)) -> appends Q (bind m k).
Proof.
  intros Hm Hk w. unfold bind.
  destruct (Hm w) as (evs1 & Htr1 & HQ1).
  destruct (m w) as [[a|msg] w1]; cbn [snd] in *.
  - destruct (Hk a w1) as (evs2 & Htr2 & HQ2).
    exists (evs1 ++ evs2). split; [rewrite Htr2, Htr1, app_assoc; reflexivity|].
    apply (closed_app Q HQ); assumption.
  - exists evs1. auto.
Qed.

(** [defer obs.MetricTimerFunc(ctx, metric)(attributes...)] around a body. *)
Lemma appends_timed {A} metric attributes (body : M A) :
  appends Q body ->
  appends Q (bind (MetricTimerFunc metric) (fun stopTimer => defer (stopTimer attributes) body)).
Proof.
  intros Hb w. unfold bind, MetricTimerFunc, defer.
  destruct (Hb (emit (EvTimerStart metric) w)) as (evs & Htr & Hevs).
  destruct (body (emit (EvTimerStart metric) w)) as [r w']. cbn [snd] in *.
  exists (EvTimerStart metric :: evs ++ [EvTimerStop metric attributes]).
  split; [|apply (closed_timed Q HQ), Hevs].
  simpl. rewrite Htr. simpl. rewrite <- !app_assoc. reflexivity.
Qed.

Lemma closed_summary_log act : Q [KClientOps.summary_log act].
Proof.
  exact (closed_log Q HQ 1%Z "kapi.client invoked"
           [AStr "type"; AStr "kapi_client_summary"; AStr "resource_action"; AStr act;
            AStr "resource_type"; AStr (typeName (T:=T));
            AStr "resource_list_type"; AStr (typeName (T:=TList))]).
Qed.

Lemma closed_trace_log act payload : Q [KClientOps.trace_log act payload].
Proof.
  exact (closed_log Q HQ 3%Z "kapi.client invoked"
           [AStr "type"; AStr "kapi_client_trace"; AStr "resource_action"; AStr act;
            AStr "resource_type"; AStr (typeName (T:=T));
            AStr "resource_list_type"; AStr (typeName (T:=TList));
            AStr "resource"; AStr ("+" +:+ payload)]).
Qed.

(** [defer c.observe(ctx, act, obj)()] around a body of the client. *)
Lemma appends_observed {P A} `{GoType P} act (obj0 : P) (body : M (P * A)) :
  appends Q body -> appends Q (KClient.observed act obj0 body).
Proof.
  intros Hb w. rewrite KClientFacts.observed_unfold.
  destruct (Hb (KClientOps.observing act w)) as (evs & Htr & Hevs).
  assert (HQ' : forall payload,
             Q (EvTimerStart "kapi_client" ::
                ([KClientOps.summary_log act] ++ evs ++ [KClientOps.trace_log act payload]) ++
                [KClientOps.timer_stop act])).
  { intros payload. apply (closed_timed Q HQ).
    apply (closed_app Q HQ); [apply closed_summary_log|].
    apply (closed_app Q HQ); [exact Hevs|apply closed_trace_log]. }
  destruct (body (KClientOps.observing act w)) as [[[obj a]|msg] w']; cbn [snd] in *;
    eexists; (split; [|apply HQ']);
    unfold KClientOps.observed_end; simpl; rewrite Htr; unfold KClientOps.observing; simpl;
    rewrite <- !app_assoc; reflexivity.
Qed.

(** [defer h.observe(ctx, act, obj)()] around a body of a hook. *)
Lemma appends_hook_observed {A} (showObj : Obj -> string) act obj (body : M A) :
  appends Q body ->
  appends Q (bind (KHook.observe showObj act obj) (fun stop => defer stop body)).
Proof.
  intros Hb w. cbv [bind KHook.observe MetricTimerFunc LogFunc lift defer ret].
  match goal with
  | |- context [body ?w1] =>
      destruct (Hb w1) as (evs & Htr & Hevs); destruct (body w1) as [r w']
  end.
  cbn [snd] in *.
  exists (EvTimerStart "kapi_hook" ::
          ([EvLog 1 "kapi.hook invoked"
              ([AStr "type"; AStr "kapi_hook_summary"; AStr "resource_action"; AStr act;
                AStr "resource_type"; AStr (typeName (T:=T))] ++ [AStr "lib"; AStr "kapi"])] ++
           [EvLog 3 "kapi.hook invoked"
              ([AStr "type"; AStr "kapi_hook_trace"; AStr "resource_action"; AStr act;
                AStr "resource_type"; AStr (typeName (T:=T));
                AStr "resource"; AStr ("+" +:+ showObj obj)] ++ [AStr "lib"; AStr "kapi"])] ++
           evs) ++
          [EvTimerStop "kapi_hook"
             ["resource_type"; typeName (T:=T); "resource_action"; act]]).
  split.
  - simpl. rewrite Htr. simpl. rewrite <- !app_assoc. reflexivity.
  - apply (closed_timed Q HQ).
    apply (closed_app Q HQ); [apply (closed_log Q HQ)|].
    apply (closed_app Q HQ); [apply (closed_log Q HQ)|exact Hevs].
Qed.

(** *** The client *)

Section Client.
Variable env : Env T TList.
Hypothesis Hclient : forall e : event T TList, is_client_event e = true -> Q [e].

Lemma appends_getClient c : appends Q (KClient.getClient env c : M _).
Proof.
  intros w.
  destruct (KClientFacts.getClient_cases env c w)
    as [(_ & ->)|[(_ & _ & ->)|(_ & _ & [(e & ->)| ->])]]; cbn [snd].
  - exists []. split; [symmetry; apply app_nil_r|apply (closed_nil Q HQ)].
  - exists []. split; [symmetry; apply app_nil_r|apply (closed_nil Q HQ)].
  - exists [EvClientNew]. split; [reflexivity|apply Hclient; reflexivity].
  - exists [EvClientNew]. split; [reflexivity|apply Hclient; reflexivity].
Qed.

Lemma appends_store_call clt req obj : appends Q (KClient.store_call env clt req obj : M _).
Proof.
  intros w. destruct (KClientFacts.store_call_spec env clt req obj w) as (obj' & err & -> & _).
  eexists [_]. split; [reflexivity|apply Hclient; reflexivity].
Qed.

Lemma appends_store_call_list clt l : appends Q (KClient.store_call_list env clt l : M _).
Proof.
  intros w. unfold KClient.store_call_list.
  destruct (store_list env _ _ _);
    (eexists [_]; split; [reflexivity|apply Hclient; reflexivity]).
Qed.

Lemma appends_update_subresources clt subs :
  forall resource, appends Q (KClient.update_subresources env clt resource subs : M _).
Proof.
  induction subs as [|s rest IH]; intros resource; cbn [KClient.update_subresources].
  - apply appends_ret.
  - apply appends_bind; [apply appends_store_call|].
    intros [resource' [err|]]; [apply appends_ret|apply IH].
Qed.

Lemma appends_with_client {P} c (obj0 : P) (k : clientKind -> M (P * option error)) :
  (forall clt, appends Q (k clt)) ->
  appends Q
    (bind (KClient.getClient env c)
       (fun r => match r with
                 | inl err => ret (obj0, Some err)
                 | inr clt => k clt
                 end)).
Proof.
  intros Hk. apply appends_bind; [apply appends_getClient|].
  intros [err|clt]; [apply appends_ret|apply Hk].
Qed.

Lemma appends_Create c r : appends Q (KClient.Create env c r : M _).
Proof.
  apply appends_observed, appends_with_client. intros clt. apply appends_store_call.
Qed.

Lemma appends_Update c r subs : appends Q (KClient.Update env c r subs : M _).
Proof.
  apply appends_observed, appends_with_client. intros clt.
  destruct (Nat.eqb (length subs) 0);
    [apply appends_store_call|apply appends_update_subresources].
Qed.

Lemma appends_Delete c r : appends Q (KClient.Delete env c r : M _).
Proof.
  apply appends_observed, appends_with_client. intros clt. apply appends_store_call.
Qed.

Lemma appends_Get c ns name : appends Q (KClient.Get env c ns name : M _).
Proof.
  apply appends_observed, appends_with_client. intros clt. apply appends_store_call.
Qed.

Lemma appends_List c : appends Q (KClient.List env c : M _).
Proof.
  apply appends_observed, appends_with_client. intros clt. apply appends_store_call_list.
Qed.

(** *** The reconciler *)

Hypothesis Hreconcile : forall e : event T TList, is_reconcile_event e = true -> Q [e].

Lemma appends_Reconcile r ns name : appends Q (KReconciler.Reconcile env r ns name : M _).
Proof.
  unfold KReconciler.Reconcile, NewCorrelationCtx.
  apply appends_bind; [apply appends_emit, Hreconcile; reflexivity|]. intros _.
  apply appends_timed.
  apply appends_bind; [apply appends_Get|].
  intros got. cbv zeta.
  assert (Hinvoke : forall evt,
             appends Q
               (bind (LogFunc 1 "kapi.reconciler invoked"
                        [AStr "type"; AStr "kapi_reconciler_summary";
                         AStr "resource_name";
                         AStr (KReconciler.NamespacedName_String ns name);
                         AStr "resource_type"; AStr (typeName (T:=T));
                         AStr "event_type"; AStr (ReconcileEventType_String evt)])
                  (fun _ =>
                     bind (LogFunc 3 "kapi.reconciler invoked"
                             [AStr "type"; AStr "kapi_reconciler_trace";
                              AStr "resource_name";
                              AStr (KReconciler.NamespacedName_String ns name);
                              AStr "resource_type"; AStr (typeName (T:=T));
                              AStr "resource"; AStr (showPlus (fst got));
                              AStr "event_type"; AStr (ReconcileEventType_String evt)])
                       (fun _ =>
                          bind (lift (emit (EvReconcilerFunc evt (fst got))))
                            (fun _ =>
                               match reconcilerFunc r evt (fst got) with
                               | Some err =>
                                   bind (LogFunc 0
                                           "kapi.reconciler unable to invoke reconciler-func"
                                           [AStr "error"; AErr err;
                                            AStr "resource_name";
                                            AStr (KReconciler.NamespacedName_String ns name);
                                            AStr "resource_type"; AStr (typeName (T:=T));
                                            AStr "event_type";
                                            AInt (ReconcileEventType_int evt)])
                                     (fun _ =>
                                        ret (Some (Errorf
                                                     "unable to execute configured reconcilerfunc. "
                                                     err)))
                               | None => ret None
                               end))) : M (option error))).
  { intros evt.
    apply appends_bind; [apply appends_LogFunc|]. intros _.
    apply appends_bind; [apply appends_LogFunc|]. intros _.
    apply appends_bind; [apply appends_emit, Hreconcile; reflexivity|]. intros _.
    destruct (reconcilerFunc r evt (fst got)); [|apply appends_ret].
    apply appends_bind; [apply appends_LogFunc|]. intros _. apply appends_ret. }
  destruct (snd got) as [err|]; [|apply Hinvoke].
  destruct (negb (IsNotFound err)); [|apply Hinvoke].
  apply appends_bind; [apply appends_LogFunc|]. intros _. apply appends_ret.
Qed.
End Client.

Lemma appends_predicate (GetName GetNamespace : Obj -> string) ctl e :
  appends Q (KReconciler.predicate GetName GetNamespace ctl e : M _).
Proof.
  destruct e; cbn [KReconciler.predicate];
    unfold KReconciler.CreateFunc, KReconciler.UpdateFunc, KReconciler.DeleteFunc,
      KReconciler.reconcilerFilterFuncWithLogging;
    match goal with
    | |- context [negb ?b] => destruct b
    end; cbn [negb];
    (apply appends_bind; [apply appends_LogFunc|intros _; apply appends_ret]).
Qed.

(** *** Hooks *)

Section Hooks.
Variable assertT : Obj -> option T.
Variable toObject : T -> Obj.
Variables (typeOf showObj : Obj -> string).
Hypothesis Hhook : forall e : event T TList, is_hook_callback e = true -> Q [e].

Lemma appends_Default h obj :
  appends Q (KHook.Default assertT toObject typeOf showObj h obj : M _).
Proof.
  unfold KHook.Default. destruct (DefaulterFunc h) as [f|]; [|apply appends_ret].
  apply appends_hook_observed. destruct (assertT obj) as [resource|]; [|apply appends_ret].
  apply appends_bind; [apply appends_emit, Hhook; reflexivity|]. intros _. apply appends_ret.
Qed.

Lemma appends_ValidateCreate h obj :
  appends Q (KHook.ValidateCreate assertT typeOf showObj h obj : M _).
Proof.
  unfold KHook.ValidateCreate. destruct (ValidateCreateFunc h) as [f|]; [|apply appends_ret].
  apply appends_hook_observed. destruct (assertT obj) as [resource|]; [|apply appends_ret].
  apply appends_bind; [apply appends_emit, Hhook; reflexivity|]. intros _. apply appends_ret.
Qed.

Lemma appends_ValidateUpdate h oldObj newObj :
  appends Q (KHook.ValidateUpdate assertT typeOf showObj h oldObj newObj : M _).
Proof.
  unfold KHook.ValidateUpdate. destruct (ValidateUpdateFunc h) as [f|]; [|apply appends_ret].
  apply appends_hook_observed.
  destruct (assertT newObj) as [n|]; [|apply appends_ret].
  destruct (assertT oldObj) as [o|]; [|apply appends_ret].
  apply appends_bind; [apply appends_emit, Hhook; reflexivity|]. intros _. apply appends_ret.
Qed.

Lemma appends_ValidateDelete h obj :
  appends Q (KHook.ValidateDelete assertT typeOf showObj h obj : M _).
Proof.
  unfold KHook.ValidateDelete. destruct (ValidateDeleteFunc h) as [f|]; [|apply appends_ret].
  apply appends_hook_observed. destruct (assertT obj) as [resource|]; [|apply appends_ret].
  apply appends_bind; [apply appends_emit, Hhook; reflexivity|]. intros _. apply appends_ret.
Qed.
End Hooks.

(** *** Registration and Connect *)

Section Setup.
Variable env : Env T TList.
Hypothesis Hsetup : forall e : event T TList, is_setup_event e = true -> Q [e].

Lemma appends_quiet {A} (f : effect Obj T TList) (a : A) :
  (forall w, trace (f w) = trace w) -> appends Q (bind (lift f) (fun _ => ret a) : M A).
Proof.
  intros Hf w. exists []. split; [|apply (closed_nil Q HQ)].
  unfold bind, lift, ret. cbn [snd]. rewrite Hf, app_nil_r. reflexivity.
Qed.

Lemma appends_AddReconciler filter f :
  appends Q (KReconciler.AddReconciler (Obj:=Obj) env filter f).
Proof.
  intros w. unfold KReconciler.AddReconciler. destruct (connected w).
  - exists []. split; [symmetry; apply app_nil_r|apply (closed_nil Q HQ)].
  - apply appends_timed.
    apply appends_bind; [apply appends_LogFunc|]. intros _.
    apply appends_bind.
    { unfold KClient.ClientFor. apply appends_bind; [apply appends_LogFunc|].
      intros _. apply appends_ret. }
    intros clt.
    apply appends_bind; [apply appends_emit, Hsetup; reflexivity|]. intros _.
    intros w'. destruct (controller_Complete env (trace w')).
    + exists []. split; [symmetry; apply app_nil_r|apply (closed_nil Q HQ)].
    + eexists [_]. split; [reflexivity|].
      exact (closed_log Q HQ 3%Z "configured kapi.reconciler"
               [AStr "resource_type"; AStr (typeName (T:=T))]).
Qed.

Lemma appends_AddHook hook : appends Q (KHook.AddHook hook : M _).
Proof.
  intros w. unfold KHook.AddHook. destruct (connected w).
  - exists []. split; [symmetry; apply app_nil_r|apply (closed_nil Q HQ)].
  - apply appends_timed.
    apply appends_bind; [apply appends_LogFunc|]. intros _.
    apply appends_bind; [apply appends_emit, Hsetup; reflexivity|]. intros _.
    apply appends_quiet. reflexivity.
Qed.

Lemma appends_Connect : appends Q (KCluster.Connect env : M _).
Proof.
  intros w. unfold KCluster.Connect, bind.
  destruct (connected w) eqn:Hc.
  - rewrite (KClusterFacts.Connect_enter_again w Hc). cbn [snd].
    exists (EvTimerStart "kapi_connect" :: [] ++ [EvTimerStop "kapi_connect" []]).
    split; [simpl; rewrite <- app_assoc; reflexivity|].
    apply (closed_timed Q HQ), (closed_nil Q HQ).
  - rewrite (KClusterFacts.Connect_enter_first w Hc).
    unfold KCluster.manager_Start_begin, lift, KCluster.Connect_leave, defer. cbn [fst snd].
    exists (EvTimerStart "kapi_connect" ::
            ([EvLog 3 "connecting k8s.cluster" ([] ++ [AStr "lib"; AStr "kapi"])] ++
             [EvManagerStart]) ++ [EvTimerStop "kapi_connect" []]).
    split.
    + destruct (manager_Start env _); simpl; rewrite <- !app_assoc; reflexivity.
    + apply (closed_timed Q HQ).
      apply (closed_app Q HQ); [apply (closed_log Q HQ)|apply Hsetup; reflexivity].
Qed.

Lemma appends_manager_Start_begin : appends Q (KCluster.manager_Start_begin : M _).
Proof. apply appends_emit, Hsetup. reflexivity. Qed.
End Setup.

(** *** Every whole call *)

Section Step.
Variables (GetName GetNamespace : Obj -> string).
Variable assertT : Obj -> option T.
Variable toObject : T -> Obj.
Variables (typeOf showObj : Obj -> string).
Variable env : Env T TList.
Hypothesis Hclient : forall e : event T TList, is_client_event e = true -> Q [e].
Hypothesis Hreconcile : forall e : event T TList, is_reconcile_event e = true -> Q [e].
Hypothesis Hhook : forall e : event T TList, is_hook_callback e = true -> Q [e].
Hypothesis Hsetup : forall e : event T TList, is_setup_event e = true -> Q [e].

Lemma appends_deliver ctl e :
  appends Q (KReconciler.deliver GetName GetNamespace env ctl e : M _).
Proof.
  unfold KReconciler.deliver.
  apply appends_bind; [apply appends_predicate|]. intros [|]; [|apply appends_ret].
  apply appends_bind; [apply appends_Reconcile; assumption|]. intros r. apply appends_ret.
Qed.

Lemma appends_step (c : KSystem.call) (w : world) :
  is_connect_phase c = false ->
  exists evs,
    trace (snd (KSystem.step GetName GetNamespace assertT toObject typeOf showObj env c w)) =
      trace w ++ evs /\ Q evs.
Proof.
  intros Hc.
  destruct c; try discriminate Hc; cbn [KSystem.step]; unfold KSystem.observe_call; cbn [snd].
  - apply appends_Connect, Hsetup.
  - apply appends_manager_Start_begin, Hsetup.
  - apply appends_AddReconciler, Hsetup.
  - apply appends_AddHook, Hsetup.
  - apply appends_Create, Hclient.
  - apply appends_Update, Hclient.
  - apply appends_Delete, Hclient.
  - apply appends_Get, Hclient.
  - apply appends_List, Hclient.
  - apply appends_deliver.
  - apply appends_Reconcile; assumption.
  - apply appends_Default, Hhook.
  - apply appends_ValidateCreate, Hhook.
  - apply appends_ValidateUpdate, Hhook.
  - apply appends_ValidateDelete, Hhook.
Qed.
End Step.
End Closed.
End KTraceFacts.

(** ** Invariants of every entry point *)

Module KInvariants.
Section Invariants.
Context {Obj T TList : Type} `{GoType T} `{GoType TList}.
Variables (GetName GetNamespace : Obj -> string).
Variable assertT : Obj -> option T.
Variable toObject : T -> Obj.
Variables (typeOf showObj : Obj -> string).
Variable env : Env T TList.

#[local] Abbreviation world := (world Obj T TList).
#[local] Abbreviation step :=
  (KSystem.step GetName GetNamespace assertT toObject typeOf showObj env).

Implicit Types evs : list (event T TList).

Lemma run_timers_app open evs1 evs2 :
  run_timers open (evs1 ++ evs2) =
    match run_timers open evs1 with
    | Some open' => run_timers open' evs2
    | None => None
    end.
Proof.
  revert open. induction evs1 as [|e evs1 IH]; intros open; [reflexivity|].
  destruct e; cbn [app run_timers]; try apply IH.
  destruct open as [|m open]; [reflexivity|].
  destruct (String.eqb metric m); [apply IH|reflexivity].
Qed.

Lemma timers_nested_closed : trace_closed (timers_nested (T:=T) (TList:=TList)).
Proof.
  split.
  - intros open. reflexivity.
  - intros evs1 evs2 H1 H2 open. rewrite run_timers_app, H1. apply H2.
  - intros level msg attributes open. reflexivity.
  - intros metric attributes evs Hevs open.
    cbn [run_timers]. rewrite run_timers_app, Hevs. cbn [run_timers].
    rewrite String.eqb_refl. reflexivity.
Qed.

Lemma tagged_closed : trace_closed (fun evs => Forall (tagged (T:=T) (TList:=TList)) evs).
Proof.
  split.
  - constructor.
  - intros evs1 evs2 H1 H2. apply Forall_app. auto.
  - intros level msg attributes. constructor; [|constructor]. exists attributes. reflexivity.
  - intros metric attributes evs Hevs. constructor; [exact I|].
    apply Forall_app. split; [exact Hevs|]. constructor; [exact I|constructor].
Qed.

Lemma untouched_store_closed :
  trace_closed (fun evs => store_calls evs = [] /\ client_news evs = 0).
Proof.
  assert (Hnews : forall evs1 evs2,
             client_news (evs1 ++ evs2) = client_news evs1 + client_news evs2).
  { intros evs1 evs2. induction evs1 as [|e evs1 IH]; [reflexivity|].
    destruct e; simpl; rewrite ?IH; reflexivity. }
  split.
  - split; reflexivity.
  - intros evs1 evs2 (Hs1 & Hn1) (Hs2 & Hn2).
    rewrite store_calls_app, Hnews, Hs1, Hs2, Hn1, Hn2. split; reflexivity.
  - intros level msg attributes. split; reflexivity.
  - intros metric attributes evs (Hs & Hn). cbn [store_calls client_news].
    rewrite store_calls_app, Hnews, Hs, Hn. split; reflexivity.
Qed.

(** X19.  Every timer an entry point starts is stopped by the time the
    entry point is left, the innermost timer first, whether it returns or
    panics, and it stops no timer it did not start.  This holds for every
    whole call: the client's operations, [Reconcile] and the delivery of a
    watch event, the hook methods, [AddReconciler], [AddHook] and
    [Connect]. *)
Theorem entry_points_stop_their_timers (c : KSystem.call) (w : world) :
  is_connect_phase c = false ->
  exists evs, trace (snd (step c w)) = trace w ++ evs /\ timers_nested evs.
Proof.
  intros Hc.
  apply (KTraceFacts.appends_step _ timers_nested_closed); try exact Hc;
    intros e He; intros open; destruct e; try discriminate He; reflexivity.
Qed.

Lemma tagged_single (e : event T TList) :
  (forall level msg attributes, e <> EvLog level msg attributes) -> Forall tagged [e].
Proof.
  intros Hne. constructor; [|constructor].
  destruct e; try exact I. exfalso. eapply Hne. reflexivity.
Qed.

(** X20.  Every log line that any entry point writes ends with the pair
    "lib", "kapi": all logging goes through the log function as [Init]
    wrapped it. *)
Theorem every_log_line_is_tagged (c : KSystem.call) (w : world) :
  exists evs, trace (snd (step c w)) = trace w ++ evs /\ Forall tagged evs.
Proof.
  destruct (is_connect_phase c) eqn:Hc.
  - destruct c; try discriminate Hc; cbn [KSystem.step]; unfold KSystem.observe_call;
      cbn [snd].
    + destruct (connected w) eqn:Hw.
      * rewrite (KClusterFacts.Connect_enter_again w Hw). cbn [snd].
        exists [EvTimerStart "kapi_connect"; EvTimerStop "kapi_connect" []].
        split; [simpl; rewrite <- app_assoc; reflexivity|].
        repeat constructor.
      * rewrite (KClusterFacts.Connect_enter_first w Hw). cbn [snd].
        exists [EvTimerStart "kapi_connect";
                EvLog 3 "connecting k8s.cluster" ([] ++ [AStr "lib"; AStr "kapi"])].
        split; [simpl; rewrite <- app_assoc; reflexivity|].
        constructor; [exact I|]. constructor; [|constructor]. exists []. reflexivity.
    + exists [EvTimerStop "kapi_connect" []].
      split; [destruct r; reflexivity|]. repeat constructor.
  - apply (KTraceFacts.appends_step _ tagged_closed); try exact Hc;
      intros e He; apply tagged_single; intros level msg attributes ->; discriminate He.
Qed.

(** X21.  Setting a cluster up uses no client: [AddReconciler],
    [AddHook] and [Connect] (whole or in its parts) issue no store request
    and build no low-level client, whatever their outcome.
    [AddReconciler] makes the reconciler's client and leaves it unused. *)
Theorem setup_uses_no_client (c : KSystem.call) (w : world) :
  is_setup_call c = true ->
  store_calls (trace (snd (step c w))) = store_calls (trace w) /\
  client_news (trace (snd (step c w))) = client_news (trace w).
Proof.
  intros Hc.
  assert (Hnews : forall evs1 evs2 : list (event T TList),
             client_news (evs1 ++ evs2) = client_news evs1 + client_news evs2).
  { intros evs1 evs2. induction evs1 as [|e evs1 IH]; [reflexivity|].
    destruct e; simpl; rewrite ?IH; reflexivity. }
  assert (Hsum : (exists evs, trace (snd (step c w)) = trace w ++ evs /\
                              store_calls evs = [] /\ client_news evs = 0) ->
                 store_calls (trace (snd (step c w))) = store_calls (trace w) /\
                 client_news (trace (snd (step c w))) = client_news (trace w)).
  { intros (evs & -> & Hs & Hn). rewrite store_calls_app, Hnews, Hs, Hn, app_nil_r.
    split; [reflexivity|lia]. }
  apply Hsum. clear Hsum.
  assert (Hsetup : forall e : event T TList,
             is_setup_event e = true -> store_calls [e] = [] /\ client_news [e] = 0).
  { intros e He. destruct e; try discriminate He; split; reflexivity. }
  destruct c; try discriminate Hc; cbn [KSystem.step]; unfold KSystem.observe_call; cbn [snd].
  - apply (KTraceFacts.appends_Connect _ untouched_store_closed env Hsetup).
  - destruct (connected w) eqn:Hw.
    + rewrite (KClusterFacts.Connect_enter_again w Hw). cbn [snd].
      exists [EvTimerStart "kapi_connect"; EvTimerStop "kapi_connect" []].
      split; [simpl; rewrite <- app_assoc; reflexivity|]. split; reflexivity.
    + rewrite (KClusterFacts.Connect_enter_first w Hw). cbn [snd].
      exists [EvTimerStart "kapi_connect";
              EvLog 3 "connecting k8s.cluster" ([] ++ [AStr "lib"; AStr "kapi"])].
      split; [simpl; rewrite <- app_assoc; reflexivity|]. split; reflexivity.
  - apply (KTraceFacts.appends_manager_Start_begin _ Hsetup).
  - exists [EvTimerStop "kapi_connect" []].
    split; [destruct r; reflexivity|]. split; reflexivity.
  - apply (KTraceFacts.appends_AddReconciler _ untouched_store_closed env Hsetup).
  - apply (KTraceFacts.appends_AddHook _ untouched_store_closed Hsetup).
Qed.
End Invariants.
End KInvariants.

(** ** The client, operation by operation *)

Module KClientMore.
Section Facts.
Context {Obj T TList : Type} `{GoType T} `{GoType TList}.
Variable env : Env T TList.
Import KClient KClientOps KClientFacts.

#[local] Abbreviation world := (world Obj T TList).
#[local] Abbreviation M := (M Obj T TList).

Lemma store_call_list_spec clt (l : TList) (w : world) :
  exists l' err,
    store_call_list env clt l w = (Done (l', err), emit (EvStore clt (ReqList l) err) w).
Proof. unfold store_call_list. destruct (store_list env _ _ _); eauto. Qed.

(** The subresource loop goes through the one client it was given, and
    the error it returns is a formatted one. *)
Lemma update_subresources_wraps clt (subs : list string) :
  forall (resource : T) (w : world),
  exists obj err (w' : world) evs,
    update_subresources env clt resource subs w = (Done (obj, err), w') /\
    extends w w' evs /\
    Forall (fun e => exists req er, e = EvStore clt req er) evs /\
    (forall e, err = Some e -> IsNotFound e = false).
Proof.
  induction subs as [|s rest IH]; intros resource w.
  - exists resource, None, w, []. split; [reflexivity|].
    split; [apply extends_refl|]. split; [constructor|]. discriminate.
  - cbn [update_subresources]. unfold bind.
    destruct (store_call_spec env clt (ReqSubResourceUpdate s resource) resource w)
      as (obj1 & err1 & -> & _).
    destruct err1 as [e|].
    + eexists _, _, _, [_]. split; [reflexivity|].
      split; [apply extends_emit|]. split; [repeat constructor; eauto|].
      intros e' [= <-]. reflexivity.
    + destruct (IH obj1 (emit (EvStore clt (ReqSubResourceUpdate s resource) None) w))
        as (obj & err & w' & evs & -> & Hext & Hst & Herr).
      eexists _, _, _, (_ :: evs). split; [reflexivity|].
      split; [exact (extends_trans _ _ _ [_] evs (extends_emit _ _) Hext)|].
      split; [constructor; eauto|exact Herr].
Qed.

(** An observed body that obtains the client and then runs [k] on it,
    case by case: the cluster is not connected; the client is the
    manager's; [client.New] fails; [client.New] succeeds. *)
Lemma observed_with_client {P} `{GoType P} (act : string) (obj0 : P) (c : Client)
    (k : clientKind -> M (P * option error))
    (R : clientKind -> list (event T TList) -> option error -> Prop) (w : world) :
  (forall clt (w1 : world), exists obj err (w' : world) evs,
      k clt w1 = (Done (obj, err), w') /\ extends w1 w' evs /\ R clt evs err) ->
  let res := observed act obj0
               (bind (getClient env c)
                  (fun r => match r with
                            | inl err => ret (obj0, Some err)
                            | inr clt => k clt
                            end)) w in
  let opened := [EvTimerStart "kapi_client"; summary_log act] in
  connected (snd res) = connected w /\
  ((connected w = false /\
    fst res = Panic "kapi.client used before kapi.cluster.connect called" /\
    trace (snd res) = trace w ++ opened ++ [] ++ [trace_log act (show obj0); timer_stop act]) \/
   (connected w = true /\ cache c = true /\
    exists obj err evs,
      fst res = Done (obj, err) /\ R CachedClient evs err /\
      trace (snd res) = trace w ++ opened ++ evs ++ [trace_log act (show obj); timer_stop act]) \/
   (connected w = true /\ cache c = false /\
    exists e,
      client_New env (trace w ++ opened ++ [EvClientNew]) = Some e /\
      fst res = Done (obj0, Some e) /\
      trace (snd res) =
        trace w ++ opened ++ [EvClientNew] ++ [trace_log act (show obj0); timer_stop act]) \/
   (connected w = true /\ cache c = false /\
    client_New env (trace w ++ opened ++ [EvClientNew]) = None /\
    exists obj err evs,
      fst res = Done (obj, err) /\ R DirectClient evs err /\
      trace (snd res) =
        trace w ++ opened ++ (EvClientNew :: evs) ++ [trace_log act (show obj); timer_stop act])).
Proof.
  intros Hk. cbv zeta. rewrite observed_unfold. unfold bind, getClient.
  replace (connected (observing act w)) with (connected w) by reflexivity.
  destruct (connected w) eqn:Hw; cbn [negb].
  - destruct (cache c) eqn:Hc; cbn [negb].
    + destruct (Hk CachedClient (observing act w))
        as (obj & err & w' & evs & -> & (Hcon & _ & _ & Htr) & HR).
      cbn [fst snd]. split; [unfold observed_end; simpl; rewrite Hcon; exact Hw|].
      right. left. split; [reflexivity|]. split; [reflexivity|].
      exists obj, err, evs. split; [reflexivity|]. split; [exact HR|].
      unfold observed_end. simpl. rewrite Htr. unfold observing. simpl.
      rewrite <- !app_assoc. reflexivity.
    + replace (trace (emit EvClientNew (observing act w)))
        with (trace w ++ [EvTimerStart "kapi_client"; summary_log act] ++ [EvClientNew])
        by (unfold observing; simpl; rewrite <- !app_assoc; reflexivity).
      destruct (client_New env _) as [e|] eqn:Hnew.
      * cbn [fst snd ret]. split; [exact Hw|].
        right. right. left. split; [reflexivity|]. split; [reflexivity|].
        exists e. split; [reflexivity|]. split; [reflexivity|].
        unfold observed_end, observing. simpl. rewrite <- !app_assoc. reflexivity.
      * destruct (Hk DirectClient (emit EvClientNew (observing act w)))
          as (obj & err & w' & evs & -> & (Hcon & _ & _ & Htr) & HR).
        cbn [fst snd]. split; [unfold observed_end; simpl; rewrite Hcon; exact Hw|].
        right. right. right. split; [reflexivity|]. split; [reflexivity|].
        split; [reflexivity|].
        exists obj, err, evs. split; [reflexivity|]. split; [exact HR|].
        unfold observed_end. simpl. rewrite Htr. unfold observing. simpl.
        rewrite <- !app_assoc. reflexivity.
  - cbn [fst snd]. split; [exact Hw|].
    left. split; [reflexivity|]. split; [reflexivity|].
    unfold observed_end, observing. simpl. rewrite <- !app_assoc. reflexivity.
Qed.
(** Every operation of the client, case by case. *)
Lemma run_op_cases (c : Client) (op : clientOp) (w : world) :
  let res := run_op env c op w in
  let opened := [EvTimerStart "kapi_client"; summary_log (action op)] in
  let closing payload := [trace_log (action op) payload; timer_stop (action op)] in
  connected (snd res) = connected w /\
  ((connected w = false /\
    fst res = Panic "kapi.client used before kapi.cluster.connect called" /\
    trace (snd res) = trace w ++ opened ++ [] ++ closing (payload_before op)) \/
   (connected w = true /\ cache c = true /\
    exists shown err evs,
      fst res = Done (shown, err) /\ op_requests op CachedClient evs err /\
      trace (snd res) = trace w ++ opened ++ evs ++ closing shown) \/
   (connected w = true /\ cache c = false /\
    exists e,
      client_New env (trace w ++ opened ++ [EvClientNew]) = Some e /\
      fst res = Done (payload_before op, Some e) /\
      trace (snd res) = trace w ++ opened ++ [EvClientNew] ++ closing (payload_before op)) \/
   (connected w = true /\ cache c = false /\
    client_New env (trace w ++ opened ++ [EvClientNew]) = None /\
    exists shown err evs,
      fst res = Done (shown, err) /\ op_requests op DirectClient evs err /\
      trace (snd res) = trace w ++ opened ++ (EvClientNew :: evs) ++ closing shown)).
Proof.
  cbv zeta.
  assert (Hshape : forall {P} `{GoType P} act (obj0 : P) k R,
    (forall clt (w1 : world), exists obj err (w' : world) evs,
        k clt w1 = (Done (obj, err), w') /\ extends w1 w' evs /\ R clt evs err) ->
    let body := bind (getClient env c)
                  (fun r => match r with
                            | inl err => ret (obj0, Some err)
                            | inr clt => k clt
                            end) in
    let res := match observed act obj0 body w with
               | (Done (obj, err), w') => (Done (show obj, err), w')
               | (Panic msg, w') => (Panic msg, w')
               end in
    let opened := [EvTimerStart "kapi_client"; summary_log act] in
    let closing payload := [trace_log act payload; timer_stop act] in
    connected (snd res) = connected w /\
    ((connected w = false /\
      fst res = Panic "kapi.client used before kapi.cluster.connect called" /\
      trace (snd res) = trace w ++ opened ++ [] ++ closing (show obj0)) \/
     (connected w = true /\ cache c = true /\
      exists shown err evs,
        fst res = Done (shown, err) /\ R CachedClient evs err /\
        trace (snd res) = trace w ++ opened ++ evs ++ closing shown) \/
     (connected w = true /\ cache c = false /\
      exists e,
        client_New env (trace w ++ opened ++ [EvClientNew]) = Some e /\
        fst res = Done (show obj0, Some e) /\
        trace (snd res) = trace w ++ opened ++ [EvClientNew] ++ closing (show obj0)) \/
     (connected w = true /\ cache c = false /\
      client_New env (trace w ++ opened ++ [EvClientNew]) = None /\
      exists shown err evs,
        fst res = Done (shown, err) /\ R DirectClient evs err /\
        trace (snd res) = trace w ++ opened ++ (EvClientNew :: evs) ++ closing shown))).
  { intros P HP act obj0 k R Hk. cbv zeta.
    pose proof (observed_with_client act obj0 c k R w Hk) as Hcases. cbv zeta in Hcases.
    destruct (observed act obj0 _ w) as [o w']. cbn [fst snd] in Hcases.
    destruct Hcases as (Hcon & [(Hw & -> & Htr)|[(Hw & Hc & obj & err & evs & -> & HR & Htr)|
                       [(Hw & Hc & e & Hnew & -> & Htr)|
                        (Hw & Hc & Hnew & obj & err & evs & -> & HR & Htr)]]]);
      cbn [fst snd]; (split; [exact Hcon|]).
    - left. auto.
    - right. left. split; [exact Hw|]. split; [exact Hc|]. exists (show obj), err, evs. auto.
    - right. right. left. split; [exact Hw|]. split; [exact Hc|]. exists e. auto.
    - right. right. right. split; [exact Hw|]. split; [exact Hc|]. split; [exact Hnew|].
      exists (show obj), err, evs. auto. }
  destruct op as [r|r subs|r|ns name|]; cbn [run_op action payload_before].
  - apply (Hshape T _ "create" r (fun clt => store_call env clt (ReqCreate r) r)
             (fun clt evs err => evs = [EvStore clt (ReqCreate r) err])).
    intros clt w1. destruct (store_call_spec env clt (ReqCreate r) r w1) as (obj & err & -> & _).
    eexists _, _, _, _. split; [reflexivity|]. split; [apply extends_emit|reflexivity].
  - unfold Update. destruct subs as [|s rest]; cbn [length Nat.eqb].
    + apply (Hshape T _ "update" r (fun clt => store_call env clt (ReqUpdate r) r)
               (fun clt evs err => evs = [EvStore clt (ReqUpdate r) err])).
      intros clt w1. destruct (store_call_spec env clt (ReqUpdate r) r w1) as (obj & err & -> & _).
      eexists _, _, _, _. split; [reflexivity|]. split; [apply extends_emit|reflexivity].
    + apply (Hshape T _ "update" r (fun clt => update_subresources env clt r (s :: rest))
               (fun clt evs err =>
                  Forall (fun e => exists req er, e = EvStore clt req er) evs /\
                  forall e, err = Some e -> IsNotFound e = false)).
      intros clt w1.
      destruct (update_subresources_wraps clt (s :: rest) r w1)
        as (obj & err & w' & evs & -> & Hext & Hvia & Herr).
      eexists _, _, _, _. split; [reflexivity|]. split; [exact Hext|]. split; assumption.
  - apply (Hshape T _ "delete" r (fun clt => store_call env clt (ReqDelete r) r)
             (fun clt evs err => evs = [EvStore clt (ReqDelete r) err])).
    intros clt w1. destruct (store_call_spec env clt (ReqDelete r) r w1) as (obj & err & -> & _).
    eexists _, _, _, _. split; [reflexivity|]. split; [apply extends_emit|reflexivity].
  - apply (Hshape T _ "get" (zeroOf (T:=T))
             (fun clt => store_call env clt (ReqGet ns name zeroOf) zeroOf)
             (fun clt evs err => evs = [EvStore clt (ReqGet ns name zeroOf) err])).
    intros clt w1.
    destruct (store_call_spec env clt (ReqGet ns name zeroOf) zeroOf w1) as (obj & err & -> & _).
    eexists _, _, _, _. split; [reflexivity|]. split; [apply extends_emit|reflexivity].
  - apply (Hshape TList _ "list" (zeroOf (T:=TList))
             (fun clt => store_call_list env clt zeroOf)
             (fun clt evs err => evs = [EvStore clt (ReqList zeroOf) err])).
    intros clt w1.
    destruct (store_call_list_spec clt zeroOf w1) as (obj & err & ->).
    eexists _, _, _, _. split; [reflexivity|]. split; [apply extends_emit|reflexivity].
Qed.
Lemma client_news_app (tr1 tr2 : list (event T TList)) :
  client_news (tr1 ++ tr2) = client_news tr1 + client_news tr2.
Proof.
  induction tr1 as [|e tr1 IH]; [reflexivity|].
  destruct e; simpl; rewrite ?IH; reflexivity.
Qed.

Lemma store_vias_app (tr1 tr2 : list (event T TList)) :
  store_vias (tr1 ++ tr2) = store_vias tr1 ++ store_vias tr2.
Proof.
  induction tr1 as [|e tr1 IH]; [reflexivity|].
  destruct e; simpl; rewrite ?IH; reflexivity.
Qed.

Lemma op_requests_via (op : clientOp) clt (evs : list (event T TList)) err :
  op_requests op clt evs err ->
  client_news evs = 0 /\ Forall (eq clt) (store_vias evs).
Proof.
  unfold op_requests. destruct (single_request op) as [req|].
  - intros ->. split; [reflexivity|]. repeat constructor.
  - intros (Hvia & _). induction Hvia as [|e evs (req & er & ->) _ (IH1 & IH2)].
    + split; [reflexivity|constructor].
    + split; [exact IH1|]. constructor; [reflexivity|exact IH2].
Qed.

(** Reads the three summaries of a trace that an operation has left. *)
Ltac read_trace Htr :=
  rewrite Htr; unfold summary_log, trace_log, timer_stop;
  rewrite ?store_calls_app, ?client_news_app, ?store_vias_app; simpl;
  rewrite ?store_calls_app, ?client_news_app, ?store_vias_app; simpl;
  rewrite ?app_nil_r, ?Nat.add_0_r.

(** X1.  A client can be used only once the cluster is connected.  On a
    connected cluster no operation panics: each returns, with nil or with
    an error.  On a cluster that is not connected every operation panics
    with the client's message, before a low-level client is built and
    before any request is issued.  No operation changes the flag. *)
Theorem client_use_requires_Connect (c : Client) (op : clientOp) (w : world) :
  let res := run_op env c op w in
  (if connected w then exists shown err, fst res = Done (shown, err)
   else fst res = Panic "kapi.client used before kapi.cluster.connect called" /\
        store_calls (trace (snd res)) = store_calls (trace w) /\
        client_news (trace (snd res)) = client_news (trace w)) /\
  connected (snd res) = connected w.
Proof.
  cbv zeta. destruct (run_op_cases c op w) as (Hcon & Hcases). cbv zeta in Hcases.
  split; [|exact Hcon].
  destruct Hcases as [(Hw & Hres & Htr)|[(Hw & Hc & shown & err & evs & Hres & HR & Htr)|
                     [(Hw & Hc & e & Hnew & Hres & Htr)|
                      (Hw & Hc & Hnew & shown & err & evs & Hres & HR & Htr)]]];
    rewrite Hw; eauto.
  split; [exact Hres|]. read_trace Htr. auto.
Qed.

(** X2.  On a connected cluster, [Create], [Delete], [Get], [List] and an
    [Update] without subresource names issue exactly one request, the one
    that names the operation and carries the resource (for [Get] and
    [List] the zero value just allocated), and return the store's error
    for it unchanged.  The only other course is that the uncached client
    could not be built: the operation then returns the error of
    [client.New], leaves the resource as it was and issues no request. *)
Theorem one_request_per_operation (c : Client) (op : clientOp) (req : request T TList)
    (w : world) :
  connected w = true ->
  single_request op = Some req ->
  let res := run_op env c op w in
  (exists shown err,
     fst res = Done (shown, err) /\
     store_calls (trace (snd res)) = store_calls (trace w) ++ [(req, err)]) \/
  (cache c = false /\
   exists e,
     client_New env (trace w ++ [EvTimerStart "kapi_client"; summary_log (action op);
                                 EvClientNew]) = Some e /\
     fst res = Done (payload_before op, Some e) /\
     store_calls (trace (snd res)) = store_calls (trace w)).
Proof.
  intros Hconn Hreq. cbv zeta.
  destruct (run_op_cases c op w) as (_ & Hcases). cbv zeta in Hcases.
  unfold op_requests in Hcases. rewrite Hreq in Hcases.
  destruct Hcases as [(Hw & _)|[(Hw & Hc & shown & err & evs & Hres & -> & Htr)|
                     [(Hw & Hc & e & Hnew & Hres & Htr)|
                      (Hw & Hc & Hnew & shown & err & evs & Hres & -> & Htr)]]].
  - congruence.
  - left. exists shown, err. split; [exact Hres|]. read_trace Htr. reflexivity.
  - right. split; [exact Hc|]. exists e. split; [exact Hnew|]. split; [exact Hres|].
    read_trace Htr. reflexivity.
  - left. exists shown, err. split; [exact Hres|]. read_trace Htr. reflexivity.
Qed.

(** X3.  A client made with [cache] false builds a new low-level client
    on every operation of a connected cluster, exactly one per operation,
    and none is kept; a client made with [cache] true never builds one.
    Every request of an operation goes through the client of that choice:
    the manager's for [cache] true, the one just built otherwise. *)
Theorem direct_client_built_per_operation (c : Client) (op : clientOp) (w : world) :
  let res := run_op env c op w in
  client_news (trace (snd res)) =
    client_news (trace w) + (if connected w && negb (cache c) then 1 else 0) /\
  exists vias,
    store_vias (trace (snd res)) = store_vias (trace w) ++ vias /\
    Forall (eq (via_of c)) vias.
Proof.
  cbv zeta. destruct (run_op_cases c op w) as (_ & Hcases). cbv zeta in Hcases.
  unfold via_of.
  destruct Hcases as [(Hw & Hres & Htr)|[(Hw & Hc & shown & err & evs & Hres & HR & Htr)|
                     [(Hw & Hc & e & Hnew & Hres & Htr)|
                      (Hw & Hc & Hnew & shown & err & evs & Hres & HR & Htr)]]];
    rewrite Hw; try rewrite Hc; cbn [andb negb];
    try (destruct (op_requests_via op _ evs err HR) as (Hnews & Hvias)).
  - split; [read_trace Htr; reflexivity|]. exists []. read_trace Htr. split; [reflexivity|constructor].
  - split; [read_trace Htr; lia|]. exists (store_vias evs). read_trace Htr. auto.
  - split; [read_trace Htr; reflexivity|]. exists []. read_trace Htr. split; [reflexivity|constructor].
  - split; [read_trace Htr; lia|]. exists (store_vias evs). read_trace Htr. auto.
Qed.

(** X4.  The error of an [Update] with subresource names never counts as
    a not-found error, whatever the store answered: the store's error is
    replaced by a formatted one that keeps its text only.  The one error
    that is returned as it is comes from [client.New]. *)
Theorem subresource_update_error_is_formatted (c : Client) (resource : T) (s : string)
    (subs : list string) (w : world) (shown : string) (err : error) :
  fst (run_op env c (OpUpdate resource (s :: subs)) w) = Done (shown, Some err) ->
  IsNotFound err = false \/
  (cache c = false /\
   client_New env (trace w ++ [EvTimerStart "kapi_client"; summary_log "update";
                               EvClientNew]) = Some err).
Proof.
  intros Hres0.
  destruct (run_op_cases c (OpUpdate resource (s :: subs)) w) as (_ & Hcases).
  cbv zeta in Hcases. unfold op_requests in Hcases. cbn [single_request action] in Hcases.
  rewrite Hres0 in Hcases. cbn [fst] in Hcases.
  destruct Hcases as [(_ & Hres & _)|[(_ & _ & sh & er & evs & Hres & (_ & Herr) & _)|
                     [(_ & Hc & e & Hnew & Hres & _)|
                      (_ & _ & _ & sh & er & evs & Hres & (_ & Herr) & _)]]].
  - discriminate.
  - left. injection Hres as _ <-. apply Herr. reflexivity.
  - right. injection Hres as _ ->. auto.
  - left. injection Hres as _ <-. apply Herr. reflexivity.
Qed.
End Facts.
End KClientMore.

(** ** The reconciler, call by call *)

Module KReconcilerMore.
Section Facts.
Context {Obj T TList : Type} `{GoType T} `{GoType TList}.
Variable env : Env T TList.
Import KClient KClientOps KReconciler.

#[local] Abbreviation world := (world Obj T TList).
#[local] Abbreviation M := (M Obj T TList).

(** After its fetch [Reconcile] writes lines and stops its timer, and
    uses no client, until it enters the callback or returns. *)
Lemma Reconcile_up_to_callback (r : controller Obj T) (ns name : string) (w : world) :
  exists lines post,
    trace (snd (Reconcile env r ns name w)) =
      trace (snd (Get env (client r) ns name (reconcile_entry w))) ++ lines ++ post /\
    store_calls lines = [] /\ client_news lines = 0 /\ store_vias lines = [] /\
    callbacks lines = [] /\
    (post = [] \/ exists evt resource post', post = EvReconcilerFunc evt resource :: post').
Proof.
  unfold Reconcile, bind, NewCorrelationCtx, MetricTimerFunc, defer, lift, LogFunc.
  cbn [fst snd]. fold (reconcile_entry w).
  destruct (Get env (client r) ns name (reconcile_entry w)) as [[[resource [err|]]|msg] w2];
    cbn [fst snd].
  - destruct (IsNotFound err); cbn [negb].
    + destruct (reconcilerFunc r ReconcileEventTypeDeleted resource);
        (eexists [_; _], (_ :: _);
         split; [simpl; rewrite <- !app_assoc; reflexivity|]; simpl; eauto 10).
    + eexists [_; _], []. split; [simpl; rewrite <- !app_assoc; reflexivity|]. simpl. auto 10.
  - destruct (reconcilerFunc r ReconcileEventTypeCreatedOrUpdated resource);
      (eexists [_; _], (_ :: _);
       split; [simpl; rewrite <- !app_assoc; reflexivity|]; simpl; eauto 10).
  - eexists [_], []. split; [simpl; reflexivity|]. simpl. auto 10.
Qed.

Lemma run_op_Get (c : Client) (ns name : string) (w : world) :
  snd (run_op env c (OpGet ns name) w) = snd (Get env c ns name w) /\
  fst (run_op env c (OpGet ns name) w) =
    match fst (Get env c ns name w) with
    | Done (obj, err) => Done (show obj, err)
    | Panic msg => Panic msg
    end.
Proof. cbn [run_op]. destruct (Get env c ns name w) as [[[obj err]|msg] w']; auto. Qed.

(** X5.  By the time [Reconcile] enters the callback (or returns, when it
    enters none), it has fetched the resource exactly once, by its
    namespace and name, through the manager's cached client when its
    client was made with [cache] true (as [AddReconciler] makes it), and
    it has built no low-level client.  On a cluster that is not connected
    it panics with the client's message, without a request and without
    entering the callback.  (What a callback requests through a client
    of its own is not counted here: a callback is held as its result.) *)
Theorem Reconcile_fetches_before_the_callback (r : controller Obj T) (ns name : string)
    (w : world) :
  cache (client r) = true ->
  let res := Reconcile env r ns name w in
  if connected w then
    exists err before post,
      trace (snd res) = trace w ++ before ++ post /\
      store_calls before = [(ReqGet ns name zeroOf, err)] /\
      store_vias before = [CachedClient] /\
      client_news before = 0 /\
      callbacks before = [] /\
      (post = [] \/ exists evt resource post', post = EvReconcilerFunc evt resource :: post')
  else
    fst res = Panic "kapi.client used before kapi.cluster.connect called" /\
    store_calls (trace (snd res)) = store_calls (trace w) /\
    client_news (trace (snd res)) = client_news (trace w) /\
    callbacks (trace (snd res)) = callbacks (trace w).
Proof.
  intros Hcache. cbv zeta.
  destruct (Reconcile_up_to_callback r ns name w)
    as (lines & post & Htail & Hs & Hn & Hv & Hcb & Hpost).
  destruct (run_op_Get (client r) ns name (reconcile_entry w)) as (Hsnd & Hfst).
  destruct (KClientMore.run_op_cases env (client r) (OpGet ns name) (reconcile_entry w))
    as (_ & Hcases).
  cbv zeta in Hcases. rewrite Hsnd, Hfst in Hcases.
  replace (connected (reconcile_entry w)) with (connected w) in Hcases by reflexivity.
  replace (trace (reconcile_entry w))
    with (trace w ++ [EvNewCorrelationCtx; EvTimerStart "kapi_reconcile"]) in Hcases
    by (unfold reconcile_entry; simpl; rewrite <- app_assoc; reflexivity).
  unfold op_requests in Hcases. cbn [single_request action] in Hcases.
  destruct Hcases as [(Hw & Hres & Htr)|[(Hw & Hc & shown & err & evs & Hres & -> & Htr)|
                     [(_ & Hc & _)|(_ & Hc & _)]]]; try congruence; rewrite Hw.
  - assert (Hp : fst (Get env (client r) ns name (reconcile_entry w)) =
                 Panic "kapi.client used before kapi.cluster.connect called").
    { destruct (fst (Get env (client r) ns name (reconcile_entry w))) as [[obj e]|msg];
        [discriminate|congruence]. }
    rewrite (KReconcilerFacts.Reconcile_callbacks env r ns name w), Hp.
    rewrite (KReconcilerFacts.Reconcile_panic env r ns name w _ Hp).
    split; [reflexivity|].
    destruct Hpost as [->|(evt & resource & post' & ->)].
    + rewrite Htail, Htr. unfold summary_log, trace_log, timer_stop.
      rewrite !store_calls_app, !KClientMore.client_news_app, Hs, Hn. simpl.
      rewrite !app_nil_r. auto with lia.
    + exfalso.
      pose proof (KReconcilerFacts.Reconcile_callbacks env r ns name w) as Hcbs.
      rewrite Hp, Htail, Htr in Hcbs. unfold summary_log, trace_log, timer_stop in Hcbs.
      rewrite !callbacks_app, Hcb in Hcbs. simpl in Hcbs.
      rewrite !app_nil_r in Hcbs.
      apply (f_equal (@length _)) in Hcbs. rewrite length_app in Hcbs. simpl in Hcbs. lia.
  - exists err,
      ([EvNewCorrelationCtx; EvTimerStart "kapi_reconcile"] ++
       [EvTimerStart "kapi_client"; summary_log "get"] ++
       [EvStore CachedClient (ReqGet ns name zeroOf) err] ++
       [trace_log "get" shown; timer_stop "get"] ++ lines), post.
    split; [rewrite Htail, Htr; rewrite <- !app_assoc; reflexivity|].
    unfold summary_log, trace_log, timer_stop.
    rewrite !store_calls_app, !KClientMore.client_news_app, !KClientMore.store_vias_app,
      !callbacks_app, Hs, Hn, Hv, Hcb.
    simpl. auto 10.
Qed.

(** X6.  What [Reconcile] returns once its fetch has given a resource or
    a not-found error: nil when the callback returns nil; when the
    callback returns an error, a formatted error that keeps its text (and
    so never counts as not-found), after a line at error level that
    carries the callback's own error.  The callback gets the resource the
    fetch returned and the classification of the fetch. *)
Theorem Reconcile_returns_callback_result (r : controller Obj T) (ns name : string)
    (w : world) (resource : T) (fetched : option error) :
  fst (Get env (client r) ns name (reconcile_entry w)) = Done (resource, fetched) ->
  (forall e, fetched = Some e -> IsNotFound e = true) ->
  let evt := match fetched with
             | Some _ => ReconcileEventTypeDeleted
             | None => ReconcileEventTypeCreatedOrUpdated
             end in
  match reconcilerFunc r evt resource with
  | None => fst (Reconcile env r ns name w) = Done None
  | Some err =>
      fst (Reconcile env r ns name w) =
        Done (Some (Errorf "unable to execute configured reconcilerfunc. " err)) /\
      IsNotFound (Errorf "unable to execute configured reconcilerfunc. " err) = false /\
      In (EvLog 0 "kapi.reconciler unable to invoke reconciler-func"
            [AStr "error"; AErr err;
             AStr "resource_name"; AStr (NamespacedName_String ns name);
             AStr "resource_type"; AStr (typeName (T:=T));
             AStr "event_type"; AInt (ReconcileEventType_int evt);
             AStr "lib"; AStr "kapi"])
         (trace (snd (Reconcile env r ns name w)))
  end.
Proof.
  intros Hget Hnf. cbv zeta.
  unfold Reconcile, bind, NewCorrelationCtx, MetricTimerFunc, defer, lift, LogFunc.
  cbn [fst snd]. fold (reconcile_entry w).
  destruct (Get env (client r) ns name (reconcile_entry w)) as [[[res0 [err0|]]|msg] w2];
    cbn [fst snd] in *; try discriminate.
  - injection Hget as -> <-. rewrite (Hnf err0 eq_refl). cbn [negb].
    destruct (reconcilerFunc r ReconcileEventTypeDeleted resource) as [err|]; cbn [fst snd ret].
    + split; [reflexivity|]. split; [reflexivity|].
      simpl. rewrite !in_app_iff. left. right. left. reflexivity.
    + reflexivity.
  - injection Hget as -> <-.
    destruct (reconcilerFunc r ReconcileEventTypeCreatedOrUpdated resource) as [err|];
      cbn [fst snd ret].
    + split; [reflexivity|]. split; [reflexivity|].
      simpl. rewrite !in_app_iff. left. right. left. reflexivity.
    + reflexivity.
Qed.
End Facts.
End KReconcilerMore.

(** ** The hooks, method by method *)

Module KHookMore.
Section Facts.
Context {Obj T TList : Type} `{GoType T}.
Variable assertT : Obj -> option T.
Variable toObject : T -> Obj.
Variables (typeOf showObj : Obj -> string).
Import KHook.

#[local] Abbreviation world := (world Obj T TList).

Ltac hook_run :=
  unfold observe, bind, MetricTimerFunc, LogFunc, lift, defer, ret, logf;
  cbn [fst snd].

(** X7.  A hook method whose callback is set and whose object is of the
    hook's resource type invokes the callback exactly once, on the
    asserted resource, and returns what the callback returns: the
    warnings and the error unchanged, for [Default] the error and the
    resource as the callback left it.  [ValidateUpdate] passes the old
    resource first and the new one second. *)
Theorem hook_delegates_to_callback (h : Hook T) (obj oldObj newObj : Obj)
    (resource oldResource newResource : T) (w : world) :
  assertT obj = Some resource ->
  assertT oldObj = Some oldResource ->
  assertT newObj = Some newResource ->
  (forall f, DefaulterFunc h = Some f ->
     fst (Default assertT toObject typeOf showObj h obj w) =
       Done (toObject (fst (f resource)), snd (f resource)) /\
     hook_callbacks (trace (snd (Default assertT toObject typeOf showObj h obj w))) =
       hook_callbacks (trace w) ++ [EvDefaulterFunc resource]) /\
  (forall f, ValidateCreateFunc h = Some f ->
     fst (ValidateCreate assertT typeOf showObj h obj w) = Done (f resource) /\
     hook_callbacks (trace (snd (ValidateCreate assertT typeOf showObj h obj w))) =
       hook_callbacks (trace w) ++ [EvValidateCreateFunc resource]) /\
  (forall f, ValidateUpdateFunc h = Some f ->
     fst (ValidateUpdate assertT typeOf showObj h oldObj newObj w) =
       Done (f oldResource newResource) /\
     hook_callbacks (trace (snd (ValidateUpdate assertT typeOf showObj h oldObj newObj w))) =
       hook_callbacks (trace w) ++ [EvValidateUpdateFunc oldResource newResource]) /\
  (forall f, ValidateDeleteFunc h = Some f ->
     fst (ValidateDelete assertT typeOf showObj h obj w) = Done (f resource) /\
     hook_callbacks (trace (snd (ValidateDelete assertT typeOf showObj h obj w))) =
       hook_callbacks (trace w) ++ [EvValidateDeleteFunc resource]).
Proof.
  intros Hobj Hold Hnew.
  split; [|split; [|split]]; intros f Hf.
  - unfold Default. rewrite Hf, Hobj. hook_run. split; [reflexivity|].
    simpl. rewrite !KHookFacts.hook_callbacks_app. simpl. rewrite !app_nil_r. reflexivity.
  - unfold ValidateCreate. rewrite Hf, Hobj. hook_run. split; [reflexivity|].
    simpl. rewrite !KHookFacts.hook_callbacks_app. simpl. rewrite !app_nil_r. reflexivity.
  - unfold ValidateUpdate. rewrite Hf, Hold, Hnew. hook_run. split; [reflexivity|].
    simpl. rewrite !KHookFacts.hook_callbacks_app. simpl. rewrite !app_nil_r. reflexivity.
  - unfold ValidateDelete. rewrite Hf, Hobj. hook_run. split; [reflexivity|].
    simpl. rewrite !KHookFacts.hook_callbacks_app. simpl. rewrite !app_nil_r. reflexivity.
Qed.

(** X8.  A hook method is observed exactly when its callback is set.
    With no callback it leaves no trace at all: no timer, no log line.
    With one it starts the timer and writes the summary line and the
    trace line before the callback runs, so the trace line prints the
    object as it was passed in (for [ValidateUpdate] the new object, for
    [Default] the object before defaulting); the callback follows only
    when the type assertion succeeds, and the timer stop comes last. *)
Theorem hook_observed_when_set (h : Hook T) (obj oldObj newObj : Obj) (w : world) :
  trace (snd (Default assertT toObject typeOf showObj h obj w)) =
    trace w ++
    match DefaulterFunc h with
    | None => []
    | Some _ =>
        hook_observed showObj "default" obj
          match assertT obj with
          | Some resource => [EvDefaulterFunc resource]
          | None => []
          end
    end /\
  trace (snd (ValidateCreate assertT typeOf showObj h obj w)) =
    trace w ++
    match ValidateCreateFunc h with
    | None => []
    | Some _ =>
        hook_observed showObj "create" obj
          match assertT obj with
          | Some resource => [EvValidateCreateFunc resource]
          | None => []
          end
    end /\
  trace (snd (ValidateUpdate assertT typeOf showObj h oldObj newObj w)) =
    trace w ++
    match ValidateUpdateFunc h with
    | None => []
    | Some _ =>
        hook_observed showObj "update" newObj
          match assertT newObj, assertT oldObj with
          | Some newResource, Some oldResource =>
              [EvValidateUpdateFunc oldResource newResource]
          | _, _ => []
          end
    end /\
  trace (snd (ValidateDelete assertT typeOf showObj h obj w)) =
    trace w ++
    match ValidateDeleteFunc h with
    | None => []
    | Some _ =>
        hook_observed showObj "delete" obj
          match assertT obj with
          | Some resource => [EvValidateDeleteFunc resource]
          | None => []
          end
    end.
Proof.
  unfold hook_observed.
  split; [|split; [|split]].
  - unfold Default. destruct (DefaulterFunc h); [|simpl; rewrite app_nil_r; reflexivity].
    hook_run. destruct (assertT obj); simpl; rewrite <- !app_assoc; reflexivity.
  - unfold ValidateCreate.
    destruct (ValidateCreateFunc h); [|simpl; rewrite app_nil_r; reflexivity].
    hook_run. destruct (assertT obj); simpl; rewrite <- !app_assoc; reflexivity.
  - unfold ValidateUpdate.
    destruct (ValidateUpdateFunc h); [|simpl; rewrite app_nil_r; reflexivity].
    hook_run. destruct (assertT newObj), (assertT oldObj); simpl;
      rewrite <- !app_assoc; reflexivity.
  - unfold ValidateDelete.
    destruct (ValidateDeleteFunc h); [|simpl; rewrite app_nil_r; reflexivity].
    hook_run. destruct (assertT obj); simpl; rewrite <- !app_assoc; reflexivity.
Qed.
End Facts.
End KHookMore.

(** ** The cluster over any sequence of calls *)

Module KClusterMore.
Section Facts.
Context {Obj T TList : Type} `{GoType T} `{GoType TList}.
Variables (GetName GetNamespace : Obj -> string).
Variable assertT : Obj -> option T.
Variable toObject : T -> Obj.
Variables (typeOf showObj : Obj -> string).
Variable env : Env T TList.
Import KCluster KSystem KClusterFacts.

#[local] Abbreviation world := (world Obj T TList).
#[local] Abbreviation M := (M Obj T TList).
#[local] Abbreviation call := (call (Obj:=Obj) (T:=T)).
#[local] Abbreviation step :=
  (step GetName GetNamespace assertT toObject typeOf showObj env).
#[local] Abbreviation run_calls :=
  (run_calls GetName GetNamespace assertT toObject typeOf showObj env).

Lemma Connect_first_registrations (w : world) :
  connected w = false ->
  controllers (snd (Connect env w)) = controllers w /\
  webhooks (snd (Connect env w)) = webhooks w.
Proof.
  intros Hc. unfold Connect, bind. rewrite (Connect_enter_first w Hc).
  unfold manager_Start_begin, lift, Connect_leave, defer, logf. cbn [fst snd].
  destruct (manager_Start env _); cbn [ret fst snd]; auto.
Qed.


(** What one call does to the registrations: nothing, unless it is a
    registration on a cluster that is not connected, which appends. *)
Lemma step_registrations (c : call) (w : world) :
  (controllers (snd (step c w)) = controllers w /\ webhooks (snd (step c w)) = webhooks w) \/
  (connected w = false /\
   ((exists filter f,
       c = CallAddReconciler filter f /\
       controllers (snd (step c w)) =
         controllers w ++ [KReconciler.controller_of filter f {| cache := true |}] /\
       webhooks (snd (step c w)) = webhooks w) \/
    (exists hook,
       c = CallAddHook hook /\
       controllers (snd (step c w)) = controllers w /\
       webhooks (snd (step c w)) = webhooks w ++ [hook]))).
Proof.
  assert (Hemits : forall {A} (m : M A), emits any_event m ->
             controllers (snd (m w)) = controllers w /\ webhooks (snd (m w)) = webhooks w).
  { intros A m Hm. destruct (Hm w) as (evs & (_ & Hcs & Hhs & _) & _). auto. }
  destruct c; cbn [KSystem.step]; unfold observe_call; cbn [snd].
  - left. destruct (connected w) eqn:Hc.
    + unfold Connect, bind. rewrite (Connect_enter_again w Hc). auto.
    + destruct (Connect_first_registrations w Hc) as (Hcs & Hhs). auto.
  - left. destruct (connected w) eqn:Hc.
    + rewrite (Connect_enter_again w Hc). auto.
    + rewrite (Connect_enter_first w Hc). auto.
  - left. auto.
  - left. apply Hemits. apply emits_Connect_leave. reflexivity.
  - destruct (connected w) eqn:Hc.
    + left. rewrite (AddReconciler_connected env filter f w Hc). auto.
    + destruct (AddReconciler_unconnected env filter f w Hc)
        as (w' & evs & -> & _ & Hhs & _ & _ & [(_ & Hcs)|(err & _ & Hcs)]).
      * right. split; [reflexivity|]. left. exists filter, f. auto.
      * left. auto.
  - destruct (connected w) eqn:Hc.
    + left. rewrite (AddHook_connected hook w Hc). auto.
    + destruct (AddHook_unconnected hook w Hc) as (w' & evs & -> & _ & Hcs & Hhs & _).
      right. split; [reflexivity|]. right. exists hook. auto.
  - left. eapply Hemits, emits_any, KClientFacts.emits_Create.
  - left. eapply Hemits, emits_any, KClientFacts.emits_Update.
  - left. eapply Hemits, emits_any, KClientFacts.emits_Delete.
  - left. eapply Hemits, emits_any, KClientFacts.emits_Get.
  - left. eapply Hemits, emits_any, KClientFacts.emits_List.
  - left. eapply Hemits, emits_deliver.
  - left. eapply Hemits, emits_Reconcile.
  - left. eapply Hemits, emits_Default.
  - left. eapply Hemits, emits_ValidateCreate.
  - left. eapply Hemits, emits_ValidateUpdate.
  - left. eapply Hemits, emits_ValidateDelete.
Qed.
(** X10.  Once the cluster is connected its registrations are frozen:
    whatever is called afterwards, in any order and whether the calls
    return or panic, the controllers and the hooks of the cluster are
    those it had when [Connect] was entered. *)
Theorem registrations_frozen_after_Connect (cs : list call) (w : world) :
  connected w = true ->
  controllers (run_calls cs w) = controllers w /\
  webhooks (run_calls cs w) = webhooks w.
Proof.
  revert w. induction cs as [|c cs IH]; intros w Hc; [auto|].
  cbn [KSystem.run_calls].
  assert (Hc' : connected (snd (step c w)) = true).
  { rewrite (step_connected GetName GetNamespace assertT toObject typeOf showObj env).
    destruct (is_connect_call c); [reflexivity|exact Hc]. }
  destruct (IH _ Hc') as (-> & ->).
  destruct (step_registrations c w) as [Hsame|(Hno & _)]; [exact Hsame|congruence].
Qed.

(** X11.  Every controller that a cluster holds fetches through the
    manager's cache: starting from the cluster that [NewCluster] returns,
    whatever sequence of calls is made, each registered controller's
    client was made with [cache] true, because [AddReconciler] is the only
    call that registers one and it always passes true. *)
Theorem registered_reconcilers_use_the_cache (cs : list call) (tr : list (event T TList)) :
  Forall (fun ctl => cache (client ctl) = true)
         (controllers (run_calls cs (NewCluster_result tr))).
Proof.
  assert (Hinv : forall cs (w : world),
             Forall (fun ctl => cache (client ctl) = true) (controllers w) ->
             Forall (fun ctl => cache (client ctl) = true) (controllers (run_calls cs w))).
  { clear cs. induction cs as [|c cs IH]; intros w Hw; [exact Hw|].
    cbn [KSystem.run_calls]. apply IH.
    destruct (step_registrations c w)
      as [(-> & _)|(_ & [(filter & f & _ & -> & _)|(hook & _ & -> & _)])];
      [exact Hw| |exact Hw].
    apply Forall_app. split; [exact Hw|]. repeat constructor. }
  apply Hinv. constructor.
Qed.
End Facts.
End KClusterMore.

(** ** The further properties on the concrete instantiation *)

Module MoreInstances.
Import Example.

#[local] Abbreviation step :=
  (KSystem.step GetName GetNamespace assertT toObject typeOf showObj).
#[local] Abbreviation run_calls :=
  (KSystem.run_calls GetName GetNamespace assertT toObject typeOf showObj).

Lemma entry_points_stop_their_timers_witness :
  is_connect_phase
    (KSystem.CallGet (Obj:=Object) (T:=ConfigAudit) {| cache := true |} "kapi-example" "target") =
    false /\
  exists evs,
    trace (snd (step store_ok (KSystem.CallGet {| cache := true |} "kapi-example" "target")
                  connected_cluster)) = trace connected_cluster ++ evs /\
    timers_nested evs.
Proof.
  split; [reflexivity|].
  apply (KInvariants.entry_points_stop_their_timers GetName GetNamespace assertT toObject
           typeOf showObj store_ok
           (KSystem.CallGet {| cache := true |} "kapi-example" "target") connected_cluster).
  reflexivity.
Defined.

Lemma setup_uses_no_client_witness :
  is_setup_call (KSystem.CallAddReconciler (Some only_target_created) reconciled) = true /\
  store_calls
    (trace (snd (step store_ok
                   (KSystem.CallAddReconciler (Some only_target_created) reconciled)
                   fresh_cluster))) = [] /\
  client_news
    (trace (snd (step store_ok
                   (KSystem.CallAddReconciler (Some only_target_created) reconciled)
                   fresh_cluster))) = 0.
Proof.
  split; [reflexivity|].
  apply (KInvariants.setup_uses_no_client GetName GetNamespace assertT toObject
           typeOf showObj store_ok
           (KSystem.CallAddReconciler (Some only_target_created) reconciled) fresh_cluster).
  reflexivity.
Defined.

Lemma one_request_per_operation_witness :
  connected connected_cluster = true /\
  store_calls
    (trace (snd (KClientOps.run_op (Obj:=Object) store_empty {| cache := true |}
                   (KClientOps.OpGet "kapi-example" "target") connected_cluster))) =
    [(ReqGet "kapi-example" "target" zeroOf,
      Some (StatusError "NotFound" "configaudits target not found"))].
Proof.
  split; [reflexivity|].
  destruct (KClientMore.one_request_per_operation (Obj:=Object) store_empty {| cache := true |}
              (KClientOps.OpGet "kapi-example" "target")
              (ReqGet "kapi-example" "target" zeroOf) connected_cluster eq_refl eq_refl)
    as [(shown & err & Hres & Hcalls)|(Hc & _)]; [|discriminate Hc].
  rewrite Hcalls. injection Hres as _ <-. reflexivity.
Defined.

Lemma subresource_update_error_is_formatted_witness :
  fst (KClientOps.run_op (Obj:=Object) store_scale_rejected {| cache := true |}
         (KClientOps.OpUpdate audit1 ["status"; "scale"]) connected_cluster) =
    Done (show audit1, Some (PlainError "unable to update subresource scale. conflict")) /\
  IsNotFound (PlainError "unable to update subresource scale. conflict") = false.
Proof.
  split; [reflexivity|].
  destruct (KClientMore.subresource_update_error_is_formatted (Obj:=Object) store_scale_rejected
              {| cache := true |} audit1 "status" ["scale"] connected_cluster (show audit1)
              (PlainError "unable to update subresource scale. conflict") eq_refl)
    as [Hnf|(Hc & _)]; [exact Hnf|discriminate Hc].
Defined.

Lemma Reconcile_fetches_before_the_callback_witness :
  cache (client (KReconciler.controller_of (Obj:=Object) None reconciled {| cache := true |})) =
    true /\
  exists err before post,
    trace (snd (KReconciler.Reconcile store_empty
                  (KReconciler.controller_of None reconciled {| cache := true |})
                  "kapi-example" "target" connected_cluster)) =
      trace connected_cluster ++ before ++ post /\
    store_calls before = [(ReqGet "kapi-example" "target" zeroOf, err)] /\
    store_vias before = [CachedClient].
Proof.
  split; [reflexivity|].
  destruct (KReconcilerMore.Reconcile_fetches_before_the_callback store_empty
              (KReconciler.controller_of (Obj:=Object) None reconciled {| cache := true |})
              "kapi-example" "target" connected_cluster eq_refl)
    as (err & before & post & Htr & Hcalls & Hvias & _).
  exists err, before, post. auto.
Defined.

Lemma Reconcile_returns_callback_result_witness :
  fst (KClient.Get (Obj:=Object) store_ok {| cache := true |} "kapi-example" "target"
         (KReconciler.reconcile_entry connected_cluster)) = Done (audit1, None) /\
  fst (KReconciler.Reconcile store_ok
         (KReconciler.controller_of (Obj:=Object) None
            (fun _ _ => Some (PlainError "quota exceeded")) {| cache := true |})
         "kapi-example" "target" connected_cluster) =
    Done (Some (PlainError "unable to execute configured reconcilerfunc. quota exceeded")).
Proof.
  split; [reflexivity|].
  apply (KReconcilerMore.Reconcile_returns_callback_result store_ok
           (KReconciler.controller_of (Obj:=Object) None
              (fun _ _ => Some (PlainError "quota exceeded")) {| cache := true |})
           "kapi-example" "target" connected_cluster audit1 None eq_refl).
  discriminate.
Defined.

Lemma hook_delegates_to_callback_witness :
  assertT (OfConfigAudit audit1) = Some audit1 /\
  fst (KHook.ValidateCreate (TList:=list ConfigAudit) assertT typeOf showObj reject_empty
         (OfConfigAudit {| Name := "target"; Namespace := "kapi-example"; Message := "" |})
         connected_cluster) =
    Done ([], Some (PlainError "message must not be empty")).
Proof.
  split; [reflexivity|].
  destruct (KHookMore.hook_delegates_to_callback (TList:=list ConfigAudit) assertT toObject
              typeOf showObj reject_empty
              (OfConfigAudit {| Name := "target"; Namespace := "kapi-example"; Message := "" |})
              (OfConfigAudit audit1) (OfConfigAudit audit1)
              {| Name := "target"; Namespace := "kapi-example"; Message := "" |}
              audit1 audit1 connected_cluster eq_refl eq_refl eq_refl)
    as (_ & Hcreate & _).
  destruct (Hcreate _ eq_refl) as (Hres & _). exact Hres.
Defined.


Lemma registrations_frozen_after_Connect_witness :
  connected connected_cluster = true /\
  webhooks (run_calls store_ok
              [KSystem.CallAddHook reject_empty;
               KSystem.CallAddReconciler None reconciled]
              connected_cluster) = [] /\
  controllers (run_calls store_ok
                 [KSystem.CallAddHook reject_empty;
                  KSystem.CallAddReconciler None reconciled]
                 connected_cluster) = [].
Proof.
  split; [reflexivity|].
  destruct (KClusterMore.registrations_frozen_after_Connect GetName GetNamespace assertT
              toObject typeOf showObj store_ok
              [KSystem.CallAddHook reject_empty; KSystem.CallAddReconciler None reconciled]
              connected_cluster eq_refl) as (Hcs & Hhs).
  split; [exact Hhs|exact Hcs].
Defined.
End MoreInstances.

(** ** The log adapter's slices *)

Module logconvMore.
Section Facts.
Variable growslice : nat -> nat -> nat.
Import logconv.

Implicit Types (m : gmap nat (list (option any))) (s : slice) (xs : list any).

Lemma WithValues_spec (l : LogrWrapper) xs (st : state) :
  wf_slice (mem st) (attrs l) ->
  elems (mem (snd (WithValues growslice l xs st))) (attrs (fst (WithValues growslice l xs st))) =
    elems (mem st) (attrs l) ++ (Some <$> xs) /\
  wf_slice (mem (snd (WithValues growslice l xs st))) (attrs (fst (WithValues growslice l xs st))) /\
  logged (snd (WithValues growslice l xs st)) = logged st.
Proof.
  intros Hwf.
  destruct (logconvFacts.append_spec growslice (attrs l) xs (mem st) Hwf) as (_ & Hchild & Hwf').
  unfold WithValues. destruct (append growslice (attrs l) xs (mem st)) as [s' m'].
  cbn [fst snd attrs mem logged] in *. auto.
Qed.

(** X12.  A chain of [WithValues] calls, each on the instance the call
    before it returned, accumulates: the last instance holds the pairs of
    the first one followed by the pairs of every call, in call order,
    whether the slice grew in place or moved to a new array on the way.
    No call of the chain logs anything. *)
Theorem WithValues_chain_accumulates (l : LogrWrapper) (attrss : list (list any)) (st : state) :
  wf_slice (mem st) (attrs l) ->
  let last := fst (WithValues_chain growslice l attrss st) in
  let st' := snd (WithValues_chain growslice l attrss st) in
  elems (mem st') (attrs last) = elems (mem st) (attrs l) ++ (Some <$> concat attrss) /\
  wf_slice (mem st') (attrs last) /\
  logged st' = logged st.
Proof.
  cbv zeta. revert l st. induction attrss as [|xs rest IH]; intros l st Hwf.
  - cbn. rewrite app_nil_r. auto.
  - cbn [WithValues_chain concat].
    destruct (WithValues_spec l xs st Hwf) as (Hel & Hwf' & Hlog).
    destruct (IH _ _ Hwf') as (Hel' & Hwf'' & Hlog').
    rewrite Hel', Hel, Hlog', Hlog, fmap_app, app_assoc. auto.
Qed.

(** [append] when the capacity suffices: the slots after the slice are
    overwritten in the array the slice points at. *)
Lemma append_in_place s xs m p arr :
  array s = Some p -> m !! p = Some arr ->
  len s + length xs <= cap s ->
  append growslice s xs m =
    ({| array := Some p; len := len s + length xs; cap := cap s |},
     <[p := take (len s) arr ++ (Some <$> xs) ++ drop (len s + length xs) arr]> m).
Proof.
  intros Hp Harr Hfit. unfold append.
  destruct (decide (len s + length xs <= cap s)) as [_|Hno]; [|lia].
  rewrite Hp, Harr. reflexivity.
Qed.

Lemma append_twice_in_place s xs ys m :
  wf_slice m s ->
  len s + length xs <= cap s ->
  length ys = length xs ->
  let first := append growslice s xs m in
  let second := append growslice s ys (snd first) in
  elems (snd first) (fst first) = elems m s ++ (Some <$> xs) /\
  elems (snd second) (fst second) = elems m s ++ (Some <$> ys) /\
  elems (snd second) (fst first) = elems m s ++ (Some <$> ys).
Proof.
  intros Hwf Hfit Hlen. cbv zeta.
  unfold wf_slice in Hwf. destruct (array s) as [p|] eqn:Hp.
  - destruct Hwf as (arr & Harr & Hcap & Hle).
    rewrite (append_in_place s xs m p arr Hp Harr Hfit). cbn [fst snd].
    set (arr1 := take (len s) arr ++ (Some <$> xs) ++ drop (len s + length xs) arr).
    assert (Htl : length (take (len s) arr) = len s) by (rewrite length_take; lia).
    assert (Harr1 : (<[p := arr1]> m) !! p = Some arr1) by apply lookup_insert_eq.
    rewrite (append_in_place s ys (<[p := arr1]> m) p arr1 Hp Harr1) by lia.
    cbn [fst snd]. unfold elems. cbn [array len]. rewrite Hp, Harr.
    rewrite !lookup_insert_eq. cbn [default from_option id].
    assert (Ht1 : take (len s) arr1 = take (len s) arr).
    { unfold arr1. rewrite take_app_length'; [reflexivity|symmetry; exact Htl]. }
    rewrite Ht1, Hlen.
    split; [|split].
    + unfold arr1. rewrite app_assoc. rewrite take_app_length'; [reflexivity|].
      rewrite length_app, length_fmap. lia.
    + rewrite app_assoc. rewrite take_app_length'; [reflexivity|].
      rewrite length_app, length_fmap. lia.
    + rewrite app_assoc. rewrite take_app_length'; [reflexivity|].
      rewrite length_app, length_fmap. lia.
  - destruct Hwf as (Hl0 & Hc0). rewrite Hl0, Hc0 in Hfit.
    destruct xs; [|simpl in Hfit; lia]. destruct ys; [|discriminate Hlen].
    unfold append. rewrite Hp.
    destruct (decide (len s + length (@nil any) <= cap s)) as [_|Hno]; [|simpl in Hno; lia].
    cbn [fst snd fmap list_fmap]. rewrite app_nil_r. auto.
Qed.

(** X13.  Two instances derived from the same parent are not independent
    when the parent's slice has room to spare: both are written into the
    parent's backing array at the same place, so deriving the second
    replaces the pairs the first one holds by the pairs of the second.
    (The parent itself shows the same pairs throughout.) *)
Theorem siblings_overwrite_each_other (l : LogrWrapper) (xs ys : list any) (st : state) :
  wf_slice (mem st) (attrs l) ->
  len (attrs l) + length xs <= cap (attrs l) ->
  length ys = length xs ->
  let first := WithValues growslice l xs st in
  let second := WithValues growslice l ys (snd first) in
  elems (mem (snd first)) (attrs (fst first)) = elems (mem st) (attrs l) ++ (Some <$> xs) /\
  elems (mem (snd second)) (attrs (fst second)) = elems (mem st) (attrs l) ++ (Some <$> ys) /\
  elems (mem (snd second)) (attrs (fst first)) = elems (mem st) (attrs l) ++ (Some <$> ys).
Proof.
  intros Hwf Hfit Hlen. cbv zeta.
  pose proof (append_twice_in_place (attrs l) xs ys (mem st) Hwf Hfit Hlen) as Htwice.
  cbv zeta in Htwice. unfold WithValues.
  destruct (append growslice (attrs l) xs (mem st)) as [s1 m1].
  cbn [fst snd mem logged attrs] in *.
  destruct (append growslice (attrs l) ys m1) as [s2 m2].
  cbn [fst snd mem logged attrs] in *. exact Htwice.
Qed.
End Facts.
End logconvMore.

(** ** The envelope when the encoder fails *)

Module KResourceMore.
Import KResource.

Section Envelope.
Context {ObjectMetaT TSpec TStatus TScale : Type}.
Context `{GoJSON ObjectMetaT} `{GoJSON TSpec} `{GoJSON TStatus} `{GoJSON TScale}.

Lemma encode_field_unencodable {A} `{GoJSON A} (name : string) (v : A) :
  unencodable v -> encode_field name v = None.
Proof. intros (He & Hm). unfold encode_field. rewrite He, Hm. reflexivity. Qed.

(** X14.  [DeepCopyObject] drops the encoder's error.  When the metadata
    or one of the three payloads of an envelope is not empty and cannot be
    encoded, the copy is not nil and not a partial copy: it is the zero
    envelope, with the kind, the version, the metadata and every payload
    of the original lost, and the caller is not told. *)
Theorem DeepCopyObject_of_unencodable (e : CustomResource ObjectMetaT TSpec TStatus TScale) :
  unencodable (ObjectMeta e) \/ unencodable (Spec e) \/ unencodable (Status e) \/
    unencodable (Scale e) ->
  DeepCopyObject (Some e) = Some CustomResource_zero.
Proof.
  intros Hbad. unfold DeepCopyObject.
  assert (Hm : Marshal_CustomResource e = None).
  { unfold Marshal_CustomResource.
    destruct Hbad as [Hb|[Hb|[Hb|Hb]]];
      rewrite (encode_field_unencodable _ _ Hb);
      repeat match goal with
             | |- context [match encode_field ?n ?v with _ => _ end] =>
                 destruct (encode_field n v)
             end; reflexivity. }
  rewrite Hm. reflexivity.
Qed.
End Envelope.
End KResourceMore.

(** ** NewCluster *)

Module KNewClusterFacts.
Section Facts.
Context {KindType Scheme : Type}.
Variable env : KNewCluster.Env KindType Scheme.
Import KNewCluster.

#[local] Abbreviation event := (event Scheme).
#[local] Abbreviation ClusterConfig := (ClusterConfig KindType).

Lemma managers_app (tr1 tr2 : list event) :
  managers (tr1 ++ tr2) = managers tr1 ++ managers tr2.
Proof.
  induction tr1 as [|e tr1 IH]; [reflexivity|].
  destruct e; simpl; rewrite ?IH; reflexivity.
Qed.

(** The registration loops log, and ask for no manager. *)
Lemma register_kinds_quiet group version kinds :
  forall scheme (tr : list event),
  exists evs,
    snd (register_kinds env group version kinds scheme tr) = tr ++ evs /\ managers evs = [].
Proof.
  induction kinds as [|[kindName kindType] rest IH]; intros scheme tr.
  - exists []. rewrite app_nil_r. auto.
  - cbn [register_kinds]. unfold bind, call, LogFunc, emit, panic, ret.
    destruct (kind_type_name env kindType) as [msg|name]; cbn [fst snd].
    + exists []. rewrite app_nil_r. auto.
    + destruct (AddKnownTypeWithName env scheme group version kindName kindType)
        as [msg|scheme']; cbn [fst snd].
      * eexists [_]. split; reflexivity.
      * destruct (IH scheme' (tr ++ [EvLog 3 "registering kind type mapping in scheme"
                                       ([VStr "gvk"; VStr (gvk_String group version kindName);
                                         VStr "kind_type"; VStr name] ++
                                        [VStr "lib"; VStr "kapi"])]))
          as (evs & -> & Hm).
        eexists (_ :: evs). rewrite <- app_assoc. split; [reflexivity|exact Hm].
Qed.

Lemma register_crds_quiet crds :
  forall scheme (tr : list event),
  exists evs,
    snd (register_crds env crds scheme tr) = tr ++ evs /\ managers evs = [].
Proof.
  induction crds as [|crd rest IH]; intros scheme tr.
  - exists []. rewrite app_nil_r. auto.
  - cbn [register_crds]. unfold bind at 1. unfold call, panic, ret.
    destruct (AddToGroupVersion env scheme (APIGroup crd) (APIVersion crd)) as [msg|scheme1];
      cbn [fst snd].
    + exists []. rewrite app_nil_r. auto.
    + unfold bind.
      destruct (register_kinds_quiet (APIGroup crd) (APIVersion crd) (Kinds crd) scheme1 tr)
        as (evs1 & Hevs1 & Hm1).
      destruct (register_kinds env (APIGroup crd) (APIVersion crd) (Kinds crd) scheme1 tr)
        as [[scheme2|msg|] tr1]; cbn [fst snd] in *; subst tr1; eauto.
      destruct (IH scheme2 (tr ++ evs1)) as (evs2 & -> & Hm2).
      exists (evs1 ++ evs2). rewrite app_assoc, managers_app, Hm1, Hm2. auto.
Qed.

(** X15.  [NewCluster] refuses a leader election that is enabled without
    a lock resource, or without a namespace when the configuration lists
    no namespace either: it panics, the missing lock resource being
    reported first, before the scheme is built and before a manager is
    asked for; the timer it started is stopped all the same. *)
Theorem NewCluster_rejects_incomplete_election (cfg : ClusterConfig) (tr : list event) :
  election_incomplete cfg = true ->
  NewCluster env cfg tr =
    (Panicked
       (if String.eqb (LockResource (LeaderElection cfg)) ""
        then "a leader-election-resource must be set, unless leader elections are disabled"
        else "a namespace must be set, unless leader elections are disabled"),
     tr ++ [EvTimerStart "kapi_new_cluster"; EvTimerStop "kapi_new_cluster" []]).
Proof.
  unfold election_incomplete, NewCluster, check_leader_election, bind, defer, emit, panic.
  destruct (Enabled (LeaderElection cfg)); [|discriminate].
  destruct (String.eqb (LockResource (LeaderElection cfg)) ""); cbn [andb orb].
  - intros _. rewrite <- app_assoc. reflexivity.
  - destruct (String.eqb (Namespace (LeaderElection cfg)) ""); [|discriminate].
    destruct (Namespaces cfg); [|discriminate].
    intros _. rewrite <- app_assoc. reflexivity.
Qed.

(** X16.  When [NewCluster] returns, it has asked for exactly one
    manager, with these options: leader election as configured, its lock
    resource as the election id, and as the election's namespace the
    configured one or, when leader election is enabled and none is
    configured, the first of the listed namespaces; the cache restricted
    to the listed namespaces (to none when the list is empty, duplicates
    counting once); the TLS directory as the webhook server's
    certificate directory; the metrics server bound to "0".  It returns
    the cluster of that manager, not connected, exactly when the manager
    could be made, and otherwise the manager's error as a formatted
    error. *)
Theorem NewCluster_manager_options (cfg : ClusterConfig) (tr tr' : list event)
    (r : error + Cluster Scheme) :
  NewCluster env cfg tr = (Returned r, tr') ->
  election_incomplete cfg = false /\
  exists scheme evs,
    let options :=
      {| opt_Scheme := scheme;
         Metrics_BindAddress := "0";
         Cache_DefaultNamespaces := list_to_set (Namespaces cfg);
         WebhookServer_CertDir := TLS cfg;
         opt_LeaderElection := Enabled (LeaderElection cfg);
         LeaderElectionID := LockResource (LeaderElection cfg);
         LeaderElectionNamespace := election_namespace cfg |} in
    tr' = tr ++ evs /\
    managers evs = [options] /\
    r = match NewManager env options with
        | Some err =>
            inl (Errorf "unable to create controller manager for kapi.cluster. " err)
        | None => inr {| manager := options; connected := false |}
        end.
Proof.
  unfold NewCluster. unfold bind at 1. unfold emit at 1. unfold defer.
  set (tr0 := tr ++ [EvTimerStart "kapi_new_cluster"]).
  unfold bind at 1.
  assert (Hcheck :
    (election_incomplete cfg = true /\
     exists msg, check_leader_election cfg tr0 = (Panicked msg, tr0)) \/
    (election_incomplete cfg = false /\
     exists cfg',
       check_leader_election cfg tr0 = (Returned cfg', tr0) /\
       TLS cfg' = TLS cfg /\ Namespaces cfg' = Namespaces cfg /\ cfg_CRDs cfg' = cfg_CRDs cfg /\
       Enabled (LeaderElection cfg') = Enabled (LeaderElection cfg) /\
       LockResource (LeaderElection cfg') = LockResource (LeaderElection cfg) /\
       Namespace (LeaderElection cfg') = election_namespace cfg)).
  { unfold election_incomplete, election_namespace, check_leader_election, panic, ret.
    destruct (Enabled (LeaderElection cfg)) eqn:Hen; cbn [andb].
    - destruct (String.eqb (LockResource (LeaderElection cfg)) "") eqn:Hlock; cbn [orb].
      + left. eauto.
      + destruct (String.eqb (Namespace (LeaderElection cfg)) "") eqn:Hns0.
        * destruct (Namespaces cfg) as [|first rest] eqn:Hns.
          -- left. eauto.
          -- right. split; [reflexivity|]. eexists. split; [reflexivity|].
             cbn. auto 10.
        * right. split; [reflexivity|]. eexists. split; [reflexivity|]. auto 10.
    - right. split; [reflexivity|]. eexists. split; [reflexivity|]. auto 10. }
  intros Hrun.
  destruct Hcheck as [(_ & msg & Hc)|(Hok & cfg' & Hc & Htls & Hns & Hcrds & Hen & Hlock & Hel)];
    rewrite Hc in Hrun.
  { discriminate Hrun. }
  split; [exact Hok|].
  unfold bind at 1 in Hrun. unfold call at 1 in Hrun.
  destruct (builtin_scheme env) as [msg|scheme0]; [discriminate Hrun|].
  unfold ret at 1 in Hrun. unfold bind at 1 in Hrun.
  destruct (register_crds_quiet (cfg_CRDs cfg') scheme0 tr0) as (evs1 & Hevs1 & Hm1).
  destruct (register_crds env (cfg_CRDs cfg') scheme0 tr0) as [[scheme|msg|] tr1];
    cbn [fst snd] in Hevs1; subst tr1; try discriminate Hrun.
  destruct (GetConfigOrDie env); cbn [negb] in Hrun; [|discriminate Hrun].
  unfold bind at 1 in Hrun. unfold emit at 1 in Hrun.
  rewrite Htls, Hns, Hen, Hlock, Hel in Hrun.
  set (options := {| opt_Scheme := scheme; Metrics_BindAddress := "0";
                     Cache_DefaultNamespaces := list_to_set (Namespaces cfg);
                     WebhookServer_CertDir := TLS cfg;
                     opt_LeaderElection := Enabled (LeaderElection cfg);
                     LeaderElectionID := LockResource (LeaderElection cfg);
                     LeaderElectionNamespace := election_namespace cfg |}) in *.
  exists scheme. cbv zeta. fold options.
  destruct (NewManager env options) as [err|] eqn:Hnew.
  - unfold ret in Hrun. injection Hrun as <- <-.
    eexists.
    split; [unfold tr0; rewrite <- !app_assoc; reflexivity|].
    split; [|reflexivity].
    cbn [app managers]. rewrite !managers_app, Hm1. reflexivity.
  - unfold bind, LogFunc, emit, ret in Hrun. injection Hrun as <- <-.
    eexists.
    split; [unfold tr0; rewrite <- !app_assoc; reflexivity|].
    split; [|reflexivity].
    cbn [app managers]. rewrite !managers_app, Hm1. reflexivity.
Qed.

(** X17.  [NewCluster] never reads the [DisableCaching] field of its
    configuration: whatever the field holds, the outcome, the options of
    the manager and everything logged are the same. *)
Theorem DisableCaching_is_never_read (cfg : ClusterConfig) (b : bool) (tr : list event) :
  NewCluster env
    {| TLS := TLS cfg; DisableCaching := b; LeaderElection := LeaderElection cfg;
       Namespaces := Namespaces cfg; cfg_CRDs := cfg_CRDs cfg |} tr =
  NewCluster env cfg tr.
Proof.
  destruct cfg as [tls dc [en lock ns] nss crds].
  unfold NewCluster, check_leader_election, bind, defer, emit, panic, ret.
  cbn [TLS DisableCaching LeaderElection Namespaces cfg_CRDs Enabled LockResource Namespace].
  destruct en; [|reflexivity].
  destruct (String.eqb lock ""); [reflexivity|].
  destruct (String.eqb ns ""); [|reflexivity].
  destruct nss; reflexivity.
Qed.
End Facts.
End KNewClusterFacts.

(** ** The list of resources *)

Module KResourceListFacts.
Import KResource KResourceList.

Section List.
Context {ListMetaT T : Type} `{KResource.GoJSON ListMetaT} `{KResource.GoJSON T}.

#[local] Abbreviation CRL := (CustomResourceList ListMetaT T).

Lemma Marshal_elements_roundtrip (items : list T) :
  Forall roundtrips items ->
  exists js,
    Marshal_elements items = Some js /\
    (fun j => default KResource.json_zero (KResource.Unmarshal j KResource.json_zero)) <$> js =
      items.
Proof.
  induction 1 as [|item rest (j & Hm & Hu) _ (js & Hms & Hus)].
  - exists []. auto.
  - exists (j :: js). cbn [Marshal_elements]. rewrite Hm, Hms.
    split; [reflexivity|]. cbn. rewrite Hu, Hus. reflexivity.
Qed.

(** X18.  The deep copy of a list of resources equals the list, when the
    list's kind, version and metadata survive their encoding (for the two
    strings: when they are well-formed UTF-8) and every item comes back
    from its own encoding.  The items keep their order, and the nil
    slice and the empty slice stay apart: a list without items is copied
    to one without items, a list with an empty slice to one with an empty
    slice. *)
Theorem DeepCopyObject_list_roundtrip (e : CRL) :
  KResource.survives (Kind e) ->
  KResource.survives (APIVersion e) ->
  KResource.survives (ListMeta e) ->
  Forall roundtrips (default [] (Items e)) ->
  DeepCopyObject (Some e) = Some e.
Proof.
  intros Hkind Hversion Hmeta Hitems. destruct e as [k a m items].
  cbn [Kind APIVersion ListMeta Items] in *.
  unfold DeepCopyObject, Marshal_CustomResourceList. cbn [Kind APIVersion ListMeta Items].
  destruct (KResourceFacts.encode_field_survives "kind" k Hkind)
    as [(E1 & Hk)|(j1 & E1 & Hu1)];
  destruct (KResourceFacts.encode_field_survives "apiVersion" a Hversion)
    as [(E2 & Ha)|(j2 & E2 & Hu2)];
  destruct (KResourceFacts.encode_field_survives "metadata" m Hmeta)
    as [(E3 & Hm)|(j3 & E3 & Hu3)];
  rewrite E1, E2, E3; subst;
  (destruct items as [l|]; cbn [encode_items default from_option id] in *;
   [destruct (Marshal_elements_roundtrip l Hitems) as (js & -> & Hjs)|]);
  unfold Unmarshal_CustomResourceList, CustomResourceList_zero; cbn in *;
  rewrite ?Hu1, ?Hu2, ?Hu3; cbn; rewrite ?Hjs; reflexivity.
Qed.
End List.
End KResourceListFacts.

(** ** The envelope, the adapter and the new cluster on concrete values *)

Module MoreInstances2.
Import Example ExampleMore KResource.

Lemma WithValues_chain_accumulates_witness :
  logconv.wf_slice ∅ (logconv.attrs logconv.NewLogrWrapper) /\
  let st := {| logconv.mem := ∅; logconv.logged := [] |} in
  let chain :=
    WithValues_chain growslice logconv.NewLogrWrapper
      [[AStr "controller"; AStr "configaudit"]; [AStr "name"; AStr "audit"]] st in
  logconv.elems (logconv.mem (snd chain)) (logconv.attrs (fst chain)) =
    [Some (AStr "controller"); Some (AStr "configaudit"); Some (AStr "name"); Some (AStr "audit")].
Proof.
  split; [split; reflexivity|]. cbv zeta.
  destruct (logconvMore.WithValues_chain_accumulates growslice logconv.NewLogrWrapper
              [[AStr "controller"; AStr "configaudit"]; [AStr "name"; AStr "audit"]]
              {| logconv.mem := ∅; logconv.logged := [] |}) as (Hel & _).
  - split; reflexivity.
  - exact Hel.
Defined.

Lemma siblings_overwrite_each_other_witness :
  let st := {| logconv.mem := ∅; logconv.logged := [] |} in
  let parent := logconv.WithValues growslice logconv.NewLogrWrapper [AStr "k"; AStr "v"] st in
  let first := logconv.WithValues growslice (fst parent) [AStr "a"; AStr "1"] (snd parent) in
  let second := logconv.WithValues growslice (fst parent) [AStr "b"; AStr "2"] (snd first) in
  logconv.len (logconv.attrs (fst parent)) + 2 <= logconv.cap (logconv.attrs (fst parent)) /\
  logconv.elems (logconv.mem (snd second)) (logconv.attrs (fst first)) =
    logconv.elems (logconv.mem (snd parent)) (logconv.attrs (fst parent)) ++
    [Some (AStr "b"); Some (AStr "2")].
Proof.
  cbv zeta.
  destruct (logconvMore.WithValues_spec growslice logconv.NewLogrWrapper [AStr "k"; AStr "v"]
              {| logconv.mem := ∅; logconv.logged := [] |}) as (_ & Hwf & _).
  { split; reflexivity. }
  assert (Hfit : logconv.len (logconv.attrs (fst (logconv.WithValues growslice
                    logconv.NewLogrWrapper [AStr "k"; AStr "v"]
                    {| logconv.mem := ∅; logconv.logged := [] |}))) + 2 <=
                 logconv.cap (logconv.attrs (fst (logconv.WithValues growslice
                    logconv.NewLogrWrapper [AStr "k"; AStr "v"]
                    {| logconv.mem := ∅; logconv.logged := [] |})))).
  { vm_compute. lia. }
  split; [exact Hfit|].
  destruct (logconvMore.siblings_overwrite_each_other growslice _ [AStr "a"; AStr "1"]
              [AStr "b"; AStr "2"] _ Hwf Hfit eq_refl) as (_ & _ & Hfirst).
  exact Hfirst.
Defined.

Lemma DeepCopyObject_of_unencodable_witness :
  unencodable (KResource.Scale gauge_envelope) /\
  KResource.DeepCopyObject (Some gauge_envelope) = Some KResource.CustomResource_zero.
Proof.
  assert (Hbad : unencodable (KResource.Scale gauge_envelope)) by (split; reflexivity).
  split; [exact Hbad|].
  apply (KResourceMore.DeepCopyObject_of_unencodable gauge_envelope).
  right. right. right. exact Hbad.
Defined.

Lemma DeepCopyObject_list_roundtrip_witness :
  KResourceList.DeepCopyObject (Some audit_list) = Some audit_list.
Proof.
  apply (KResourceListFacts.DeepCopyObject_list_roundtrip audit_list).
  - apply KResourceFacts.string_survives. reflexivity.
  - apply KResourceFacts.string_survives. reflexivity.
  - unfold KResource.survives. cbn. eexists. split; reflexivity.
  - cbn. repeat constructor; eexists; split; reflexivity.
Defined.

Lemma NewCluster_rejects_incomplete_election_witness :
  KNewCluster.election_incomplete unlocked_config = true /\
  fst (KNewCluster.NewCluster framework_ok unlocked_config []) =
    KNewCluster.Panicked
      "a leader-election-resource must be set, unless leader elections are disabled".
Proof.
  split; [reflexivity|].
  rewrite (KNewClusterFacts.NewCluster_rejects_incomplete_election framework_ok
             unlocked_config [] eq_refl).
  reflexivity.
Defined.

Lemma NewCluster_manager_options_witness :
  exists scheme evs,
    snd (KNewCluster.NewCluster framework_ok test_config []) = evs /\
    KNewCluster.managers evs =
      [{| KNewCluster.opt_Scheme := scheme;
          KNewCluster.Metrics_BindAddress := "0";
          KNewCluster.Cache_DefaultNamespaces := list_to_set ["kapi-test"];
          KNewCluster.WebhookServer_CertDir := "";
          KNewCluster.opt_LeaderElection := true;
          KNewCluster.LeaderElectionID := "kapi-test-leader-election-lock";
          KNewCluster.LeaderElectionNamespace := "kapi-test" |}].
Proof.
  destruct (KNewClusterFacts.NewCluster_manager_options framework_ok test_config []
              (snd (KNewCluster.NewCluster framework_ok test_config []))
              (match fst (KNewCluster.NewCluster framework_ok test_config []) with
               | KNewCluster.Returned r => r
               | _ => inl (PlainError "")
               end) eq_refl)
    as (_ & scheme & evs & Htr & Hm & _).
  exists scheme, evs. split; [exact Htr|exact Hm].
Defined.

End MoreInstances2.
